(** * Form validation and submission pipeline of the pharmacy website

    A shallow embedding of the five form components (contact, refill
    request, transfer request, waitlist, promotional sign-up): their
    [validate] functions, their [handleSubmit] handlers and the waitlist
    storage utilities, and of the navigation between the pages, followed
    by the properties established about them.

    Conventions of the embedding.
    - A JavaScript string is the sequence of its code units; the model
      covers code units below 256 and uses [string] for them.
    - A JavaScript number is the rational value of a binary64 value, or
      an infinity or NaN: [Number] rounds the value of a literal to the
      nearest binary64 value, ties to even. Negative zero is not told from
      zero. Numbers inside JSON values are integers.
    - A [Date] is its time value in milliseconds on the local time line
      (local time at a constant offset from UTC), or invalid. One handler
      reads the clock once.
    - An object used as a map from field names to messages is a
      [gmap string string].
    - A handler is a function from the environment (configuration, clock,
      network, storage) and the component state to the new state, the new
      storage and the list of effects it performed. An exception is a
      value [Throw message]. A write to [localStorage] succeeds or throws,
      as the environment tells. *)

From Stdlib Require Import ZArith QArith Ascii String DecimalString List Bool Lia.
From stdpp Require Import base option gmap strings.

Local Set Warnings "-register-all".

Local Open Scope string_scope.
Local Open Scope Z_scope.

(** ** JavaScript strings *)

Module JS.

Definition code (c : ascii) : N := N_of_ascii c.

Definition in_range (lo hi : N) (c : ascii) : bool :=
  ((lo <=? code c) && (code c <=? hi))%N.

(** [\s] of regular expressions, also what [trim] strips: TAB, LF, VT, FF,
    CR, SP and NBSP are the white space and line terminators below 256. *)
Definition isWhitespace (c : ascii) : bool :=
  in_range 9 13 c || (code c =? 32)%N || (code c =? 160)%N.

(** [\d] *)
Definition isDigit (c : ascii) : bool := in_range 48 57 c.

Definition isUpperAZ (c : ascii) : bool := in_range 65 90 c.

Fixpoint trimStart (s : string) : string :=
  match s with
  | String c s' => if isWhitespace c then trimStart s' else s
  | EmptyString => EmptyString
  end.

(** Drops the trailing white space; the result of the recursive call is
    empty exactly when the rest of the string is white space only. *)
Fixpoint trimEnd (s : string) : string :=
  match s with
  | EmptyString => EmptyString
  | String c s' =>
      match trimEnd s' with
      | EmptyString => if isWhitespace c then EmptyString else String c EmptyString
      | t => String c t
      end
  end.

Definition trim (s : string) : string := trimEnd (trimStart s).

Definition isEmpty (s : string) : bool :=
  match s with EmptyString => true | _ => false end.

(** [s.length] *)
Definition length (s : string) : Z := Z.of_nat (String.length s).

Definition lowerChar (c : ascii) : ascii :=
  if in_range 65 90 c || (in_range 192 222 c && negb (code c =? 215)%N)
  then ascii_of_N (code c + 32) else c.

Fixpoint toLowerCase (s : string) : string :=
  match s with
  | EmptyString => EmptyString
  | String c s' => String (lowerChar c) (toLowerCase s')
  end.

(** Upper-casing: the sharp s (223) becomes "SS"; the micro sign (181) and
    the y with diaeresis (255) have upper-case forms above 255, which are as
    little in A-Z as the originals, and are left in place. *)
Fixpoint toUpperCase (s : string) : string :=
  match s with
  | EmptyString => EmptyString
  | String c s' =>
      if in_range 97 122 c || (in_range 224 254 c && negb (code c =? 247)%N)
      then String (ascii_of_N (code c - 32)) (toUpperCase s')
      else if (code c =? 223)%N then String "S" (String "S" (toUpperCase s'))
      else String c (toUpperCase s')
  end.

(** [s.startsWith(p)], with the rest of [s] when it holds *)
Fixpoint stripPrefix (p s : string) : option string :=
  match p, s with
  | EmptyString, _ => Some s
  | String a p', String b s' => if Ascii.eqb a b then stripPrefix p' s' else None
  | String _ _, EmptyString => None
  end.

(** [s.includes(p)] *)
Fixpoint includes (p s : string) : bool :=
  match stripPrefix p s with
  | Some _ => true
  | None => match s with
            | EmptyString => false
            | String _ s' => includes p s'
            end
  end.

(** [s.split(sep)] for a one-character separator string. *)
Fixpoint splitChar (sep : ascii) (s : string) : list string :=
  match s with
  | EmptyString => [EmptyString]
  | String c s' =>
      if Ascii.eqb c sep then EmptyString :: splitChar sep s'
      else match splitChar sep s' with
           | t :: ts => String c t :: ts
           | [] => [String c EmptyString]
           end
  end.

(** [s.split(/[...]+/)] for a separator that is a non-empty run of
    characters of the class [p]: the pieces between the maximal runs, with
    an empty first (last) piece when [s] starts (ends) with a run.
    [inRun] tells that the previous character belonged to a run. *)
Fixpoint splitRuns (p : ascii -> bool) (inRun : bool) (s : string) : list string :=
  match s with
  | EmptyString => [EmptyString]
  | String c s' =>
      if p c then
        if inRun then splitRuns p true s'
        else EmptyString :: splitRuns p true s'
      else match splitRuns p false s' with
           | t :: ts => String c t :: ts
           | [] => [String c EmptyString]
           end
  end.

(** [s.replace(/\D/g, '')] *)
Fixpoint digitsOnly (s : string) : string :=
  match s with
  | EmptyString => EmptyString
  | String c s' => if isDigit c then String c (digitsOnly s') else digitsOnly s'
  end.

(** [parts.join(sep)] *)
Fixpoint join (sep : string) (l : list string) : string :=
  match l with
  | [] => EmptyString
  | [x] => x
  | x :: rest => x +:+ sep +:+ join sep rest
  end.

End JS.

(** ** Regular expressions

    The patterns of the validators use character classes, sequence,
    alternative, option and bounded repetition only; [test] on them is
    membership in a regular language, decided here by derivatives. *)

Module Regex.

Inductive regex : Type :=
| Void
| Eps
| Class (p : ascii -> bool)
| Seq (r1 r2 : regex)
| Alt (r1 r2 : regex)
| Star (r : regex).

Fixpoint nullable (r : regex) : bool :=
  match r with
  | Void => false
  | Eps => true
  | Class _ => false
  | Seq r1 r2 => nullable r1 && nullable r2
  | Alt r1 r2 => nullable r1 || nullable r2
  | Star _ => true
  end.

Fixpoint deriv (c : ascii) (r : regex) : regex :=
  match r with
  | Void => Void
  | Eps => Void
  | Class p => if p c then Eps else Void
  | Seq r1 r2 =>
      if nullable r1 then Alt (Seq (deriv c r1) r2) (deriv c r2)
      else Seq (deriv c r1) r2
  | Alt r1 r2 => Alt (deriv c r1) (deriv c r2)
  | Star r1 => Seq (deriv c r1) (Star r1)
  end.

(** The whole of [s] is in the language of [r]: [/^r$/.test(s)]. *)
Fixpoint matches (r : regex) (s : string) : bool :=
  match s with
  | EmptyString => nullable r
  | String c s' => matches (deriv c r) s'
  end.

Definition Chr (c : ascii) : regex := Class (Ascii.eqb c).
Definition Any : regex := Class (fun _ => true).
Definition Opt (r : regex) : regex := Alt Eps r.
Definition Plus (r : regex) : regex := Seq r (Star r).

Fixpoint Rep (n : nat) (r : regex) : regex :=
  match n with
  | O => Eps
  | S n' => Seq r (Rep n' r)
  end.

(** Some part of [s] is in the language of [r]: [/r/.test(s)]. *)
Definition search (r : regex) (s : string) : bool :=
  matches (Seq (Star Any) (Seq r (Star Any))) s.

Definition digit : regex := Class JS.isDigit.
Definition space : regex := Class JS.isWhitespace.
Definition nonSpace : regex := Class (fun c => negb (JS.isWhitespace c)).

(** [[\s.\-]] *)
Definition phoneSep : regex :=
  Class (fun c => JS.isWhitespace c || Ascii.eqb c "." || Ascii.eqb c "-").

(** [/^(1\s?)?(\(\d{3}\)|\d{3})[\s.\-]?\d{3}[\s.\-]?\d{4}$/] *)
Definition usPhone : regex :=
  Seq (Opt (Seq (Chr "1") (Opt space)))
  (Seq (Alt (Seq (Chr "(") (Seq (Rep 3 digit) (Chr ")"))) (Rep 3 digit))
  (Seq (Opt phoneSep)
  (Seq (Rep 3 digit)
  (Seq (Opt phoneSep) (Rep 4 digit))))).

(** [/\S+@\S+\.\S+/], not anchored *)
Definition emailShape : regex :=
  Seq (Plus nonSpace) (Seq (Chr "@") (Seq (Plus nonSpace) (Seq (Chr ".") (Plus nonSpace)))).

(** [/^[A-Z]{2}$/] *)
Definition stateCode : regex := Rep 2 (Class JS.isUpperAZ).

(** [/^\d{5}(-\d{4})?$/] *)
Definition zipCode : regex :=
  Seq (Rep 5 digit) (Opt (Seq (Chr "-") (Rep 4 digit))).

(** [/^\d{7}$/] *)
Definition ncpdp : regex := Rep 7 digit.

(** [/^\(?(\d{3})\)?[-.\s]?(\d{3})[-.\s]?(\d{4})$/] *)
Definition waitlistPhone : regex :=
  Seq (Opt (Chr "("))
  (Seq (Rep 3 digit)
  (Seq (Opt (Chr ")"))
  (Seq (Opt phoneSep)
  (Seq (Rep 3 digit)
  (Seq (Opt phoneSep) (Rep 4 digit)))))).

End Regex.

(** ** JavaScript numbers and [Number(string)] *)

Module Num.

Inductive number : Type :=
| NaN
| Inf (negative : bool)
| Fin (q : Q).

Definition ofZ (z : Z) : number := Fin (inject_Z z).

Definition isNaN (n : number) : bool :=
  match n with NaN => true | _ => false end.

(** [n <= 0] (false on NaN) *)
Definition leZero (n : number) : bool :=
  match n with
  | NaN => false
  | Inf negative => negative
  | Fin q => Qle_bool q 0
  end.

(** The quotient [num/den] rounded to the nearest integer, a tie to the
    even one. *)
Definition roundHalfEven (num den : Z) : Z :=
  let f := num / den in
  let r := num mod den in
  if 2 * r <? den then f
  else if den <? 2 * r then f + 1
  else if Z.even f then f else f + 1.

(** Exponent of the last place of the binary64 values around the positive
    rational [n/d]: the [e] with [2^52 <= (n/d) / 2^e < 2^53], not below
    the exponent of the subnormal values. *)
Definition lastPlace (n d : positive) : Z :=
  let e0 := Z.log2 (Z.pos n) - Z.log2 (Z.pos d) - 52 in
  let short :=
    if 0 <=? e0 then Z.pos n <? 2 ^ 52 * (Z.pos d * 2 ^ e0)
    else Z.pos n * 2 ^ (- e0) <? 2 ^ 52 * Z.pos d in
  Z.max (if short then e0 - 1 else e0) (-1074).

(** The binary64 value nearest to the positive rational [n/d], ties to the
    even significand: the rational in units of the last place, rounded to
    an integer; from [2^1024] on the value is infinite. *)
Definition nearestPos (n d : positive) : number :=
  let e := lastPlace n d in
  if 0 <=? e then
    let m := roundHalfEven (Z.pos n) (Z.pos d * 2 ^ e) in
    if 2 ^ 1024 <=? m * 2 ^ e then Inf false else Fin (inject_Z (m * 2 ^ e))
  else
    let m := roundHalfEven (Z.pos n * 2 ^ (- e)) (Z.pos d) in
    Fin (Qred (Qmake m (Z.to_pos (2 ^ (- e))))).

(** The Number value of a real: the nearest binary64 value. *)
Definition nearest (q : Q) : number :=
  match Qnum q with
  | Z0 => Fin 0
  | Z.pos n => nearestPos n (Qden q)
  | Z.neg n =>
      match nearestPos n (Qden q) with
      | Fin r => Fin (- r)
      | Inf _ => Inf true
      | NaN => NaN
      end
  end.

Definition round (n : number) : number :=
  match n with
  | Fin q => nearest q
  | other => other
  end.

(** [n - k] for an integer [k] *)
Definition minus (n : number) (k : Z) : number :=
  match n with
  | Fin q => nearest (q - inject_Z k)
  | other => other
  end.

(** ToIntegerOrInfinity on a finite value: truncation towards zero. *)
Definition trunc (q : Q) : Z := Z.quot (Qnum q) (Z.pos (Qden q)).

Definition digitVal (base : Z) (c : ascii) : option Z :=
  let n := Z.of_N (JS.code c) in
  let v := if JS.in_range 48 57 c then n - 48
           else if JS.in_range 97 102 c then n - 87
           else if JS.in_range 65 70 c then n - 55
           else base in
  if v <? base then Some v else None.

(** Reads the longest run of digits of the base: its value, its length and
    what follows it. *)
Fixpoint readDigits (base : Z) (acc : Z) (count : nat) (s : string) : Z * nat * string :=
  match s with
  | EmptyString => (acc, count, s)
  | String c s' =>
      match digitVal base c with
      | Some v => readDigits base (base * acc + v) (S count) s'
      | None => (acc, count, s)
      end
  end.

(** [m * 10^e] *)
Definition scale10 (m e : Z) : Q :=
  if 0 <=? e then inject_Z (m * 10 ^ e)
  else Qred (Qmake m (Z.to_pos (10 ^ (- e)))).

(** ExponentPart, or nothing, up to the end of the literal *)
Definition parseExponent (s : string) : option Z :=
  match s with
  | EmptyString => Some 0
  | String c s' =>
      if Ascii.eqb c "e" || Ascii.eqb c "E" then
        let '(negative, digits) :=
          match s' with
          | String "+" t => (false, t)
          | String "-" t => (true, t)
          | _ => (false, s')
          end in
        let '(v, k, rest) := readDigits 10 0 O digits in
        if Nat.eqb k 0 || negb (JS.isEmpty rest) then None
        else Some (if negative then - v else v)
      else None
  end.

(** StrUnsignedDecimalLiteral: [Infinity], [d.d? e?], [.d e?] or [d e?] *)
Definition parseUnsigned (s : string) : option number :=
  if String.eqb s "Infinity" then Some (Inf false) else
  let '(ip, ni, r1) := readDigits 10 0 O s in
  let '(m, nf, r2) :=
    match r1 with
    | String "." t => let '(m, n, r) := readDigits 10 ip O t in (m, n, r)
    | _ => (ip, O, r1)
    end in
  if Nat.eqb (ni + nf) 0 then None
  else match parseExponent r2 with
       | Some e => Some (Fin (scale10 m (e - Z.of_nat nf)))
       | None => None
       end.

Definition negate (n : number) : number :=
  match n with
  | NaN => NaN
  | Inf b => Inf (negb b)
  | Fin q => Fin (- q)
  end.

(** StrDecimalLiteral: an optional sign before the unsigned literal *)
Definition parseDecimal (s : string) : option number :=
  match s with
  | String "+" t => parseUnsigned t
  | String "-" t => option_map negate (parseUnsigned t)
  | _ => parseUnsigned s
  end.

(** NonDecimalIntegerLiteral: [0x], [0o], [0b] and digits of that base *)
Definition parseNonDecimal (s : string) : option number :=
  match s with
  | String "0" (String p t) =>
      let base := if Ascii.eqb p "x" || Ascii.eqb p "X" then 16
                  else if Ascii.eqb p "o" || Ascii.eqb p "O" then 8
                  else if Ascii.eqb p "b" || Ascii.eqb p "B" then 2
                  else 0 in
      if base =? 0 then None
      else let '(v, k, rest) := readDigits base 0 O t in
           if Nat.eqb k 0 || negb (JS.isEmpty rest) then None
           else Some (ofZ v)
  | _ => None
  end.

(** [Number(s)]: white space around the literal is ignored, the empty
    literal is 0, anything that is no numeric literal is NaN; the
    mathematical value of a literal is rounded to the nearest binary64
    value. *)
Definition Number (s : string) : number :=
  let t := JS.trim s in
  if JS.isEmpty t then ofZ 0
  else match parseNonDecimal t with
       | Some n => round n
       | None => match parseDecimal t with
                 | Some n => round n
                 | None => NaN
                 end
       end.

End Num.

(** ** Dates on the local time line *)

Module Date.

Import Num.

Definition msPerDay : Z := 86400000.

Definition Day (t : Z) : Z := t / msPerDay.
Definition TimeWithinDay (t : Z) : Z := t mod msPerDay.

(** Day number of the first day of year [y]; day 0 is 1 January 1970. *)
Definition DayFromYear (y : Z) : Z :=
  365 * (y - 1970) + (y - 1969) / 4 - (y - 1901) / 100 + (y - 1601) / 400.

Definition InLeapYear (y : Z) : bool :=
  (y mod 4 =? 0) && (negb (y mod 100 =? 0) || (y mod 400 =? 0)).

Definition leapDay (y : Z) : Z := if InLeapYear y then 1 else 0.

(** The largest [y] with [DayFromYear y <= d]: an estimate from the mean
    length of a year, corrected by one year either way. *)
Definition YearFromDay (d : Z) : Z :=
  let e := 1970 + (400 * d) / 146097 in
  if DayFromYear (e + 1) <=? d then e + 1
  else if DayFromYear e <=? d then e
  else e - 1.

(** Day within the year of the first day of month [m] (0 is January);
    [l] is 1 in a leap year. *)
Definition monthStart (l : Z) (m : Z) : Z :=
  match m with
  | 0 => 0
  | 1 => 31
  | 2 => 59 + l
  | 3 => 90 + l
  | 4 => 120 + l
  | 5 => 151 + l
  | 6 => 181 + l
  | 7 => 212 + l
  | 8 => 243 + l
  | 9 => 273 + l
  | 10 => 304 + l
  | _ => 334 + l
  end.

Definition DayWithinYear (d : Z) : Z := d - DayFromYear (YearFromDay d).

Definition MonthFromDay (d : Z) : Z :=
  let l := leapDay (YearFromDay d) in
  let w := DayWithinYear d in
  if w <? 31 then 0
  else if w <? 59 + l then 1
  else if w <? 90 + l then 2
  else if w <? 120 + l then 3
  else if w <? 151 + l then 4
  else if w <? 181 + l then 5
  else if w <? 212 + l then 6
  else if w <? 243 + l then 7
  else if w <? 273 + l then 8
  else if w <? 304 + l then 9
  else if w <? 334 + l then 10
  else 11.

Definition DateFromDay (d : Z) : Z :=
  DayWithinYear d - monthStart (leapDay (YearFromDay d)) (MonthFromDay d) + 1.

Definition YearFromTime (t : Z) : Z := YearFromDay (Day t).
Definition MonthFromTime (t : Z) : Z := MonthFromDay (Day t).
Definition DateFromTime (t : Z) : Z := DateFromDay (Day t).

(** MakeDay: the day number of day [date] of month [month] of [year];
    months outside 0..11 carry into the year, days outside the month carry
    into the neighbouring months. *)
Definition MakeDay (year month date : number) : option Z :=
  match year, month, date with
  | Fin y, Fin m, Fin dt =>
      let ym := trunc y + trunc m / 12 in
      let mn := trunc m mod 12 in
      Some (DayFromYear ym + monthStart (leapDay ym) mn + trunc dt - 1)
  | _, _, _ => None
  end.

Definition MakeDate (day : option Z) (time : Z) : option Z :=
  match day with
  | Some d => Some (d * msPerDay + time)
  | None => None
  end.

Definition TimeClip (t : option Z) : option Z :=
  match t with
  | Some v => if 8640000000000000 <? Z.abs v then None else Some v
  | None => None
  end.

(** A Date object: its time value, [None] for an invalid date. *)
Definition date : Type := option Z.

(** [new Date(year, month, day)]: years 0 to 99 mean 1900 to 1999. *)
Definition newDate3 (year month day : number) : date :=
  let yr := match year with
            | Fin y => let yi := trunc y in
                       if (0 <=? yi) && (yi <=? 99) then ofZ (1900 + yi) else year
            | other => other
            end in
  TimeClip (MakeDate (MakeDay yr month day) 0).

(** [d.setHours(0, 0, 0, 0)] *)
Definition setHoursZero (d : date) : date :=
  match d with
  | Some t => TimeClip (MakeDate (Some (Day t)) 0)
  | None => None
  end.

(** [d.getFullYear()] *)
Definition getFullYear (d : date) : number :=
  match d with
  | Some t => ofZ (YearFromTime t)
  | None => NaN
  end.

(** [d.setFullYear(year)]: month, day and time of day are kept; an invalid
    date is taken at time value 0. *)
Definition setFullYear (d : date) (year : number) : date :=
  let t := match d with Some t => t | None => 0 end in
  TimeClip (MakeDate (MakeDay year (ofZ (MonthFromTime t)) (ofZ (DateFromTime t)))
                     (TimeWithinDay t)).

(** [a < b] on dates; false when either is invalid. *)
Definition lt (a b : date) : bool :=
  match a, b with
  | Some x, Some y => x <? y
  | _, _ => false
  end.

Definition gt (a b : date) : bool := lt b a.

End Date.

(** ** Values read from JSON *)

Module Json.

Inductive json : Type :=
| JNull
| JBool (b : bool)
| JNum (z : Z)
| JStr (s : string)
| JArr (items : list json)
| JObj (fields : list (string * json)).

(** A JavaScript value here: what [JSON.parse] yields, or [undefined]. *)
Definition value : Type := option json.

Definition truthy (v : value) : bool :=
  match v with
  | None => false
  | Some JNull => false
  | Some (JBool b) => b
  | Some (JNum z) => negb (z =? 0)
  | Some (JStr s) => negb (JS.isEmpty s)
  | Some (JArr _) => true
  | Some (JObj _) => true
  end.

Fixpoint lookup (k : string) (fields : list (string * json)) : value :=
  match fields with
  | [] => None
  | (k', v) :: rest => if String.eqb k k' then Some v else lookup k rest
  end.

(** [v.k] for a name [k] that is no index and no built-in property; the
    caller has excluded [null]. *)
Definition prop (k : string) (v : json) : value :=
  match v with
  | JObj fields => lookup k fields
  | _ => None
  end.

(** [v?.k] *)
Definition optProp (k : string) (v : value) : value :=
  match v with
  | Some JNull => None
  | Some j => prop k j
  | None => None
  end.

(** [v?.[0]]: element 0 of an array, the first code unit of a string, the
    property of name 0 of an object. *)
Definition optFirst (v : value) : value :=
  match v with
  | Some (JArr (x :: _)) => Some x
  | Some (JStr (String c _)) => Some (JStr (String c EmptyString))
  | Some (JObj fields) => lookup "0" fields
  | _ => None
  end.

(** [a || b] *)
Definition orElse (a b : value) : value := if truthy a then a else b.

Definition isStr (s : string) (v : value) : bool :=
  match v with
  | Some (JStr t) => String.eqb s t
  | _ => false
  end.

Definition isBool (b : bool) (v : value) : bool :=
  match v with
  | Some (JBool c) => Bool.eqb b c
  | _ => false
  end.

Definition showZ (z : Z) : string := NilZero.string_of_int (Z.to_int z).

(** The integer [v] reads as the binary64 value [x]. *)
Definition readsBack (v x : Z) : bool :=
  match Num.nearest (inject_Z v) with
  | Num.Fin q => Qeq_bool q (inject_Z x)
  | _ => false
  end.

(** The fewest digits [s], [k] of them from [k0] on, for which [s] times a
    power of ten with the [n] digits of [x] reads as [x]; of two such [s]
    the one nearer to [x], the even one when they are as near. *)
Fixpoint shortest (fuel : nat) (k0 : Z) (x n : Z) : Z * Z :=
  match fuel with
  | O => (x, n)
  | S fuel' =>
      if n <=? k0 then (x, n)
      else
        let p := 10 ^ (n - k0) in
        let lo := x / p in
        let hi := lo + 1 in
        match readsBack (lo * p) x, readsBack (hi * p) x with
        | true, true =>
            if x - lo * p <? hi * p - x then (lo, k0)
            else if hi * p - x <? x - lo * p then (hi, k0)
            else if Z.even lo then (lo, k0) else (hi, k0)
        | true, false => (lo, k0)
        | false, true => (hi, k0)
        | false, false => shortest fuel' (k0 + 1) x n
        end
  end.

Fixpoint zeros (n : nat) : string :=
  match n with
  | O => EmptyString
  | S n' => String "0" (zeros n')
  end.

(** Number::toString of a positive integer binary64 value: its shortest
    digits, filled with zeros up to 21 digits, in exponent form beyond. *)
Definition showPositive (x : Z) : string :=
  let n0 := JS.length (showZ x) in
  let '(s, k) := shortest 17 1 x n0 in
  let '(digits, k, n) :=
    if s =? 10 ^ k then ("1", 1, n0 + 1) else (showZ s, k, n0) in
  if n <=? 21 then digits +:+ zeros (Z.to_nat (n - k))
  else
    match digits with
    | String d EmptyString => String d ("e+" +:+ showZ (n - 1))
    | String d rest => String d ("." +:+ rest +:+ "e+" +:+ showZ (n - 1))
    | EmptyString => EmptyString
    end.

(** ToString of the Number value of the integer [z] *)
Definition showNumber (z : Z) : string :=
  match Num.nearest (inject_Z z) with
  | Num.NaN => "NaN"
  | Num.Inf false => "Infinity"
  | Num.Inf true => "-Infinity"
  | Num.Fin q =>
      let x := Num.trunc q in
      if x =? 0 then "0"
      else if x <? 0 then String "-" (showPositive (- x))
      else showPositive x
  end.

(** ToString, or nothing where it throws a TypeError: an object that has a
    property [toString] of its own has no callable one, and its [valueOf]
    yields no primitive. An array joins the strings of its elements, with
    nothing for [null]. *)
Fixpoint toString (j : json) : option string :=
  match j with
  | JNull => Some "null"
  | JBool true => Some "true"
  | JBool false => Some "false"
  | JNum z => Some (showNumber z)
  | JStr s => Some s
  | JArr items =>
      parts ← mapM (fun x => match x with JNull => Some EmptyString | _ => toString x end) items;
      Some (JS.join "," parts)
  | JObj fields =>
      match lookup "toString" fields with
      | Some _ => None
      | None => Some "[object Object]"
      end
  end.

Definition show (v : value) : option string :=
  match v with
  | Some j => toString j
  | None => Some "undefined"
  end.

End Json.

(** ** Environment, effects and exceptions *)

Inductive outcome (A : Type) : Type :=
| Ok (a : A)
| Throw (message : string).
Arguments Ok {A} a.
Arguments Throw {A} message.

#[global] Instance outcome_ret : MRet outcome := fun A a => Ok a.

#[global] Instance outcome_bind : MBind outcome := fun A B f x =>
  match x with
  | Ok a => f a
  | Throw m => Throw m
  end.

Inductive status : Type := idle | submitting | success | error.

(** What [response.json()] settles to. *)
Inductive body : Type :=
| BadJson (message : string)
| JsonBody (j : Json.json).

(** What [fetch] settles to. *)
Inductive fetchResult : Type :=
| NetworkFailure (message : string)
| Response (httpStatus : Z) (b : body).

Definition ok (httpStatus : Z) : bool :=
  (200 <=? httpStatus) && (httpStatus <=? 299).

(** [process.env.X] is [undefined] or a string; [!x] holds for both
    [undefined] and the empty string. *)
Definition missing (x : option string) : bool :=
  match x with
  | Some s => JS.isEmpty s
  | None => true
  end.

Definition text (x : option string) : string :=
  match x with Some s => s | None => EmptyString end.

(** The waitlist key of [localStorage], by what the handlers make of the
    text kept under it: no item, the empty text, a text that [JSON.parse]
    rejects, or a text that parses to a value. [JSON.stringify] of a value
    stores a text that parses back to that value. *)
Inductive storage : Type :=
| Absent
| EmptyText
| Malformed
| Parsed (j : Json.json).

(** ** Requests to the pharmacy system *)

Module Wire.

(** A number in the JSON text of a payload. *)
Inductive jsonNumber : Type :=
| JsonNull
| JsonNumber (q : Q).

(** What [JSON.stringify] writes for a number: [null] for NaN and for the
    infinities. *)
Definition stringify (n : Num.number) : jsonNumber :=
  match n with
  | Num.Fin q => JsonNumber q
  | _ => JsonNull
  end.

(** The payloads are kept as [JSON.stringify] writes them into the body of
    the request: strings and integers as they are, the prescription
    numbers through [stringify]. *)

Record RxEntry : Type := { RxNo : jsonNumber }.

(** Body of SendRefillRequest *)
Record RefillPayload : Type := {
  userName : string;
  APIKey : string;
  rPharmacyNumber : string;
  LastName : string;
  DOB : string;
  Phone : string;
  RequestDateTime : string;
  DeliveryOption : Z;
  RequestType : Z;
  RxInRefillRequest : list RxEntry;
  Notes : string
}.

Record TransferToPharmacy : Type := {
  PharmacyName : string;
  Address1 : string;
  Address2 : string;
  City : string;
  State : string;
  Zip : string;
  PharmacyNCPDP : string;
  PharmacyPhoneNumber : string;
  PharmacyFaxNumber : string;
  pContactName : string
}.

(** Body of SubmitRxTransferRequest *)
Record TransferPayload : Type := {
  tPharmacyNumber : string;
  tRxNo : jsonNumber;
  RxFillDate : string;
  TransferTo : TransferToPharmacy;
  TransferDate : string;
  RPHInitial : string;
  ContactName : string;
  TransferRxRemark : string;
  UserID : string;
  RxTransferType : Z
}.

(** A POST of the JSON text of the payload; the transfer request carries
    the user name and password of its Basic authorization header. *)
Inductive request : Type :=
| SendRefillRequest (p : RefillPayload)
| SubmitRxTransferRequest (user password : string) (p : TransferPayload).

End Wire.

Record env : Type := {
  BESTRX_USERNAME : option string;
  BESTRX_API_KEY : option string;
  BESTRX_PASSWORD : option string;
  BESTRX_PHARMACY_NUMBER : option string;
  (** time value of [new Date()] on the local time line *)
  localNow : Z;
  (** [new Date().toISOString()] *)
  isoNow : string;
  (** [Date.now()] *)
  epochNow : Z;
  fetch : Wire.request -> fetchResult;
  (** [localStorage.setItem] with the JSON text of a value under the
      waitlist key: the message of the exception it throws (the quota is
      used up, the storage is not accessible), or [None] when the text is
      stored *)
  setItem : Json.json -> option string;
  (** [localStorage.removeItem] of the waitlist key: the message of the
      exception it throws, or [None] when the item is gone *)
  removeItem : option string;
  (** message of the TypeError the engine raises in this run: on a property
      of [null] or [undefined], on a call of what is no function, or on an
      object that cannot be turned into a string *)
  typeErrorMessage : string
}.

(** [String(v)], as [new Error(v)] and a template literal apply it. *)
Definition shown (e : env) (v : Json.value) : outcome string :=
  match Json.show v with
  | Some s => Ok s
  | None => Throw (typeErrorMessage e)
  end.

(** What a handler does to the outside, in order; writes to the console
    are not recorded. *)
Inductive effect : Type :=
| Fetched (r : Wire.request)
| Waited (ms : Z)
| FocusedEmail
| Stored (j : Json.json).

(** [Object.keys(errors).length > 0] *)
Definition hasKeys (errors : gmap string string) : bool :=
  negb (Nat.eqb (size errors) 0).

(** [condition && (errors[field] = message)] *)
Definition flag (condition : bool) (field message : string)
    (errors : gmap string string) : gmap string string :=
  if condition then <[field := message]> errors else errors.

Definition blank (s : string) : bool := JS.isEmpty (JS.trim s).

(** ** Transfer request modal *)

Module Transfer.

Import Json Num Wire.

Record TransferFormData : Type := {
  rxNumber : string;
  rxFillDate : string;
  transferToPharmacyName : string;
  transferToPharmacyAddress1 : string;
  transferToPharmacyAddress2 : string;
  transferToPharmacyCity : string;
  transferToPharmacyState : string;
  transferToPharmacyZip : string;
  transferToPharmacyPhone : string;
  transferToPharmacyNCPDP : string;
  transferRxRemark : string;
  consent : bool
}.

Record state : Type := {
  formData : TransferFormData;
  errors : gmap string string;
  status_ : status;
  apiError : option string
}.

Definition checkRxNumber (f : TransferFormData) (errs : gmap string string) :=
  if blank (rxNumber f) || isNaN (Number (rxNumber f))
  then <["rxNumber" := "A valid prescription number is required."]> errs
  else flag (leZero (Number (rxNumber f)))
         "rxNumber" "Prescription number must be a positive number." errs.

Definition checkFillDate (e : env) (f : TransferFormData) (errs : gmap string string) :=
  if blank (rxFillDate f)
  then <["rxFillDate" := "Last fill date is required."]> errs
  else
    let dateParts := map Number (JS.splitChar "-" (rxFillDate f)) in
    let selectedDate :=
      Date.newDate3 (nth 0 dateParts NaN) (minus (nth 1 dateParts NaN) 1)
                    (nth 2 dateParts NaN) in
    let today := Date.setHoursZero (Some (localNow e)) in
    let errs := flag (Date.gt selectedDate today)
                  "rxFillDate" "Fill date cannot be in the future." errs in
    let twoYearsAgo :=
      Date.setFullYear (Some (localNow e))
        (minus (Date.getFullYear (Some (localNow e))) 2) in
    flag (Date.lt selectedDate twoYearsAgo)
      "rxFillDate" "Fill date cannot be more than 2 years ago." errs.

Definition checkState (f : TransferFormData) (errs : gmap string string) :=
  if blank (transferToPharmacyState f)
  then <["transferToPharmacyState" := "State is required."]> errs
  else flag (negb (Regex.matches Regex.stateCode
                     (JS.toUpperCase (JS.trim (transferToPharmacyState f)))))
         "transferToPharmacyState" "Please use 2-letter state code (e.g., OH)." errs.

Definition checkZip (f : TransferFormData) (errs : gmap string string) :=
  if blank (transferToPharmacyZip f)
  then <["transferToPharmacyZip" := "ZIP code is required."]> errs
  else flag (negb (Regex.matches Regex.zipCode (transferToPharmacyZip f)))
         "transferToPharmacyZip" "Please enter a valid 5-digit ZIP code." errs.

Definition checkPhone (f : TransferFormData) (errs : gmap string string) :=
  if blank (transferToPharmacyPhone f)
  then <["transferToPharmacyPhone" := "Pharmacy phone number is required."]> errs
  else flag (negb (Regex.matches Regex.usPhone (transferToPharmacyPhone f)))
         "transferToPharmacyPhone" "Please enter a valid US phone number." errs.

Definition validate (e : env) (f : TransferFormData) : gmap string string :=
  let errs := checkRxNumber f ∅ in
  let errs := checkFillDate e f errs in
  let errs := flag (blank (transferToPharmacyName f))
                "transferToPharmacyName" "Destination pharmacy name is required." errs in
  let errs := flag (blank (transferToPharmacyAddress1 f))
                "transferToPharmacyAddress1" "Address Line 1 is required." errs in
  let errs := flag (blank (transferToPharmacyCity f))
                "transferToPharmacyCity" "City is required." errs in
  let errs := checkState f errs in
  let errs := checkZip f errs in
  let errs := checkPhone f errs in
  let errs := flag (negb (blank (transferToPharmacyNCPDP f)) &&
                    negb (Regex.matches Regex.ncpdp (JS.trim (transferToPharmacyNCPDP f))))
                "transferToPharmacyNCPDP" "NCPDP number must be 7 digits." errs in
  flag (negb (consent f)) "consent" "You must authorize this transfer request." errs.

Definition buildPayload (e : env) (pharmacyNumber : string) (f : TransferFormData)
    : TransferPayload :=
  {| tPharmacyNumber := pharmacyNumber;
     tRxNo := stringify (Number (rxNumber f));
     RxFillDate := rxFillDate f;
     TransferTo :=
       {| PharmacyName := JS.trim (transferToPharmacyName f);
          Address1 := JS.trim (transferToPharmacyAddress1 f);
          Address2 := JS.trim (transferToPharmacyAddress2 f);
          City := JS.trim (transferToPharmacyCity f);
          State := JS.toUpperCase (JS.trim (transferToPharmacyState f));
          Zip := JS.trim (transferToPharmacyZip f);
          PharmacyNCPDP := JS.trim (transferToPharmacyNCPDP f);
          PharmacyPhoneNumber := JS.digitsOnly (transferToPharmacyPhone f);
          PharmacyFaxNumber := EmptyString;
          pContactName := EmptyString |};
     TransferDate := hd EmptyString (JS.splitChar "T" (isoNow e));
     RPHInitial := "VVP";
     ContactName := "Patient Web Request";
     TransferRxRemark := JS.trim (transferRxRemark f);
     UserID := "WEB";
     RxTransferType := 0 |}.

(** [errorData.ErrorCode || errorData.Code] *)
Definition codeOf (e : env) (errorData : json) : outcome value :=
  match errorData with
  | JNull => Throw (typeErrorMessage e)
  | _ => Ok (orElse (prop "ErrorCode" errorData) (prop "Code" errorData))
  end.

(** The message thrown in the branch [!response.ok]. *)
Definition failureMessage (e : env) (httpStatus : Z) (errorData : json) : outcome string :=
  if httpStatus =? 400 then
    c ← codeOf e errorData;
    if isStr "ERROR0027" c then Ok "Please provide pharmacy number or NCPDP number."
    else if isStr "ERROR0069" c then Ok "Please provide valid fill date."
    else if isStr "ERROR0070" c then Ok "Fill date cannot be in the future."
    else if isStr "ERROR0080" c then Ok "Please provide valid RX number."
    else shown e (orElse (prop "Message" errorData)
                    (Some (JStr "Invalid request data. Please check your information.")))
  else if httpStatus =? 401 then
    c ← codeOf e errorData;
    if isStr "ERROR0003" c then Ok "Authentication failed. Please contact support."
    else Ok "Access denied. Please contact support."
  else if httpStatus =? 200 then
    match errorData with
    | JNull => Throw (typeErrorMessage e)
    | _ => if isStr "ERROR0082" (prop "ErrorCode" errorData)
           then Ok "Error while sending transfer Rx request. Please try again or contact support."
           else Ok "An error occurred while processing your transfer request."
    end
  else Ok "An error occurred while processing your transfer request.".

(** The body of the [try] block after [fetch] has settled: the status and
    the API error it sets, or the exception it throws. *)
Definition respond (e : env) (r : fetchResult) : outcome (status * option string) :=
  match r with
  | NetworkFailure m => Throw m
  | Response httpStatus b =>
      if negb (ok httpStatus) then
        let errorData := match b with JsonBody j => j | BadJson _ => JObj [] end in
        m ← failureMessage e httpStatus errorData;
        Throw m
      else
        match b with
        | BadJson m => Throw m
        | JsonBody JNull => Throw (typeErrorMessage e)
        | JsonBody result =>
            if isBool false (prop "IsValid" result) then
              let validationMessage :=
                orElse (optProp "Message" (optFirst
                          (optProp "ListOfValidationMessage" (prop "Data" result))))
                  (orElse (optProp "Message" (optFirst (prop "Messages" result)))
                     (Some (JStr "Transfer request validation failed."))) in
              m ← shown e validationMessage;
              Throw m
            else if truthy (prop "Data" result) &&
                    isBool true (optProp "RxTransferred" (prop "Data" result)) then
              Ok (success, None)
            else
              Ok (error,
                  Some "Unexpected response from pharmacy system. Please contact support.")
        end
  end.

Definition ownMessages : list string :=
  [ "Please provide pharmacy number or NCPDP number";
    "Please provide valid fill date";
    "Fill date cannot be in the future";
    "Please provide valid RX number";
    "Authentication failed";
    "Access denied";
    "Error while sending transfer Rx request";
    "Transfer request validation failed";
    "Unexpected response from pharmacy system" ].

(** The message the [catch] block shows for a caught [Error]. *)
Definition caught (message : string) : string :=
  if existsb (fun p => JS.includes p message) ownMessages then message
  else if JS.includes "fetch" message || JS.includes "NetworkError" message
  then "Network connection failed. Please check your internet connection and try again."
  else "An unexpected error occurred. Please try again or contact support.".

Definition handleSubmit (e : env) (s : state) : state * list effect :=
  let f := formData s in
  let validationErrors := validate e f in
  if hasKeys validationErrors then
    ({| formData := f; errors := validationErrors; status_ := status_ s;
        apiError := None |}, [])
  else if missing (BESTRX_USERNAME e) || missing (BESTRX_PASSWORD e)
          || missing (BESTRX_PHARMACY_NUMBER e) then
    ({| formData := f; errors := errors s; status_ := error;
        apiError := Some "Service configuration error. Please contact support." |},
     [])
  else
    let req := SubmitRxTransferRequest (text (BESTRX_USERNAME e)) (text (BESTRX_PASSWORD e))
                 (buildPayload e (text (BESTRX_PHARMACY_NUMBER e)) f) in
    match respond e (fetch e req) with
    | Ok (success, _) =>
        ({| formData := f; errors := ∅; status_ := success; apiError := None |},
         [Fetched req])
    | Ok (st, message) =>
        ({| formData := f; errors := errors s; status_ := st; apiError := message |},
         [Fetched req])
    | Throw m =>
        ({| formData := f; errors := errors s; status_ := error;
            apiError := Some (caught m) |},
         [Fetched req])
    end.

End Transfer.

(** ** Refill request modal *)

Module Refill.

Import Json Num Wire.

Inductive service : Type := pickup | delivery.

Record RefillFormData : Type := {
  patientName : string;
  dob : string;
  phone : string;
  email : string;
  prescriptionNumbers : string;
  medicationNames : string;
  preferredService : service;
  notes : string;
  consent : bool
}.

Record state : Type := {
  formData : RefillFormData;
  errors : gmap string string;
  status_ : status;
  apiError : option string
}.

(** [[\s,]] *)
Definition separator (c : ascii) : bool := JS.isWhitespace c || Ascii.eqb c ",".

(** [prescriptionNumbers.split(/[\s,]+/)] *)
Definition tokens (s : string) : list string := JS.splitRuns separator false s.

Definition checkDob (e : env) (f : RefillFormData) (errs : gmap string string) :=
  if blank (dob f)
  then <["dob" := "Date of birth is required."]> errs
  else
    let dateParts := map Number (JS.splitChar "-" (dob f)) in
    let selectedDate :=
      Date.newDate3 (nth 0 dateParts NaN) (minus (nth 1 dateParts NaN) 1)
                    (nth 2 dateParts NaN) in
    let today := Date.setHoursZero (Some (localNow e)) in
    flag (Date.gt selectedDate today)
      "dob" "Date of birth cannot be in the future." errs.

Definition checkPhone (f : RefillFormData) (errs : gmap string string) :=
  if blank (phone f)
  then <["phone" := "Phone number is required."]> errs
  else flag (negb (Regex.matches Regex.usPhone (phone f)))
         "phone" "Please enter a valid US phone number." errs.

Definition checkPrescriptionNumbers (f : RefillFormData) (errs : gmap string string) :=
  if blank (prescriptionNumbers f)
  then <["prescriptionNumbers" := "At least one prescription number is required."]> errs
  else if 1000 <? JS.length (JS.trim (prescriptionNumbers f))
  then <["prescriptionNumbers" := "Prescription numbers field is too long."]> errs
  else
    let rxNumbers := List.filter (fun n => negb (blank n)) (tokens (prescriptionNumbers f)) in
    flag (Nat.eqb (List.length rxNumbers) 0 || existsb (fun n => isNaN (Number n)) rxNumbers)
      "prescriptionNumbers" "Please enter valid, numeric prescription number(s)." errs.

Definition validate (e : env) (f : RefillFormData) : gmap string string :=
  let errs := flag (blank (patientName f))
                "patientName" "Patient full name is required." ∅ in
  let errs := checkDob e f errs in
  let errs := checkPhone f errs in
  let errs := flag (negb (blank (email f)) && negb (Regex.search Regex.emailShape (email f)))
                "email" "Please enter a valid email address." errs in
  let errs := checkPrescriptionNumbers f errs in
  let errs := flag (500 <? JS.length (JS.trim (medicationNames f)))
                "medicationNames" "Medication names cannot exceed 500 characters." errs in
  let errs := flag (500 <? JS.length (JS.trim (notes f)))
                "notes" "Notes cannot exceed 500 characters." errs in
  flag (negb (consent f)) "consent" "You must acknowledge the statement to proceed." errs.

(** [fullName.trim().split(' ').pop() || ''] *)
Definition getLastName (fullName : string) : string :=
  List.last (JS.splitChar " " (JS.trim fullName)) EmptyString.

(** The entries of [RxInRefillRequest]. *)
Definition rxEntries (f : RefillFormData) : list RxEntry :=
  map (fun num => {| RxNo := stringify (Number (JS.trim num)) |})
    (List.filter (fun num => negb (blank num) && negb (isNaN (Number num)))
       (tokens (prescriptionNumbers f))).

Definition buildPayload (e : env) (f : RefillFormData) : RefillPayload :=
  {| userName := text (BESTRX_USERNAME e);
     APIKey := text (BESTRX_API_KEY e);
     rPharmacyNumber := text (BESTRX_PHARMACY_NUMBER e);
     LastName := getLastName (patientName f);
     DOB := dob f;
     Phone := JS.digitsOnly (phone f);
     RequestDateTime := isoNow e;
     DeliveryOption := match preferredService f with pickup => 1 | delivery => 2 end;
     RequestType := 1;
     RxInRefillRequest := rxEntries f;
     Notes := (if JS.isEmpty (medicationNames f) then EmptyString
               else "Medications: " +:+ medicationNames f +:+ ". ") +:+ notes f |}.

Definition codeOf (e : env) (errorData : json) : outcome value :=
  match errorData with
  | JNull => Throw (typeErrorMessage e)
  | _ => Ok (orElse (prop "ErrorCode" errorData) (prop "Code" errorData))
  end.

Definition badRequestMessages : list (string * string) :=
  [ ("1000", "Service configuration error. Please contact support.");
    ("1001", "Invalid pharmacy configuration. Please contact support.");
    ("1011", "Patient last name is required.");
    ("1012", "Please enter a valid date of birth.");
    ("1013", "Invalid request timestamp. Please try again.");
    ("1014", "Please enter at least one prescription number.");
    ("1015", "Invalid delivery option selected.");
    ("1016", "Invalid request source. Please try again.");
    ("1019", "Prescription number or patient ID is required.") ].

(** The first case of a [switch] whose label is strictly equal to [c]. *)
Fixpoint switch (c : value) (cases : list (string * string)) : option string :=
  match cases with
  | [] => None
  | (label, message) :: rest => if isStr label c then Some message else switch c rest
  end.

Definition failureMessage (e : env) (httpStatus : Z) (errorData : json) : outcome string :=
  if httpStatus =? 400 then
    c ← codeOf e errorData;
    match switch c badRequestMessages with
    | Some m => Ok m
    | None => shown e (orElse (prop "Message" errorData)
                         (Some (JStr "Invalid request data. Please check your information.")))
    end
  else if httpStatus =? 403 then
    c ← codeOf e errorData;
    if isStr "1004" c then Ok "Service authentication failed. Please contact support."
    else if isStr "1018" c
    then Ok "Pharmacy not authorized for this service. Please contact support."
    else Ok "Access denied. Please contact support."
  else if httpStatus =? 500
  then Ok "The pharmacy system is temporarily unavailable. Please try again later."
  else Ok "An error occurred while processing your refill request.".

(** [responses.filter(item => item.Status !== 'OK')] *)
Fixpoint failedRequests (e : env) (responses : list json) : outcome (list json) :=
  match responses with
  | [] => Ok []
  | JNull :: _ => Throw (typeErrorMessage e)
  | item :: rest =>
      failed ← failedRequests e rest;
      Ok (if isStr "OK" (prop "Status" item) then failed else item :: failed)
  end.

(** [`Rx ${item.RxNo}: ${item.StatusDesc || 'Request failed'}`] *)
Definition describe (e : env) (item : json) : outcome string :=
  rxNo ← shown e (prop "RxNo" item);
  statusDesc ← shown e (orElse (prop "StatusDesc" item) (Some (JStr "Request failed")));
  Ok ("Rx " +:+ rxNo +:+ ": " +:+ statusDesc).

Definition respond (e : env) (r : fetchResult) : outcome (status * option string) :=
  match r with
  | NetworkFailure m => Throw m
  | Response httpStatus b =>
      if negb (ok httpStatus) then
        let errorData := match b with JsonBody j => j | BadJson _ => JObj [] end in
        m ← failureMessage e httpStatus errorData;
        Throw m
      else
        match b with
        | BadJson m => Throw m
        | JsonBody JNull => Throw (typeErrorMessage e)
        | JsonBody result =>
            match prop "RxInRefillResponse" result with
            | Some (JArr responses) =>
                failed ← failedRequests e responses;
                match failed with
                | [] => Ok (success, None)
                | _ =>
                    errorMessages ← mapM (describe e) failed;
                    Ok (error,
                        Some ("Some refill requests failed: " +:+
                              JS.join ", " errorMessages))
                end
            | _ => Ok (error,
                       Some "Unexpected response from pharmacy system. Please contact support.")
            end
        end
  end.

Definition ownMessages : list string :=
  [ "Service configuration error";
    "Invalid pharmacy configuration";
    "Patient last name is required";
    "Please enter a valid date of birth";
    "Invalid request timestamp";
    "Please enter at least one prescription number";
    "Invalid delivery option selected";
    "Invalid request source";
    "Prescription number or patient ID is required";
    "Service authentication failed";
    "Pharmacy not authorized for this service";
    "Access denied";
    "The pharmacy system is temporarily unavailable";
    "Some refill requests failed";
    "Unexpected response from pharmacy system" ].

Definition caught (message : string) : string :=
  if existsb (fun p => JS.includes p message) ownMessages then message
  else if JS.includes "fetch" message || JS.includes "NetworkError" message
  then "Network connection failed. Please check your internet connection and try again."
  else "An unexpected error occurred. Please try again or contact support.".

Definition handleSubmit (e : env) (s : state) : state * list effect :=
  let f := formData s in
  let validationErrors := validate e f in
  if hasKeys validationErrors then
    ({| formData := f; errors := validationErrors; status_ := status_ s;
        apiError := None |}, [])
  else if missing (BESTRX_USERNAME e) || missing (BESTRX_API_KEY e)
          || missing (BESTRX_PHARMACY_NUMBER e) then
    ({| formData := f; errors := errors s; status_ := error;
        apiError := Some "Service configuration error. Please contact support." |},
     [])
  else if Nat.eqb (List.length (rxEntries f)) 0 then
    ({| formData := f; errors := errors s; status_ := error;
        apiError := Some "Please enter at least one valid prescription number." |},
     [])
  else
    let req := SendRefillRequest (buildPayload e f) in
    match respond e (fetch e req) with
    | Ok (success, _) =>
        ({| formData := f; errors := ∅; status_ := success; apiError := None |},
         [Fetched req])
    | Ok (st, message) =>
        ({| formData := f; errors := errors s; status_ := st; apiError := message |},
         [Fetched req])
    | Throw m =>
        ({| formData := f; errors := errors s; status_ := error;
            apiError := Some (caught m) |},
         [Fetched req])
    end.

End Refill.

(** ** Contact form *)

Module Contact.

Inductive reason : Type := general | new | transfer | refill | rpm.

Record ContactFormData : Type := {
  name : string;
  phone : string;
  email : string;
  reason_ : reason;
  message : string;
  consent : bool
}.

Record state : Type := {
  formData : ContactFormData;
  errors : gmap string string;
  status_ : status
}.

Definition initial : ContactFormData :=
  {| name := EmptyString; phone := EmptyString; email := EmptyString;
     reason_ := general; message := EmptyString; consent := false |}.

(** [['new', 'transfer', 'refill'].includes(reason)] *)
Definition needsDetails (r : reason) : bool :=
  match r with
  | new | transfer | refill => true
  | general | rpm => false
  end.

Definition checkEmail (f : ContactFormData) (errs : gmap string string) :=
  if blank (email f)
  then <["email" := "Email address is required."]> errs
  else flag (negb (Regex.search Regex.emailShape (email f)))
         "email" "Please enter a valid email address." errs.

Definition checkPhone (f : ContactFormData) (errs : gmap string string) :=
  if blank (phone f)
  then <["phone" := "Phone number is required."]> errs
  else flag (negb (Regex.matches Regex.usPhone (phone f)))
         "phone" "Please enter a valid US phone number." errs.

Definition checkMessage (f : ContactFormData) (errs : gmap string string) :=
  if needsDetails (reason_ f) && blank (message f)
  then <["message" := "Please provide more details for your request."]> errs
  else flag (500 <? JS.length (JS.trim (message f)))
         "message" "Message must be less than 500 characters." errs.

Definition validate (f : ContactFormData) : gmap string string :=
  let errs := flag (blank (name f)) "name" "Full name is required." ∅ in
  let errs := checkEmail f errs in
  let errs := checkPhone f errs in
  let errs := checkMessage f errs in
  flag (negb (consent f)) "consent" "You must acknowledge the statement to proceed." errs.

(** The API call is a mock: a promise resolved by a timer after a second. *)
Definition handleSubmit (s : state) : state * list effect :=
  let validationErrors := validate (formData s) in
  if hasKeys validationErrors then
    ({| formData := formData s; errors := validationErrors; status_ := status_ s |}, [])
  else
    ({| formData := initial; errors := ∅; status_ := success |}, [Waited 1000]).

End Contact.

(** ** Promotional sign-up (splash modal) *)

Module Splash.

Record SplashModalFormData : Type := { email : string }.

Record state : Type := {
  formData : SplashModalFormData;
  errors : gmap string string;
  status_ : status
}.

Definition validate (f : SplashModalFormData) : gmap string string :=
  if blank (email f)
  then <["email" := "Email address is required."]> ∅
  else flag (negb (Regex.search Regex.emailShape (email f)))
         "email" "Please enter a valid email address." ∅.

(** The API call is a mock: a promise resolved by a timer after a second. *)
Definition handleSubmit (s : state) : state * list effect :=
  let validationErrors := validate (formData s) in
  if hasKeys validationErrors then
    ({| formData := formData s; errors := validationErrors; status_ := status_ s |},
     [FocusedEmail])
  else
    ({| formData := formData s; errors := ∅; status_ := success |}, [Waited 1000]).

End Splash.

(** ** Waitlist modal and its storage utilities *)

Module Waitlist.

Import Json.

Record WaitlistFormData : Type := {
  name : string;
  email : string;
  phone : string
}.

Record state : Type := {
  formData : WaitlistFormData;
  errors : gmap string string;
  status_ : status
}.

(** [stored ? JSON.parse(stored) : []], and [[]] when that throws; the
    result is whatever value the stored text parses to. *)
Definition getWaitlistEntries (store : storage) : json :=
  match store with
  | Absent => JArr []
  | EmptyText => JArr []
  | Malformed => JArr []
  | Parsed j => j
  end.

(** [entry.email.toLowerCase() === email.toLowerCase()]: a TypeError
    unless [entry.email] is a string. *)
Definition sameEmail (e : env) (email : string) (entry : json) : outcome bool :=
  match entry with
  | JNull => Throw (typeErrorMessage e)
  | _ => match prop "email" entry with
         | Some (JStr s) => Ok (String.eqb (JS.toLowerCase s) (JS.toLowerCase email))
         | _ => Throw (typeErrorMessage e)
         end
  end.

(** [entries.find(p)]; [entries.some(p)] is whether it finds an entry. *)
Fixpoint find (e : env) (email : string) (entries : list json) : outcome (option json) :=
  match entries with
  | [] => Ok None
  | entry :: rest =>
      same ← sameEmail e email entry;
      if (same : bool) then Ok (Some entry) else find e email rest
  end.

(** The array behind [entries.find] and [entries.some]; on any other
    value these are no functions. *)
Definition asArray (e : env) (entries : json) : outcome (list json) :=
  match entries with
  | JArr items => Ok items
  | _ => Throw (typeErrorMessage e)
  end.

Definition isEmailOnWaitlist (e : env) (store : storage) (email : string) : outcome bool :=
  items ← asArray e (getWaitlistEntries store);
  found ← find e email items;
  Ok (match found with Some _ => true | None => false end).

Definition newEntry (e : env) (entry : WaitlistFormData) : json :=
  JObj [ ("name", JStr (name entry));
         ("email", JStr (email entry));
         ("phone", JStr (phone entry));
         ("id", JStr (showZ (epochNow e)));
         ("timestamp", JStr (isoNow e));
         ("status", JStr "active") ].

(** The saved entry and the storage after it, or the error rethrown: that
    of the duplicate, or the exception of [setItem], which leaves the
    storage as it was. *)
Definition saveWaitlistEntry (e : env) (store : storage) (entry : WaitlistFormData)
    : outcome (json * storage) :=
  items ← asArray e (getWaitlistEntries store);
  existingEntry ← find e (email entry) items;
  match existingEntry with
  | Some _ => Throw "This email address is already on the waitlist."
  | None =>
      let entries := JArr (items ++ [newEntry e entry]) in
      match setItem e entries with
      | Some message => Throw message
      | None => Ok (newEntry e entry, Parsed entries)
      end
  end.

Definition checkName (f : WaitlistFormData) (errs : gmap string string) :=
  if blank (name f)
  then <["name" := "Full name is required."]> errs
  else flag (100 <? JS.length (JS.trim (name f)))
         "name" "Full name cannot exceed 100 characters." errs.

Definition checkEmail (e : env) (store : storage) (f : WaitlistFormData)
    (errs : gmap string string) : outcome (gmap string string) :=
  if blank (email f)
  then Ok (<["email" := "Email address is required."]> errs)
  else if negb (Regex.search Regex.emailShape (email f))
  then Ok (<["email" := "Please enter a valid email address."]> errs)
  else
    listed ← isEmailOnWaitlist e store (email f);
    Ok (flag listed "email" "This email address is already on the waitlist." errs).

Definition validate (e : env) (store : storage) (f : WaitlistFormData)
    : outcome (gmap string string) :=
  errs ← checkEmail e store f (checkName f ∅);
  Ok (flag (negb (blank (phone f)) && negb (Regex.matches Regex.waitlistPhone (phone f)))
        "phone" "Please enter a valid phone number." errs).

(** [validate] runs outside the [try]: when it throws, the handler
    rejects and no state is set. *)
Definition handleSubmit (e : env) (store : storage) (s : state)
    : outcome (state * storage * list effect) :=
  let f := formData s in
  validationErrors ← validate e store f;
  if hasKeys validationErrors then
    Ok ({| formData := f; errors := validationErrors; status_ := status_ s |}, store, [])
  else
    match saveWaitlistEntry e store
            {| name := JS.trim (name f); email := JS.trim (email f);
               phone := JS.trim (phone f) |} with
    | Ok (_, store') =>
        Ok ({| formData := f; errors := ∅; status_ := success |}, store',
            [Stored (getWaitlistEntries store')])
    | Throw _ =>
        Ok ({| formData := f; errors := errors s; status_ := error |}, store, [])
    end.

End Waitlist.

(** ** The five forms side by side *)

Module Forms.

(** The data of a form about to be submitted from the idle state. *)
Inductive form : Type :=
| ContactForm (f : Contact.ContactFormData)
| RefillForm (f : Refill.RefillFormData)
| TransferForm (f : Transfer.TransferFormData)
| WaitlistForm (f : Waitlist.WaitlistFormData)
| SplashForm (f : Splash.SplashModalFormData).

(** [formData.consent]; the waitlist and the promotional sign-up data have
    no such field. *)
Definition consentOf (f : form) : option bool :=
  match f with
  | ContactForm d => Some (Contact.consent d)
  | RefillForm d => Some (Refill.consent d)
  | TransferForm d => Some (Transfer.consent d)
  | WaitlistForm _ => None
  | SplashForm _ => None
  end.

(** What submitting leaves behind: the status, the error map and the
    effects; [None] when the handler rejects. *)
Definition submit (e : env) (store : storage) (f : form)
    : option (status * gmap string string * list effect) :=
  match f with
  | ContactForm d =>
      let '(s, effs) := Contact.handleSubmit
        {| Contact.formData := d; Contact.errors := ∅; Contact.status_ := idle |} in
      Some (Contact.status_ s, Contact.errors s, effs)
  | RefillForm d =>
      let '(s, effs) := Refill.handleSubmit e
        {| Refill.formData := d; Refill.errors := ∅; Refill.status_ := idle;
           Refill.apiError := None |} in
      Some (Refill.status_ s, Refill.errors s, effs)
  | TransferForm d =>
      let '(s, effs) := Transfer.handleSubmit e
        {| Transfer.formData := d; Transfer.errors := ∅; Transfer.status_ := idle;
           Transfer.apiError := None |} in
      Some (Transfer.status_ s, Transfer.errors s, effs)
  | WaitlistForm d =>
      match Waitlist.handleSubmit e store
              {| Waitlist.formData := d; Waitlist.errors := ∅;
                 Waitlist.status_ := idle |} with
      | Ok (s, _, effs) => Some (Waitlist.status_ s, Waitlist.errors s, effs)
      | Throw _ => None
      end
  | SplashForm d =>
      let '(s, effs) := Splash.handleSubmit
        {| Splash.formData := d; Splash.errors := ∅; Splash.status_ := idle |} in
      Some (Splash.status_ s, Splash.errors s, effs)
  end.

(** Requests sent and items stored: the operations that reach a service or
    a store. *)
Definition operations (effs : list effect) : list effect :=
  List.filter (fun x => match x with
                   | Fetched _ | Stored _ => true
                   | Waited _ | FocusedEmail => false
                   end) effs.

End Forms.

(** ** Notions used in the statements *)

Module Notions.

Import Json.

(** The stored text yields no value: no item, empty text, or text that
    does not parse. *)
Definition unreadable (store : storage) : Prop :=
  match store with
  | Parsed _ => False
  | _ => True
  end.

(** An entry whose [email] is a string. *)
Definition hasEmail (entry : json) : Prop :=
  match entry with
  | JObj fields => exists s, lookup "email" fields = Some (JStr s)
  | _ => False
  end.

(** A number that is an integer above zero. *)
Definition positiveInteger (n : Num.number) : bool :=
  match n with
  | Num.Fin q => (0 <? Qnum q) && Pos.eqb (Qden q) 1
  | _ => false
  end.

Definition digitChar (n : Z) : ascii := ascii_of_N (48 + Z.to_N n).

Definition pad2 (n : Z) : string :=
  String (digitChar (n / 10)) (String (digitChar (n mod 10)) EmptyString).

Definition pad4 (n : Z) : string :=
  String (digitChar (n / 1000))
    (String (digitChar (n / 100 mod 10))
       (String (digitChar (n / 10 mod 10))
          (String (digitChar (n mod 10)) EmptyString))).

(** The value of a date input, YYYY-MM-DD, for a year of four digits. *)
Definition isoDate (y m d : Z) : string :=
  pad4 y +:+ "-" +:+ pad2 m +:+ "-" +:+ pad2 d.

Definition daysInMonth (y m : Z) : Z :=
  match m with
  | 1 | 3 | 5 | 7 | 8 | 10 | 12 => 31
  | 4 | 6 | 9 | 11 => 30
  | 2 => 28 + Date.leapDay y
  | _ => 0
  end.

(** Day [d] of month [m] (1 is January) exists in year [y]. *)
Definition validDate (y m d : Z) : Prop :=
  1 <= m <= 12 /\ 1 <= d <= daysInMonth y m.

(** Calendar order: the first date is strictly before the second. *)
Definition before (a b : Z * Z * Z) : Prop :=
  let '(y1, m1, d1) := a in
  let '(y2, m2, d2) := b in
  y1 < y2 \/ (y1 = y2 /\ (m1 < m2 \/ (m1 = m2 /\ d1 < d2))).

(** The calendar date the local clock shows. *)
Definition today (e : env) : Z * Z * Z :=
  (Date.YearFromTime (localNow e),
   Date.MonthFromTime (localNow e) + 1,
   Date.DateFromTime (localNow e)).

(** Day number of a calendar date, counted from 1 January 1970. *)
Definition dayNumber (y m d : Z) : Z :=
  Date.DayFromYear y + Date.monthStart (Date.leapDay y) (m - 1) + d - 1.


(** [Number(s)] is the integer [z]. *)
Definition reads (s : string) (z : Z) : bool :=
  match Num.Number s with
  | Num.Fin (Qmake n 1) => n =? z
  | _ => false
  end.

(** [P] holds of every number below [n]. *)
Fixpoint allBelow (n : nat) (P : Z -> bool) : bool :=
  match n with
  | O => true
  | S k => P (Z.of_nat k) && allBelow k P
  end.

End Notions.

(** ** Inputs used in the examples *)

Module Sample.

Import Json.

(** Noon of 1 November 2026, local time. *)
Definition noon : Z := 1793491200000 + 43200000.

Definition network (reply : fetchResult) : env :=
  {| BESTRX_USERNAME := Some "webuser";
     BESTRX_API_KEY := Some "key-1";
     BESTRX_PASSWORD := Some "secret";
     BESTRX_PHARMACY_NUMBER := Some "1234567";
     localNow := noon;
     isoNow := "2026-11-01T17:00:00.000Z";
     epochNow := 1793552400000;
     fetch := fun _ => reply;
     setItem := fun _ => None;
     removeItem := None;
     typeErrorMessage := "Cannot read properties of null" |}.

Definition offline : env := network (NetworkFailure "Failed to fetch").

(** The same configuration with the clock at time value [t]. *)
Definition clockAt (t : Z) : env :=
  {| BESTRX_USERNAME := Some "webuser";
     BESTRX_API_KEY := Some "key-1";
     BESTRX_PASSWORD := Some "secret";
     BESTRX_PHARMACY_NUMBER := Some "1234567";
     localNow := t;
     isoNow := "2026-11-01T17:00:00.000Z";
     epochNow := 1793552400000;
     fetch := fun _ => NetworkFailure "Failed to fetch";
     setItem := fun _ => None;
     removeItem := None;
     typeErrorMessage := "Cannot read properties of null" |}.

(** The same configuration with a store that takes no more text. *)
Definition fullStore : env :=
  {| BESTRX_USERNAME := Some "webuser";
     BESTRX_API_KEY := Some "key-1";
     BESTRX_PASSWORD := Some "secret";
     BESTRX_PHARMACY_NUMBER := Some "1234567";
     localNow := noon;
     isoNow := "2026-11-01T17:00:00.000Z";
     epochNow := 1793552400000;
     fetch := fun _ => NetworkFailure "Failed to fetch";
     setItem := fun _ => Some "The quota has been exceeded.";
     removeItem := None;
     typeErrorMessage := "Cannot read properties of null" |}.

(** The configuration without the pharmacy number. *)
Definition unconfigured : env :=
  {| BESTRX_USERNAME := Some "webuser";
     BESTRX_API_KEY := Some "key-1";
     BESTRX_PASSWORD := Some "secret";
     BESTRX_PHARMACY_NUMBER := None;
     localNow := noon;
     isoNow := "2026-11-01T17:00:00.000Z";
     epochNow := 1793552400000;
     fetch := fun _ => NetworkFailure "Failed to fetch";
     setItem := fun _ => None;
     removeItem := None;
     typeErrorMessage := "Cannot read properties of null" |}.

Definition transferForm (fillDate : string) (agreed : bool) : Transfer.TransferFormData :=
  {| Transfer.rxNumber := "12345";
     Transfer.rxFillDate := fillDate;
     Transfer.transferToPharmacyName := "Corner Drug";
     Transfer.transferToPharmacyAddress1 := "1 Main St";
     Transfer.transferToPharmacyAddress2 := EmptyString;
     Transfer.transferToPharmacyCity := "Columbus";
     Transfer.transferToPharmacyState := "oh";
     Transfer.transferToPharmacyZip := "43004";
     Transfer.transferToPharmacyPhone := "(614) 349-5140";
     Transfer.transferToPharmacyNCPDP := EmptyString;
     Transfer.transferRxRemark := EmptyString;
     Transfer.consent := agreed |}.

Definition transferState (fillDate : string) (agreed : bool) : Transfer.state :=
  {| Transfer.formData := transferForm fillDate agreed;
     Transfer.errors := ∅;
     Transfer.status_ := idle;
     Transfer.apiError := None |}.

(** The transfer form with another prescription number. *)
Definition transferStateFor (number fillDate : string) : Transfer.state :=
  {| Transfer.formData :=
       {| Transfer.rxNumber := number;
          Transfer.rxFillDate := fillDate;
          Transfer.transferToPharmacyName := "Corner Drug";
          Transfer.transferToPharmacyAddress1 := "1 Main St";
          Transfer.transferToPharmacyAddress2 := EmptyString;
          Transfer.transferToPharmacyCity := "Columbus";
          Transfer.transferToPharmacyState := "oh";
          Transfer.transferToPharmacyZip := "43004";
          Transfer.transferToPharmacyPhone := "(614) 349-5140";
          Transfer.transferToPharmacyNCPDP := EmptyString;
          Transfer.transferRxRemark := EmptyString;
          Transfer.consent := true |};
     Transfer.errors := ∅;
     Transfer.status_ := idle;
     Transfer.apiError := None |}.

Definition refillForm (birth numbers : string) (agreed : bool) : Refill.RefillFormData :=
  {| Refill.patientName := "Ann Lee";
     Refill.dob := birth;
     Refill.phone := "614-349-5140";
     Refill.email := EmptyString;
     Refill.prescriptionNumbers := numbers;
     Refill.medicationNames := EmptyString;
     Refill.preferredService := Refill.pickup;
     Refill.notes := EmptyString;
     Refill.consent := agreed |}.

Definition refillState (birth numbers : string) (agreed : bool) : Refill.state :=
  {| Refill.formData := refillForm birth numbers agreed;
     Refill.errors := ∅;
     Refill.status_ := idle;
     Refill.apiError := None |}.

Definition contactForm (agreed : bool) : Contact.ContactFormData :=
  {| Contact.name := "Ann Lee";
     Contact.phone := "614-349-5140";
     Contact.email := "ann@x.com";
     Contact.reason_ := Contact.general;
     Contact.message := EmptyString;
     Contact.consent := agreed |}.

Definition contactState (agreed : bool) : Contact.state :=
  {| Contact.formData := contactForm agreed;
     Contact.errors := ∅;
     Contact.status_ := idle |}.

Definition splashState : Splash.state :=
  {| Splash.formData := {| Splash.email := "ann@x.com" |};
     Splash.errors := ∅;
     Splash.status_ := idle |}.

Definition waitlistForm (address : string) : Waitlist.WaitlistFormData :=
  {| Waitlist.name := "Ann Lee"; Waitlist.email := address; Waitlist.phone := EmptyString |}.

Definition waitlistState (address : string) : Waitlist.state :=
  {| Waitlist.formData := waitlistForm address;
     Waitlist.errors := ∅;
     Waitlist.status_ := idle |}.

(** HTTP 200 with the vendor error code next to a payload that reports the
    transfer as done. *)
Definition vendorError200 : fetchResult :=
  Response 200 (JsonBody (JObj
    [ ("IsValid", JBool true);
      ("ErrorCode", JStr "ERROR0082");
      ("Data", JObj [("RxTransferred", JBool true)]) ])).

(** HTTP 200 with the vendor error code and nothing else. *)
Definition vendorErrorOnly200 : fetchResult :=
  Response 200 (JsonBody (JObj [("ErrorCode", JStr "ERROR0082")])).

End Sample.

(** ** Shapes of accepted values *)

Module Shapes.

Import Regex.

(** The language of a pattern: the texts that [matches] accepts. *)
Inductive lang : regex -> string -> Prop :=
| lang_eps : lang Eps EmptyString
| lang_class (p : ascii -> bool) (c : ascii) :
    p c = true -> lang (Class p) (String c EmptyString)
| lang_seq (r1 r2 : regex) (s1 s2 : string) :
    lang r1 s1 -> lang r2 s2 -> lang (Seq r1 r2) (s1 +:+ s2)
| lang_alt_l (r1 r2 : regex) (s : string) : lang r1 s -> lang (Alt r1 r2) s
| lang_alt_r (r1 r2 : regex) (s : string) : lang r2 s -> lang (Alt r1 r2) s
| lang_star_nil (r : regex) : lang (Star r) EmptyString
| lang_star_cons (r : regex) (s1 s2 : string) :
    lang r s1 -> lang (Star r) s2 -> lang (Star r) (s1 +:+ s2).

(** Every character of [s] is in the class [p]. *)
Fixpoint all (p : ascii -> bool) (s : string) : bool :=
  match s with
  | EmptyString => true
  | String c s' => p c && all p s'
  end.

(** The last character of the text is no white space. *)
Fixpoint endsPlain (s : string) : bool :=
  match s with
  | EmptyString => false
  | String c EmptyString => negb (JS.isWhitespace c)
  | String _ s' => endsPlain s'
  end.

(** A text that is not empty and holds no white space. *)
Definition plain (s : string) : bool :=
  negb (JS.isEmpty s) && all (fun c => negb (JS.isWhitespace c)) s.

(** Somewhere in the text stands a run without white space, an at sign,
    another such run, a dot, and a third such run. *)
Definition holdsAddress (s : string) : Prop :=
  exists before user host domain after,
    s = before +:+ user +:+ "@" +:+ host +:+ "." +:+ domain +:+ after /\
    plain user = true /\ plain host = true /\ plain domain = true.

(** Ten digits, or eleven digits of which the first is 1. *)
Definition phoneDigits (s : string) : bool :=
  all JS.isDigit s &&
  (Nat.eqb (String.length s) 10 ||
   (Nat.eqb (String.length s) 11 && match s with String "1" _ => true | _ => false end)).

(** [n] digits. *)
Definition digits (n : nat) (s : string) : bool :=
  all JS.isDigit s && Nat.eqb (String.length s) n.

(** A number above zero: a positive rational or [Infinity]. *)
Definition positive (n : Num.number) : bool :=
  match n with
  | Num.NaN => false
  | Num.Inf negative => negb negative
  | Num.Fin q => 0 <? Qnum q
  end.

(** A rational number, neither NaN nor an infinity. *)
Definition finite (n : Num.number) : bool :=
  match n with
  | Num.Fin _ => true
  | _ => false
  end.

(** The text of a date field holds no readable date: one of the first
    three parts between the hyphens is missing or is no finite number. *)
Definition noDate (s : string) : bool :=
  let parts := map Num.Number (JS.splitChar "-" s) in
  negb (finite (nth 0 parts Num.NaN) && finite (nth 1 parts Num.NaN)
        && finite (nth 2 parts Num.NaN)).

(** The day two years before a date of the calendar, as [setFullYear]
    finds it: 29 February has no such day and gives 1 March. *)
Definition twoYearsBack (date : Z * Z * Z) : Z * Z * Z :=
  let '(y, m, d) := date in
  if (m =? 2) && (d =? 29) then (y - 2, 3, 1) else (y - 2, m, d).

End Shapes.

(** ** What the answers of the pharmacy system say *)

Module Answers.

Import Json.


(** The item of a refill answer is an object (or any value but [null])
    whose [Status] is the string OK. *)
Definition filled (item : json) : bool :=
  match item with
  | JNull => false
  | _ => isStr "OK" (prop "Status" item)
  end.

(** The request a transfer form sends, and the one a refill form sends. *)
Definition transferRequest (e : env) (f : Transfer.TransferFormData) : Wire.request :=
  Wire.SubmitRxTransferRequest (text (BESTRX_USERNAME e)) (text (BESTRX_PASSWORD e))
    (Transfer.buildPayload e (text (BESTRX_PHARMACY_NUMBER e)) f).

Definition refillRequest (e : env) (f : Refill.RefillFormData) : Wire.request :=
  Wire.SendRefillRequest (Refill.buildPayload e f).

(** [await response.json().catch(() => ({}))] *)
Definition errorDataOf (b : body) : json :=
  match b with
  | JsonBody j => j
  | BadJson _ => JObj []
  end.

(** [errorData.ErrorCode || errorData.Code] of an error body that is not
    [null]. *)
Definition errorCode (errorData : json) : value :=
  orElse (prop "ErrorCode" errorData) (prop "Code" errorData).

(** The cases of the two [switch] statements of the transfer handler that
    name a code: the status, the code and the message. *)
Definition transferCodes : list (Z * string * string) :=
  [ (400, "ERROR0027", "Please provide pharmacy number or NCPDP number.");
    (400, "ERROR0069", "Please provide valid fill date.");
    (400, "ERROR0070", "Fill date cannot be in the future.");
    (400, "ERROR0080", "Please provide valid RX number.");
    (401, "ERROR0003", "Authentication failed. Please contact support.") ].

(** The same for the refill handler. *)
Definition refillCodes : list (Z * string * string) :=
  map (fun '(code, message) => (400, code, message)) Refill.badRequestMessages ++
  [ (403, "1004", "Service authentication failed. Please contact support.");
    (403, "1018", "Pharmacy not authorized for this service. Please contact support.") ].

(** Texts of the handlers that no run displays. *)
Definition transferTextsNeverShown : list string :=
  [ "An error occurred while processing your transfer request.";
    "Invalid request data. Please check your information.";
    "Could not connect to the pharmacy system." ].

Definition refillTextsNeverShown : list string :=
  [ "An error occurred while processing your refill request.";
    "Invalid request data. Please check your information.";
    "Could not connect to the pharmacy system.";
    "Please enter at least one valid prescription number." ].

End Answers.

(** ** The waitlist store as a whole *)

Module WaitlistStore.

Import Json.

(** [localStorage.removeItem(WAITLIST_STORAGE_KEY)]; an exception is
    logged and the store is left as it was. *)
Definition clearWaitlistData (e : env) (store : storage) : storage :=
  match removeItem e with
  | None => Absent
  | Some _ => store
  end.

(** The list [saveWaitlistEntry] hands to [setItem] for a form: the stored
    entries with the entry of the form after them. *)
Definition appended (e : env) (store : storage) (f : Waitlist.WaitlistFormData) : json :=
  match Waitlist.getWaitlistEntries store with
  | JArr items =>
      JArr (items ++ [Waitlist.newEntry e
                        {| Waitlist.name := JS.trim (Waitlist.name f);
                           Waitlist.email := JS.trim (Waitlist.email f);
                           Waitlist.phone := JS.trim (Waitlist.phone f) |}])
  | other => other
  end.

(** [entry.email] of an entry that has one. *)
Definition emailOf (entry : json) : string :=
  match prop "email" entry with
  | Some (JStr s) => s
  | _ => EmptyString
  end.

(** The addresses of the entries, in lower case. *)
Definition addresses (items : list json) : list string :=
  map (fun entry => JS.toLowerCase (emailOf entry)) items.

(** A store the handlers can work with: it reads as an array of entries
    that each have an email, no two of them with the same address up to
    letter case. *)
Definition sound (store : storage) : Prop :=
  match Waitlist.getWaitlistEntries store with
  | JArr items => Forall Notions.hasEmail items /\ NoDup (addresses items)
  | _ => False
  end.

(** The entry the modal hands to [saveWaitlistEntry]. *)
Definition trimmed (f : Waitlist.WaitlistFormData) : Waitlist.WaitlistFormData :=
  {| Waitlist.name := JS.trim (Waitlist.name f);
     Waitlist.email := JS.trim (Waitlist.email f);
     Waitlist.phone := JS.trim (Waitlist.phone f) |}.

(** The checks of the waitlist validator that look at the fields only. *)
Definition fieldsPass (f : Waitlist.WaitlistFormData) : Prop :=
  blank (Waitlist.name f) = false /\
  JS.length (JS.trim (Waitlist.name f)) <= 100 /\
  Shapes.holdsAddress (Waitlist.email f) /\
  (blank (Waitlist.phone f) = true \/
   Regex.matches Regex.waitlistPhone (Waitlist.phone f) = true).

(** The address is that of a stored entry, up to letter case. *)
Definition listed (store : storage) (address : string) : Prop :=
  match Waitlist.getWaitlistEntries store with
  | JArr items => In (JS.toLowerCase address) (addresses items)
  | _ => False
  end.

End WaitlistStore.

(** ** Navigation between the pages

    The header calls [navigateTo] of [App]; the effect of [App] on [page]
    and [scrollToAnchor] runs after the render that follows. Clicks are
    taken one at a time, each with the effect and its timer run to the end
    before the next. *)

Module Nav.

Inductive page : Type := home | about.

(** [a === b] on pages *)
Definition samePage (a b : page) : bool :=
  match a, b with
  | home, home | about, about => true
  | _, _ => false
  end.

Inductive behavior : Type := smooth | auto.

(** [window.scrollTo({ top, behavior })] *)
Record scroll : Type := { top : Z; behavior_ : behavior }.

(** The state of [App] that navigation touches. *)
Record app : Type := {
  page_ : page;
  scrollToAnchor : option string
}.

(** What the effect reads of the document: [getBoundingClientRect().top]
    of the element with an id, when there is one, and
    [window.pageYOffset]. *)
Record document : Type := {
  elementTop : string -> option Z;
  pageYOffset : Z
}.

(** [navigateTo(targetPage, anchor)]: an anchor that is [undefined] or
    empty is falsy. *)
Definition navigateTo (a : app) (targetPage : page) (anchor : option string)
    : app * list scroll :=
  let page' := if negb (samePage (page_ a) targetPage) then targetPage else page_ a in
  if negb (missing anchor) then
    ({| page_ := page'; scrollToAnchor := anchor |}, [])
  else if samePage (page_ a) targetPage then
    ({| page_ := page'; scrollToAnchor := scrollToAnchor a |},
     [{| top := 0; behavior_ := smooth |}])
  else
    ({| page_ := page'; scrollToAnchor := scrollToAnchor a |},
     [{| top := 0; behavior_ := auto |}]).

(** The effect on [page] and [scrollToAnchor], its timer included: on the
    home page with an anchor set it scrolls to the element of that id, 80
    pixels above it, when the element exists, and resets the anchor. *)
Definition scrollEffect (d : document) (a : app) : app * list scroll :=
  if samePage (page_ a) home && negb (missing (scrollToAnchor a)) then
    ({| page_ := page_ a; scrollToAnchor := None |},
     match elementTop d (text (scrollToAnchor a)) with
     | Some elementPosition =>
         [{| top := elementPosition + pageYOffset d - 80; behavior_ := smooth |}]
     | None => []
     end)
  else (a, []).

(** [Header]: the state of the mobile menu. *)
Definition toggleMobileMenu (isMobileMenuOpen : bool) : bool := negb isMobileMenuOpen.

(** [if (isMobileMenuOpen) toggleMobileMenu()] *)
Definition closeMenu (isMobileMenuOpen : bool) : bool :=
  if isMobileMenuOpen then toggleMobileMenu isMobileMenuOpen else isMobileMenuOpen.

(** [handleNavClick(event, href)] of the header: a link that starts with
    a hash leads to the section of the home page named after it, any
    other link to the about page; the mobile menu is closed. The handler
    of the footer is the same without the menu. *)
Definition handleNavClick (isMobileMenuOpen : bool) (a : app) (href : string)
    : bool * app * list scroll :=
  let '(a', scrolls) :=
    match JS.stripPrefix "#" href with
    | Some anchor => navigateTo a home (Some anchor)
    | None => navigateTo a about None
    end in
  (closeMenu isMobileMenuOpen, a', scrolls).

(** A click on a link of the header, followed by the effect. *)
Definition click (d : document) (isMobileMenuOpen : bool) (a : app) (href : string)
    : bool * app * list scroll :=
  let '(menu, a', scrolls) := handleNavClick isMobileMenuOpen a href in
  let '(a'', scrolls') := scrollEffect d a' in
  (menu, a'', (scrolls ++ scrolls')%list).

End Nav.

(** * Properties *)

(** ** Proof steps *)

(** Linear arithmetic with divisions and remainders by constants. *)
Ltac divlia := Z.div_mod_to_equations; lia.

(** The look-up of a key that a check does not write, by cases on the
    tests of the check. *)
Ltac cases_ne :=
  repeat match goal with |- context [if ?c then _ else _] => destruct c end;
  rewrite ?lookup_insert_ne by assumption; reflexivity.

(** ** The model on sample values *)

Example phone_pattern_samples :
  Regex.matches Regex.usPhone "(614) 349-5140" = true /\
  Regex.matches Regex.usPhone "614-349-5140" = true /\
  Regex.matches Regex.usPhone "16143495140" = true /\
  Regex.matches Regex.usPhone "12345" = false.
Proof. vm_compute. repeat split; reflexivity. Qed.

Example email_pattern_samples :
  Regex.search Regex.emailShape "ann@x.com" = true /\
  Regex.search Regex.emailShape "write to ann@x.com today" = true /\
  Regex.search Regex.emailShape "ann@x" = false /\
  Regex.matches Regex.zipCode "43004-1234" = true /\
  Regex.matches Regex.stateCode (JS.toUpperCase (JS.trim " oh ")) = true.
Proof. vm_compute. repeat split; reflexivity. Qed.

Example number_samples :
  Num.Number " 42 " = Num.ofZ 42 /\
  Num.Number EmptyString = Num.ofZ 0 /\
  Num.Number "0x1F" = Num.ofZ 31 /\
  Num.Number "1e3" = Num.ofZ 1000 /\
  Num.Number "1.50" = Num.Fin (3 # 2) /\
  Num.Number "-Infinity" = Num.Inf true /\
  Num.Number "12px" = Num.NaN /\
  Num.Number "." = Num.NaN.
Proof. vm_compute. repeat split; reflexivity. Qed.

(** Literals beyond the precision and the range of binary64. *)
Example rounding_samples :
  Num.Number "9007199254740993" = Num.ofZ 9007199254740992 /\
  Num.Number "9007199254740995" = Num.ofZ 9007199254740996 /\
  Num.Number "0.1" = Num.Fin (3602879701896397 # 36028797018963968) /\
  Num.Number "1e400" = Num.Inf false /\
  Num.Number "-1e400" = Num.Inf true /\
  Num.Number "1.7976931348623158e308" = Num.ofZ (2 ^ 1024 - 2 ^ 971) /\
  Num.Number "1.7976931348623159e308" = Num.Inf false /\
  Num.Number "1e-400" = Num.ofZ 0 /\
  Num.Number "3e-324" = Num.Number "5e-324" /\
  Num.Number "2e-324" = Num.ofZ 0 /\
  Num.minus (Num.Number "0.5") 1 = Num.Fin (-1 # 2).
Proof. vm_compute. repeat split; reflexivity. Qed.

Example toString_samples :
  Json.show (Some (Json.JNum 12345)) = Some "12345" /\
  Json.show (Some (Json.JNum (-1200))) = Some "-1200" /\
  Json.show (Some (Json.JNum (10 ^ 20))) = Some "100000000000000000000" /\
  Json.show (Some (Json.JNum (10 ^ 21))) = Some "1e+21" /\
  Json.show (Some (Json.JNum (2 ^ 70))) = Some "1.1805916207174113e+21" /\
  Json.show (Some (Json.JNum 9007199254740993)) = Some "9007199254740992" /\
  Json.show (Some (Json.JNum 123456789012345678901)) = Some "123456789012345680000" /\
  Json.show (Some (Json.JArr [Json.JNum 1; Json.JNull; Json.JArr [Json.JStr "a"]]))
    = Some "1,,a" /\
  Json.show (Some (Json.JObj [("Message", Json.JStr "x")])) = Some "[object Object]" /\
  Json.show (Some (Json.JObj [("toString", Json.JStr "x")])) = None /\
  Json.show (Some (Json.JArr [Json.JObj [("toString", Json.JNull)]])) = None /\
  Json.show None = Some "undefined".
Proof. vm_compute. repeat split; reflexivity. Qed.

Example optFirst_samples :
  Json.optFirst (Some (Json.JArr [Json.JStr "a"; Json.JStr "b"])) = Some (Json.JStr "a") /\
  Json.optFirst (Some (Json.JArr [])) = None /\
  Json.optFirst (Some (Json.JStr "abc")) = Some (Json.JStr "a") /\
  Json.optFirst (Some (Json.JObj [("0", Json.JObj [("Message", Json.JStr "m")])]))
    = Some (Json.JObj [("Message", Json.JStr "m")]) /\
  Json.optFirst (Some Json.JNull) = None /\
  Json.optFirst None = None.
Proof. vm_compute. repeat split; reflexivity. Qed.

Example split_samples :
  Refill.tokens " 123, 456 789, " = [EmptyString; "123"; "456"; "789"; EmptyString] /\
  JS.splitChar "-" "2024-11-01" = ["2024"; "11"; "01"] /\
  Refill.getLastName "  Mary Ann Lee " = "Lee".
Proof. vm_compute. repeat split; reflexivity. Qed.

Example date_samples :
  Date.newDate3 (Num.ofZ 1970) (Num.ofZ 0) (Num.ofZ 1) = Some 0 /\
  Date.newDate3 (Num.ofZ 2024) (Num.ofZ 1) (Num.ofZ 29) = Some 1709164800000 /\
  Date.newDate3 (Num.ofZ 2023) (Num.ofZ 1) (Num.ofZ 29) = Some 1677628800000 /\
  Date.newDate3 (Num.ofZ 50) (Num.ofZ 0) (Num.ofZ 1) = Some (-631152000000) /\
  Date.newDate3 Num.NaN (Num.ofZ 0) (Num.ofZ 1) = None /\
  Date.YearFromTime (-1) = 1969 /\ Date.MonthFromTime (-1) = 11 /\
  Date.DateFromTime (-1) = 31.
Proof. vm_compute. repeat split; reflexivity. Qed.

(** ** Error maps *)

Lemma hasKeys_insert (k v : string) (m : gmap string string) :
  hasKeys (<[k := v]> m) = true.
Proof.
  unfold hasKeys. destruct (size (<[k := v]> m)) eqn:Hsize; [|reflexivity].
  apply map_size_empty_iff in Hsize. exfalso. exact (insert_non_empty _ _ _ Hsize).
Qed.

Lemma hasKeys_empty : hasKeys ∅ = false.
Proof. reflexivity. Qed.

Lemma hasKeys_false (m : gmap string string) : hasKeys m = false -> m = ∅.
Proof.
  unfold hasKeys. destruct (size m) eqn:Hsize; [|discriminate].
  intros _. by apply map_size_empty_iff.
Qed.

Lemma lookup_flag_ne (c : bool) (k k' v : string) (m : gmap string string) :
  k ≠ k' -> flag c k v m !! k' = m !! k'.
Proof. intros Hne. unfold flag. destruct c; [by rewrite lookup_insert_ne|done]. Qed.

Lemma lookup_flag_eq (c : bool) (k v : string) (m : gmap string string) :
  flag c k v m !! k = if c then Some v else m !! k.
Proof. unfold flag. destruct c; [by rewrite lookup_insert_eq|done]. Qed.

(** ** Transfer: a vendor error under HTTP 200 *)

(** C1. The claim: a response with status 200 whose payload carries
    ErrorCode "ERROR0082" ends in the error state with the vendor-error
    message, whatever else the payload holds. The handler tests the code
    only inside the branch for responses that are not ok, which status 200
    never enters: with [Data.RxTransferred = true] in the payload the valid
    form below ends in the success state, with no API error; with the error
    code alone in the payload it ends in the error state, but with the
    message for an unexpected response, not the vendor-error message. *)
Theorem transfer_error0082_under_200_ends_in_success :
  let e := Sample.network Sample.vendorError200 in
  let e' := Sample.network Sample.vendorErrorOnly200 in
  let s := Sample.transferState "2026-10-01" true in
  Transfer.validate e (Transfer.formData s) = ∅ /\
  Transfer.respond e Sample.vendorError200 = Ok (success, None) /\
  Transfer.status_ (fst (Transfer.handleSubmit e s)) = success /\
  Transfer.apiError (fst (Transfer.handleSubmit e s)) = None /\
  Transfer.status_ (fst (Transfer.handleSubmit e' s)) = error /\
  Transfer.apiError (fst (Transfer.handleSubmit e' s))
    = Some "Unexpected response from pharmacy system. Please contact support.".
Proof. vm_compute. repeat split; reflexivity. Qed.

(** ** Transfer: the fill date exactly two years back *)

(** C3. The claim: a fill date exactly two years before today yields no
    rxFillDate error. The bound [twoYearsAgo] keeps the time of day of the
    clock, while the selected date is taken at midnight: at noon of
    1 November 2026 the fill date 2024-11-01 is rejected as more than two
    years old, although the same date passes when the clock shows midnight
    of that day. *)
Theorem transfer_fill_date_two_years_back_rejected_at_noon :
  let midnight := 1793491200000 in
  let f := Sample.transferForm "2024-11-01" true in
  Date.YearFromTime Sample.noon = 2026 /\
  Date.MonthFromTime Sample.noon = 10 /\
  Date.DateFromTime Sample.noon = 1 /\
  Date.setHoursZero (Some Sample.noon) = Some midnight /\
  Transfer.validate (Sample.clockAt Sample.noon) f !! "rxFillDate"
    = Some "Fill date cannot be more than 2 years ago." /\
  Transfer.validate (Sample.clockAt midnight) f !! "rxFillDate" = None.
Proof. vm_compute. repeat split; reflexivity. Qed.

(** ** Pharmacy-system adapters: missing credentials *)

(** C6. When a credential of the adapter is absent (undefined or empty),
    submitting a form that passes validation ends in the error state with
    the configuration-error message and dispatches no request; this holds
    for the refill adapter (user name, API key, pharmacy number) and for the
    transfer adapter (user name, password, pharmacy number). *)
Theorem missing_credentials_end_in_configuration_error
    (e : env) (rs : Refill.state) (ts : Transfer.state) :
  Refill.validate e (Refill.formData rs) = ∅ ->
  Transfer.validate e (Transfer.formData ts) = ∅ ->
  (missing (BESTRX_USERNAME e) || missing (BESTRX_API_KEY e)
     || missing (BESTRX_PHARMACY_NUMBER e) = true ->
   Refill.handleSubmit e rs =
     ({| Refill.formData := Refill.formData rs;
         Refill.errors := Refill.errors rs;
         Refill.status_ := error;
         Refill.apiError := Some "Service configuration error. Please contact support." |},
      [])) /\
  (missing (BESTRX_USERNAME e) || missing (BESTRX_PASSWORD e)
     || missing (BESTRX_PHARMACY_NUMBER e) = true ->
   Transfer.handleSubmit e ts =
     ({| Transfer.formData := Transfer.formData ts;
         Transfer.errors := Transfer.errors ts;
         Transfer.status_ := error;
         Transfer.apiError := Some "Service configuration error. Please contact support." |},
      [])).
Proof.
  intros Hr Ht. split; intros Hmissing.
  - unfold Refill.handleSubmit. cbv zeta. rewrite Hr, hasKeys_empty, Hmissing. reflexivity.
  - unfold Transfer.handleSubmit. cbv zeta. rewrite Ht, hasKeys_empty, Hmissing. reflexivity.
Qed.

Lemma missing_credentials_end_in_configuration_error_witness :
  let e := Sample.unconfigured in
  let rs := Sample.refillState "1980-05-17" "123, 456 789" true in
  let ts := Sample.transferState "2026-10-01" true in
  Refill.validate e (Refill.formData rs) = ∅ /\
  Transfer.validate e (Transfer.formData ts) = ∅ /\
  Refill.status_ (fst (Refill.handleSubmit e rs)) = error /\
  snd (Refill.handleSubmit e rs) = [] /\
  Transfer.status_ (fst (Transfer.handleSubmit e ts)) = error /\
  snd (Transfer.handleSubmit e ts) = [].
Proof.
  intros e rs ts.
  assert (Hr : Refill.validate e (Refill.formData rs) = ∅) by (vm_compute; reflexivity).
  assert (Ht : Transfer.validate e (Transfer.formData ts) = ∅) by (vm_compute; reflexivity).
  destruct (missing_credentials_end_in_configuration_error e rs ts Hr Ht) as [H1 H2].
  rewrite (H1 eq_refl), (H2 eq_refl). repeat split; assumption.
Defined.

(** ** Consent *)

(** C2, as the claim states it, fails on the waitlist form and on the
    promotional sign-up, whose data have no consent field: a complete
    waitlist entry is submitted and stored, and a sign-up succeeds,
    although no consent was given. *)
Lemma waitlist_submission_not_blocked_without_consent :
  let f := Forms.WaitlistForm (Sample.waitlistForm "ann@x.com") in
  let g := Forms.SplashForm (Splash.formData Sample.splashState) in
  Forms.consentOf f = None /\
  Forms.consentOf g = None /\
  (exists errs effs,
     Forms.submit Sample.offline Absent f = Some (success, errs, effs) /\
     Forms.operations effs <> []) /\
  (exists errs effs,
     Forms.submit Sample.offline Absent g = Some (success, errs, effs)).
Proof.
  vm_compute. split; [reflexivity|]. split; [reflexivity|]. split.
  - do 2 eexists. split; [reflexivity|discriminate].
  - do 2 eexists. reflexivity.
Qed.

(** C2, amended. On each of the three forms that have a consent field
    (contact, refill request, transfer request), submitting with consent
    false yields the consent error and blocks the submission, whatever the
    other fields hold: the error map of the validator is shown, the status
    is left as it was (idle stays idle) and nothing is sent or stored. *)
Theorem consent_false_blocks_submission
    (e : env) (cs : Contact.state) (rs : Refill.state) (ts : Transfer.state) :
  Contact.consent (Contact.formData cs) = false ->
  Refill.consent (Refill.formData rs) = false ->
  Transfer.consent (Transfer.formData ts) = false ->
  (Contact.validate (Contact.formData cs) !! "consent"
     = Some "You must acknowledge the statement to proceed." /\
   Contact.handleSubmit cs =
     ({| Contact.formData := Contact.formData cs;
         Contact.errors := Contact.validate (Contact.formData cs);
         Contact.status_ := Contact.status_ cs |}, [])) /\
  (Refill.validate e (Refill.formData rs) !! "consent"
     = Some "You must acknowledge the statement to proceed." /\
   Refill.handleSubmit e rs =
     ({| Refill.formData := Refill.formData rs;
         Refill.errors := Refill.validate e (Refill.formData rs);
         Refill.status_ := Refill.status_ rs;
         Refill.apiError := None |}, [])) /\
  (Transfer.validate e (Transfer.formData ts) !! "consent"
     = Some "You must authorize this transfer request." /\
   Transfer.handleSubmit e ts =
     ({| Transfer.formData := Transfer.formData ts;
         Transfer.errors := Transfer.validate e (Transfer.formData ts);
         Transfer.status_ := Transfer.status_ ts;
         Transfer.apiError := None |}, [])).
Proof.
  intros Hc Hr Ht. repeat split.
  - unfold Contact.validate. cbv zeta. rewrite Hc. apply lookup_insert_eq.
  - unfold Contact.handleSubmit. cbv zeta.
    replace (hasKeys (Contact.validate (Contact.formData cs))) with true; [reflexivity|].
    unfold Contact.validate. cbv zeta. rewrite Hc. symmetry. apply hasKeys_insert.
  - unfold Refill.validate. cbv zeta. rewrite Hr. apply lookup_insert_eq.
  - unfold Refill.handleSubmit. cbv zeta.
    replace (hasKeys (Refill.validate e (Refill.formData rs))) with true; [reflexivity|].
    unfold Refill.validate. cbv zeta. rewrite Hr. symmetry. apply hasKeys_insert.
  - unfold Transfer.validate. cbv zeta. rewrite Ht. apply lookup_insert_eq.
  - unfold Transfer.handleSubmit. cbv zeta.
    replace (hasKeys (Transfer.validate e (Transfer.formData ts))) with true; [reflexivity|].
    unfold Transfer.validate. cbv zeta. rewrite Ht. symmetry. apply hasKeys_insert.
Qed.

Lemma consent_false_blocks_submission_witness :
  let cs := Sample.contactState false in
  let rs := Sample.refillState "1980-05-17" "123, 456 789" false in
  let ts := Sample.transferState "2026-10-01" false in
  Contact.consent (Contact.formData cs) = false /\
  Refill.consent (Refill.formData rs) = false /\
  Transfer.consent (Transfer.formData ts) = false /\
  Contact.status_ (fst (Contact.handleSubmit cs)) = idle /\
  snd (Contact.handleSubmit cs) = [] /\
  Refill.status_ (fst (Refill.handleSubmit Sample.offline rs)) = idle /\
  snd (Refill.handleSubmit Sample.offline rs) = [] /\
  Transfer.status_ (fst (Transfer.handleSubmit Sample.offline ts)) = idle /\
  snd (Transfer.handleSubmit Sample.offline ts) = [].
Proof.
  intros cs rs ts.
  destruct (consent_false_blocks_submission Sample.offline cs rs ts eq_refl eq_refl eq_refl)
    as [[_ Hc] [[_ Hr] [_ Ht]]].
  rewrite Hc, Hr, Ht. repeat split; reflexivity.
Defined.

(** ** Contact and promotional sign-up: what submitting does *)

(** C9, as the claim states it, fails: submitting a valid contact form
    performs no create operation at all, where the claim has exactly one;
    the handler only waits on a timer. *)
Lemma contact_submission_creates_nothing :
  Contact.validate (Contact.formData (Sample.contactState true)) = ∅ /\
  Contact.status_ (fst (Contact.handleSubmit (Sample.contactState true))) = success /\
  List.length (Forms.operations (snd (Contact.handleSubmit (Sample.contactState true)))) <> 1%nat.
Proof. vm_compute. repeat split; [reflexivity..|discriminate]. Qed.

(** C9, amended. For every valid contact and promotional sign-up
    submission the handler stands in for the adapter with a mock: it waits
    one second on a timer and ends in the success state with an empty error
    map (the contact form is reset to its initial data); it sends no
    request, stores nothing, and yields no record identifier. *)
Theorem contact_and_splash_submission_is_mocked (cs : Contact.state) (ss : Splash.state) :
  Contact.validate (Contact.formData cs) = ∅ ->
  Splash.validate (Splash.formData ss) = ∅ ->
  Contact.handleSubmit cs =
    ({| Contact.formData := Contact.initial; Contact.errors := ∅;
        Contact.status_ := success |}, [Waited 1000]) /\
  Splash.handleSubmit ss =
    ({| Splash.formData := Splash.formData ss; Splash.errors := ∅;
        Splash.status_ := success |}, [Waited 1000]) /\
  Forms.operations (snd (Contact.handleSubmit cs)) = [] /\
  Forms.operations (snd (Splash.handleSubmit ss)) = [].
Proof.
  intros Hc Hs.
  assert (Hcs : Contact.handleSubmit cs =
    ({| Contact.formData := Contact.initial; Contact.errors := ∅;
        Contact.status_ := success |}, [Waited 1000])).
  { unfold Contact.handleSubmit. cbv zeta. rewrite Hc, hasKeys_empty. reflexivity. }
  assert (Hss : Splash.handleSubmit ss =
    ({| Splash.formData := Splash.formData ss; Splash.errors := ∅;
        Splash.status_ := success |}, [Waited 1000])).
  { unfold Splash.handleSubmit. cbv zeta. rewrite Hs, hasKeys_empty. reflexivity. }
  rewrite Hcs, Hss. repeat split; reflexivity.
Qed.

Lemma contact_and_splash_submission_is_mocked_witness :
  Contact.validate (Contact.formData (Sample.contactState true)) = ∅ /\
  Splash.validate (Splash.formData Sample.splashState) = ∅ /\
  snd (Contact.handleSubmit (Sample.contactState true)) = [Waited 1000] /\
  snd (Splash.handleSubmit Sample.splashState) = [Waited 1000].
Proof.
  assert (Hc : Contact.validate (Contact.formData (Sample.contactState true)) = ∅)
    by (vm_compute; reflexivity).
  assert (Hs : Splash.validate (Splash.formData Sample.splashState) = ∅)
    by (vm_compute; reflexivity).
  destruct (contact_and_splash_submission_is_mocked _ _ Hc Hs) as (H1 & H2 & _).
  rewrite H1, H2. repeat split; assumption.
Defined.

(** ** Waitlist storage *)

Module WaitlistFacts.

Import Json Waitlist Notions.

Lemma sameEmail_hasEmail (e : env) (email : string) (entry : json) :
  hasEmail entry -> exists b, sameEmail e email entry = Ok b.
Proof.
  destruct entry; simpl; try contradiction.
  intros [s Hs]. rewrite Hs. eauto.
Qed.

Lemma sameEmail_ok_hasEmail (e : env) (email : string) (entry : json) (b : bool) :
  sameEmail e email entry = Ok b -> hasEmail entry.
Proof.
  destruct entry; simpl; try discriminate.
  destruct (lookup "email" fields) as [[]|]; try discriminate. eauto.
Qed.

Lemma find_hasEmail (e : env) (email : string) (items : list json) :
  Forall hasEmail items -> exists r, find e email items = Ok r.
Proof.
  induction 1 as [|entry rest Hentry _ IH]; simpl; [eauto|].
  destruct (sameEmail_hasEmail e email entry Hentry) as [b ->]. simpl.
  destruct b; eauto.
Qed.

End WaitlistFacts.

(** C10. The claim: for every content of the storage key
    [getWaitlistEntries] returns a list, so that the duplicate check and
    the validation never crash on corrupted storage. The function is
    declared to return [WaitlistEntry[]], and returns whatever the stored
    text parses to: for the text of an empty object it returns that
    object, no list, and the duplicate check, the validation and the
    submit handler all throw a TypeError. *)
Lemma waitlist_check_throws_on_stored_object :
  let store := Parsed (Json.JObj []) in
  let f := Sample.waitlistForm "ann@x.com" in
  Waitlist.getWaitlistEntries store = Json.JObj [] /\
  Waitlist.isEmailOnWaitlist Sample.offline store (Waitlist.email f)
    = Throw (typeErrorMessage Sample.offline) /\
  Waitlist.validate Sample.offline store f = Throw (typeErrorMessage Sample.offline) /\
  Waitlist.handleSubmit Sample.offline store (Sample.waitlistState "ann@x.com")
    = Throw (typeErrorMessage Sample.offline).
Proof. vm_compute. repeat split; reflexivity. Qed.

(** Where the read is guarded. [getWaitlistEntries] never throws: it
    yields the empty list when the stored value is missing, empty or fails
    to parse, and otherwise the value the stored text parses to, without a
    check of its shape. With a store that is missing, empty or unparsable
    the duplicate check answers false and validation returns an error map;
    with a stored list whose entries all carry a string email the
    duplicate check and the validation return as well. *)
Theorem getWaitlistEntries_empty_when_unreadable
    (e : env) (store : storage) (f : Waitlist.WaitlistFormData) (address : string) :
  Notions.unreadable store ->
  Waitlist.getWaitlistEntries store = Json.JArr [] /\
  Waitlist.isEmailOnWaitlist e store address = Ok false /\
  (exists errs, Waitlist.validate e store f = Ok errs) /\
  (forall j, Waitlist.getWaitlistEntries (Parsed j) = j) /\
  (forall items, Forall Notions.hasEmail items ->
     (exists b, Waitlist.isEmailOnWaitlist e (Parsed (Json.JArr items)) address = Ok b) /\
     (exists errs, Waitlist.validate e (Parsed (Json.JArr items)) f = Ok errs)).
Proof.
  intros Hstore.
  assert (Hget : Waitlist.getWaitlistEntries store = Json.JArr [])
    by (destruct store; [reflexivity..|contradiction]).
  assert (Hcheck : forall a, Waitlist.isEmailOnWaitlist e store a = Ok false)
    by (intros a; unfold Waitlist.isEmailOnWaitlist; rewrite Hget; reflexivity).
  split; [exact Hget|]. split; [apply Hcheck|]. split; [|split].
  - unfold Waitlist.validate, Waitlist.checkEmail.
    destruct (blank (Waitlist.email f)); [simpl; eauto|].
    destruct (negb (Regex.search Regex.emailShape (Waitlist.email f))); [simpl; eauto|].
    rewrite Hcheck. simpl. eauto.
  - reflexivity.
  - intros items Hitems. split.
    + unfold Waitlist.isEmailOnWaitlist. simpl.
      destruct (WaitlistFacts.find_hasEmail e address items Hitems) as [r ->].
      simpl. eauto.
    + unfold Waitlist.validate, Waitlist.checkEmail.
      destruct (blank (Waitlist.email f)); [simpl; eauto|].
      destruct (negb (Regex.search Regex.emailShape (Waitlist.email f))); [simpl; eauto|].
      unfold Waitlist.isEmailOnWaitlist. simpl.
      destruct (WaitlistFacts.find_hasEmail e (Waitlist.email f) items Hitems) as [r ->].
      simpl. eauto.
Qed.

Lemma getWaitlistEntries_empty_when_unreadable_witness :
  let entry := Json.JObj [("email", Json.JStr "Ann@x.com")] in
  Notions.unreadable Malformed /\
  Forall Notions.hasEmail [entry] /\
  Waitlist.getWaitlistEntries Malformed = Json.JArr [] /\
  Waitlist.isEmailOnWaitlist Sample.offline Malformed "ann@x.com" = Ok false /\
  exists b,
    Waitlist.isEmailOnWaitlist Sample.offline (Parsed (Json.JArr [entry])) "ann@x.com" = Ok b.
Proof.
  intros entry.
  assert (Hentry : Forall Notions.hasEmail [entry]).
  { constructor; [|constructor]. exists "Ann@x.com". reflexivity. }
  destruct (getWaitlistEntries_empty_when_unreadable Sample.offline Malformed
              (Sample.waitlistForm "ann@x.com") "ann@x.com" I) as (H1 & H2 & _ & _ & H5).
  exact (conj I (conj Hentry (conj H1 (conj H2 (proj1 (H5 [entry] Hentry)))))).
Defined.

(** ** Refill: the prescription numbers field *)

Module RefillFacts.

Import Refill.

Lemma lookup_checkDob_ne (e : env) (f : RefillFormData) (m : gmap string string) (k : string) :
  "dob" ≠ k -> checkDob e f m !! k = m !! k.
Proof. intros Hne. unfold checkDob, flag. cbv zeta.
  repeat match goal with |- context [if ?c then _ else _] => destruct c end;
  rewrite ?lookup_insert_ne by assumption; reflexivity.
Qed.

Lemma lookup_checkPhone_ne (f : RefillFormData) (m : gmap string string) (k : string) :
  "phone" ≠ k -> checkPhone f m !! k = m !! k.
Proof. intros Hne. unfold checkPhone, flag.
  repeat match goal with |- context [if ?c then _ else _] => destruct c end;
  rewrite ?lookup_insert_ne by assumption; reflexivity.
Qed.

Lemma lookup_checkPrescriptionNumbers_ne (f : RefillFormData) (m : gmap string string)
    (k : string) :
  "prescriptionNumbers" ≠ k -> checkPrescriptionNumbers f m !! k = m !! k.
Proof. intros Hne. unfold checkPrescriptionNumbers, flag. cbv zeta.
  repeat match goal with |- context [if ?c then _ else _] => destruct c end;
  rewrite ?lookup_insert_ne by assumption; reflexivity.
Qed.

Lemma lookup_checkPrescriptionNumbers_eq (f : RefillFormData) (m m' : gmap string string) :
  m !! "prescriptionNumbers" = m' !! "prescriptionNumbers" ->
  checkPrescriptionNumbers f m !! "prescriptionNumbers"
    = checkPrescriptionNumbers f m' !! "prescriptionNumbers".
Proof.
  intros Hm. unfold checkPrescriptionNumbers. cbv zeta.
  repeat match goal with |- context [if ?c then _ else _] => destruct c end;
    rewrite ?lookup_insert_eq, ?lookup_flag_eq; try reflexivity.
  rewrite Hm. reflexivity.
Qed.

Lemma lookup_checkDob_eq (e : env) (f : RefillFormData) (m m' : gmap string string) :
  m !! "dob" = m' !! "dob" -> checkDob e f m !! "dob" = checkDob e f m' !! "dob".
Proof.
  intros Hm. unfold checkDob. cbv zeta.
  repeat match goal with |- context [if ?c then _ else _] => destruct c end;
    rewrite ?lookup_insert_eq, ?lookup_flag_eq; try reflexivity.
  rewrite Hm. reflexivity.
Qed.

(** What the validator decides about a field depends on that field's check
    alone. *)
Lemma lookup_prescriptionNumbers (e : env) (f : RefillFormData) :
  validate e f !! "prescriptionNumbers" =
    checkPrescriptionNumbers f ∅ !! "prescriptionNumbers".
Proof.
  unfold validate. cbv zeta.
  rewrite !lookup_flag_ne by discriminate.
  apply lookup_checkPrescriptionNumbers_eq.
  rewrite lookup_flag_ne, lookup_checkPhone_ne, lookup_checkDob_ne, lookup_flag_ne
    by discriminate.
  reflexivity.
Qed.

Lemma lookup_dob (e : env) (f : RefillFormData) :
  validate e f !! "dob" = checkDob e f ∅ !! "dob".
Proof.
  unfold validate. cbv zeta.
  rewrite !lookup_flag_ne by discriminate.
  rewrite lookup_checkPrescriptionNumbers_ne by discriminate.
  rewrite lookup_flag_ne by discriminate.
  rewrite lookup_checkPhone_ne by discriminate.
  apply lookup_checkDob_eq.
  rewrite lookup_flag_ne by discriminate. reflexivity.
Qed.

Lemma length_filter_zero {A : Type} (p : A -> bool) (l : list A) :
  Nat.eqb (List.length (List.filter p l)) 0 = true <-> (forall x, In x l -> p x = false).
Proof.
  induction l as [|a l IH]; simpl.
  - split; [intros _ x []|reflexivity].
  - destruct (p a) eqn:Hpa; simpl.
    + split; [discriminate|]. intros H. rewrite (H a) in Hpa; [discriminate|by left].
    + rewrite IH. split.
      * intros H x [<-|Hx]; [assumption|by apply H].
      * intros H x Hx. apply H. by right.
Qed.

End RefillFacts.

(** C4, as the claim states it, fails: tokens that are numeric literals
    are accepted whether or not they are positive integers. A negative, a
    zero and a fractional token pass without an error on the field. *)
Lemma refill_accepts_tokens_that_are_no_positive_integers :
  let f := Sample.refillForm "1980-05-17" "-5, 0 1.5" true in
  Refill.tokens (Refill.prescriptionNumbers f) = ["-5"; "0"; "1.5"] /\
  Forall (fun t => Notions.positiveInteger (Num.Number t) = false)
    (Refill.tokens (Refill.prescriptionNumbers f)) /\
  Refill.validate Sample.offline f !! "prescriptionNumbers" = None.
Proof.
  intros f.
  assert (Htokens : Refill.tokens (Refill.prescriptionNumbers f) = ["-5"; "0"; "1.5"])
    by (vm_compute; reflexivity).
  rewrite Htokens. split; [reflexivity|]. split.
  - repeat constructor.
  - vm_compute. reflexivity.
Qed.

(** C4, amended. The refill validator reports no error on
    prescriptionNumbers exactly when the field is not blank, its trimmed
    text has at most 1000 characters, the split on commas and white space
    leaves at least one non-blank token, and [Number] of every non-blank
    token is a number (not NaN); whether a token is positive or an integer
    is not checked. *)
Theorem refill_prescription_numbers_accepted_iff_numeric
    (e : env) (f : Refill.RefillFormData) :
  Refill.validate e f !! "prescriptionNumbers" = None <->
  blank (Refill.prescriptionNumbers f) = false /\
  JS.length (JS.trim (Refill.prescriptionNumbers f)) <= 1000 /\
  (exists t, In t (Refill.tokens (Refill.prescriptionNumbers f)) /\ blank t = false) /\
  (forall t, In t (Refill.tokens (Refill.prescriptionNumbers f)) ->
     blank t = false -> Num.isNaN (Num.Number t) = false).
Proof.
  rewrite RefillFacts.lookup_prescriptionNumbers.
  unfold Refill.checkPrescriptionNumbers. cbv zeta.
  destruct (blank (Refill.prescriptionNumbers f)) eqn:Hblank.
  { rewrite lookup_insert_eq. split; [discriminate|]. intros [H _]. discriminate. }
  destruct (1000 <? JS.length (JS.trim (Refill.prescriptionNumbers f))) eqn:Hlong.
  { rewrite lookup_insert_eq. split; [discriminate|].
    intros (_ & H & _). apply Z.ltb_lt in Hlong. lia. }
  apply Z.ltb_ge in Hlong.
  set (toks := Refill.tokens (Refill.prescriptionNumbers f)).
  rewrite lookup_flag_eq, lookup_empty.
  destruct (Nat.eqb (List.length (List.filter (fun n => negb (blank n)) toks)) 0) eqn:Hnone.
  { simpl. split; [discriminate|]. intros (_ & _ & [t [Hin Ht]] & _).
    apply RefillFacts.length_filter_zero with (x := t) in Hnone; [|assumption].
    rewrite Ht in Hnone. discriminate. }
  simpl.
  assert (Hsome : exists t, In t toks /\ blank t = false).
  { destruct (List.filter (fun n => negb (blank n)) toks) as [|t rest] eqn:Hfilter;
      [discriminate|].
    assert (Hin : In t (List.filter (fun n => negb (blank n)) toks))
      by (rewrite Hfilter; by left).
    apply filter_In in Hin as [Hin Ht]. exists t. split; [assumption|].
    by apply negb_true_iff. }
  destruct (existsb (fun n => Num.isNaN (Num.Number n))
              (List.filter (fun n => negb (blank n)) toks)) eqn:Hnan.
  - split; [discriminate|]. intros (_ & _ & _ & Hall).
    apply existsb_exists in Hnan as [t [Hin Ht]].
    apply filter_In in Hin as [Hin Hb]. apply negb_true_iff in Hb.
    rewrite (Hall t Hin Hb) in Ht. discriminate.
  - split; [|reflexivity]. intros _. repeat split; [assumption..|].
    intros t Hin Hb. destruct (Num.isNaN (Num.Number t)) eqn:Ht; [|reflexivity].
    assert (Hex : existsb (fun n => Num.isNaN (Num.Number n))
                    (List.filter (fun n => negb (blank n)) toks) = true).
    { apply existsb_exists. exists t. split; [|assumption].
      apply filter_In. split; [assumption|]. by rewrite Hb. }
    rewrite Hex in Hnan. discriminate.
Qed.



(** ** Calendar dates and the date validators *)

(** Rounding to binary64 leaves the integers of the date arithmetic as
    they are. *)
Module RoundingFacts.
Import Num.

Lemma Qred_whole (z : Z) (p : positive) : Qred (Qmake (z * Z.pos p) p) = inject_Z z.
Proof.
  rewrite <- (Qred_complete (inject_Z z) (Qmake (z * Z.pos p) p)).
  - unfold inject_Z, Qred.
    pose proof (Z.ggcd_gcd z 1) as Hg. pose proof (Z.ggcd_correct_divisors z 1) as Hd.
    destruct (Z.ggcd z 1) as [g [a b]]. simpl in Hg.
    rewrite Z.gcd_1_r in Hg. subst g. destruct Hd as [Ha Hb].
    rewrite Z.mul_1_l in Ha, Hb. subst. reflexivity.
  - unfold Qeq, inject_Z. simpl. lia.
Qed.

Lemma roundHalfEven_whole (z : Z) : roundHalfEven z 1 = z.
Proof. unfold roundHalfEven. rewrite Z.div_1_r, Z.mod_1_r. reflexivity. Qed.

Lemma lastPlace_whole (n : positive) :
  Z.pos n < 2 ^ 53 -> lastPlace n 1 = Z.log2 (Z.pos n) - 52 /\ Z.log2 (Z.pos n) - 52 <= 0.
Proof.
  intros Hn. unfold lastPlace. change (Z.log2 1) with 0.
  pose proof (Z.log2_spec (Z.pos n) eq_refl) as [Hlo Hhi].
  pose proof (Z.log2_nonneg (Z.pos n)) as H0.
  set (l := Z.log2 (Z.pos n)) in *. clearbody l.
  assert (Hl : l <= 52).
  { destruct (Z.le_gt_cases l 52) as [|Hgt]; [assumption|].
    pose proof (Z.pow_le_mono_r 2 53 l). lia. }
  replace (l - 0 - 52) with (l - 52) by lia. cbv zeta. split; [|lia].
  assert (Hshort : (if 0 <=? l - 52 then Z.pos n <? 2 ^ 52 * (1 * 2 ^ (l - 52))
                    else Z.pos n * 2 ^ (- (l - 52)) <? 2 ^ 52 * 1) = false).
  { destruct (Z.leb_spec 0 (l - 52)) as [Hge|Hlt].
    - replace (l - 52) with 0 by lia. apply Z.ltb_ge. replace l with 52 in Hlo by lia. lia.
    - apply Z.ltb_ge.
      assert (Hp : 2 ^ 52 = 2 ^ l * 2 ^ (- (l - 52))).
      { rewrite <- Z.pow_add_r by lia. f_equal. lia. }
      assert (Hpos : 0 < 2 ^ (- (l - 52))) by (apply Z.pow_pos_nonneg; lia).
      nia. }
  rewrite Hshort. lia.
Qed.

(** Integers below [2^53] are binary64 values. *)
Lemma nearestPos_whole (n : positive) :
  Z.pos n < 2 ^ 53 -> nearestPos n 1 = ofZ (Z.pos n).
Proof.
  intros Hn. unfold nearestPos. destruct (lastPlace_whole n Hn) as [-> Hle].
  cbv zeta. destruct (Z.leb_spec 0 (Z.log2 (Z.pos n) - 52)) as [Hge|Hlt].
  - replace (Z.log2 (Z.pos n) - 52) with 0 by lia.
    rewrite Z.pow_0_r, !Z.mul_1_r, roundHalfEven_whole.
    destruct (Z.leb_spec (2 ^ 1024) (Z.pos n)) as [Hf|_]; [|reflexivity].
    assert (2 ^ 53 < 2 ^ 1024) by reflexivity. lia.
  - rewrite roundHalfEven_whole.
    assert (Hpos : 0 < 2 ^ (- (Z.log2 (Z.pos n) - 52))) by (apply Z.pow_pos_nonneg; lia).
    destruct (2 ^ (- (Z.log2 (Z.pos n) - 52))) as [|p|p] eqn:Hpow; try lia.
    simpl Z.to_pos. unfold ofZ. f_equal. apply Qred_whole.
Qed.

Lemma nearest_whole (z : Z) : Z.abs z < 2 ^ 53 -> nearest (inject_Z z) = ofZ z.
Proof.
  intros Hz. unfold nearest. simpl Qnum. simpl Qden. destruct z as [|n|n].
  - reflexivity.
  - apply nearestPos_whole. lia.
  - rewrite nearestPos_whole by lia. reflexivity.
Qed.

Lemma minus_whole (z k : Z) : Z.abs (z - k) < 2 ^ 53 -> minus (ofZ z) k = ofZ (z - k).
Proof.
  intros Hz. unfold minus, ofZ.
  replace (inject_Z z - inject_Z k)%Q with (inject_Z (z - k)).
  - by apply nearest_whole.
  - unfold inject_Z, Qminus, Qplus, Qopp. simpl. f_equal. lia.
Qed.

End RoundingFacts.

Module DateFacts.

Import Num Date Notions.

Lemma allBelow_spec (n : nat) (P : Z -> bool) :
  allBelow n P = true -> forall z, 0 <= z < Z.of_nat n -> P z = true.
Proof.
  induction n as [|k IH]; simpl; intros H z Hz; [lia|].
  apply andb_prop in H as [Hk Hrest].
  destruct (Z.eq_dec z (Z.of_nat k)) as [->|Hne]; [assumption|].
  apply IH; [assumption|lia].
Qed.

Lemma leapDay_cases y :
  (leapDay y = 1 /\ y mod 4 = 0 /\ (y mod 100 <> 0 \/ y mod 400 = 0)) \/
  (leapDay y = 0 /\ (y mod 4 <> 0 \/ (y mod 100 = 0 /\ y mod 400 <> 0))).
Proof.
  unfold leapDay, InLeapYear.
  destruct (Z.eqb_spec (y mod 4) 0), (Z.eqb_spec (y mod 100) 0),
    (Z.eqb_spec (y mod 400) 0); simpl; lia.
Qed.

Lemma DayFromYear_succ y : DayFromYear (y + 1) = DayFromYear y + 365 + leapDay y.
Proof.
  destruct (leapDay_cases y) as [[-> H]|[-> H]]; unfold DayFromYear; divlia.
Qed.

Lemma DayFromYear_mono y1 y2 :
  y1 <= y2 -> DayFromYear y1 + 365 * (y2 - y1) <= DayFromYear y2.
Proof. intros H. unfold DayFromYear. divlia. Qed.

Lemma YearFromDay_spec n :
  DayFromYear (YearFromDay n) <= n < DayFromYear (YearFromDay n + 1).
Proof.
  unfold YearFromDay. cbv zeta.
  set (k := 400 * n / 146097).
  assert (Hk : 146097 * k <= 400 * n < 146097 * (k + 1)) by (subst k; divlia).
  clearbody k.
  destruct (Z.leb_spec (DayFromYear (1970 + k + 1)) n) as [H1|H1].
  - split; [assumption|]. unfold DayFromYear in *. divlia.
  - destruct (Z.leb_spec (DayFromYear (1970 + k)) n) as [H2|H2].
    + split; assumption.
    + split.
      * unfold DayFromYear in *. divlia.
      * replace (1970 + k - 1 + 1) with (1970 + k) by lia. assumption.
Qed.

Lemma DayWithinYear_range n :
  0 <= DayWithinYear n < 365 + leapDay (YearFromDay n).
Proof.
  unfold DayWithinYear. pose proof (YearFromDay_spec n) as H.
  rewrite DayFromYear_succ in H. lia.
Qed.

Lemma month_cases m : 1 <= m <= 12 ->
  m = 1 \/ m = 2 \/ m = 3 \/ m = 4 \/ m = 5 \/ m = 6 \/
  m = 7 \/ m = 8 \/ m = 9 \/ m = 10 \/ m = 11 \/ m = 12.
Proof. lia. Qed.

Lemma leapDay_range y : leapDay y = 0 \/ leapDay y = 1.
Proof. unfold leapDay. destruct (InLeapYear y); lia. Qed.

(** The date read off a day number exists in the calendar. *)
Lemma date_of_day_valid n :
  validDate (YearFromDay n) (MonthFromDay n + 1) (DateFromDay n).
Proof.
  pose proof (DayWithinYear_range n) as Hw.
  unfold validDate, DateFromDay, MonthFromDay, daysInMonth. cbv zeta.
  destruct (leapDay_range (YearFromDay n)) as [Hl | Hl]; rewrite Hl in *;
    repeat match goal with
           | |- context [if ?a <? ?b then _ else _] => destruct (Z.ltb_spec a b)
           end; simpl; lia.
Qed.

Lemma dayNumber_of_day n :
  dayNumber (YearFromDay n) (MonthFromDay n + 1) (DateFromDay n) = n.
Proof.
  unfold dayNumber, DateFromDay, DayWithinYear.
  replace (MonthFromDay n + 1 - 1) with (MonthFromDay n) by lia. lia.
Qed.

Lemma dayNumber_in_year y m d :
  validDate y m d ->
  DayFromYear y <= dayNumber y m d < DayFromYear (y + 1).
Proof.
  intros [Hm Hd]. rewrite DayFromYear_succ. unfold dayNumber.
  destruct (leapDay_range y) as [Hl | Hl];
    destruct (month_cases m Hm) as [->|[->|[->|[->|[->|[->|[->|[->|[->|[->|[->| ->]]]]]]]]]]];
    simpl in *; rewrite ?Hl in *; lia.
Qed.

(** Calendar order is the order of day numbers. *)
Lemma dayNumber_lt y1 m1 d1 y2 m2 d2 :
  validDate y1 m1 d1 -> validDate y2 m2 d2 ->
  before (y1, m1, d1) (y2, m2, d2) ->
  dayNumber y1 m1 d1 < dayNumber y2 m2 d2.
Proof.
  intros H1 H2 [Hy | [-> Hm]].
  - pose proof (dayNumber_in_year _ _ _ H1). pose proof (dayNumber_in_year _ _ _ H2).
    pose proof (DayFromYear_mono (y1 + 1) y2). lia.
  - destruct H1 as [Hm1 Hd1], H2 as [Hm2 Hd2]. unfold dayNumber.
    destruct Hm as [Hm | [-> Hd]]; [|lia].
    destruct (leapDay_range y2) as [Hl | Hl];
      destruct (month_cases m1 Hm1) as [->|[->|[->|[->|[->|[->|[->|[->|[->|[->|[->| ->]]]]]]]]]]];
      destruct (month_cases m2 Hm2) as [->|[->|[->|[->|[->|[->|[->|[->|[->|[->|[->| ->]]]]]]]]]]];
      simpl in *; rewrite ?Hl in *; lia.
Qed.


Lemma digit_cases k : 0 <= k <= 9 ->
  k = 0 \/ k = 1 \/ k = 2 \/ k = 3 \/ k = 4 \/ k = 5 \/ k = 6 \/ k = 7 \/ k = 8 \/ k = 9.
Proof. lia. Qed.

Lemma digitChar_plain k : 0 <= k <= 9 ->
  Ascii.eqb (digitChar k) "-" = false /\ JS.isWhitespace (digitChar k) = false.
Proof.
  intros Hk.
  destruct (digit_cases k Hk) as [->|[->|[->|[->|[->|[->|[->|[->|[->| ->]]]]]]]]];
    split; reflexivity.
Qed.

Lemma splitChar_iso (a b c d f g h i : ascii) :
  Ascii.eqb a "-" = false -> Ascii.eqb b "-" = false ->
  Ascii.eqb c "-" = false -> Ascii.eqb d "-" = false ->
  Ascii.eqb f "-" = false -> Ascii.eqb g "-" = false ->
  Ascii.eqb h "-" = false -> Ascii.eqb i "-" = false ->
  JS.splitChar "-"
    (String a (String b (String c (String d (String "-"
       (String f (String g (String "-" (String h (String i EmptyString))))))))))
  = [ String a (String b (String c (String d EmptyString)));
      String f (String g EmptyString);
      String h (String i EmptyString) ].
Proof.
  intros Ha Hb Hc Hd Hf Hg Hh Hi. simpl.
  rewrite Ha, Hb, Hc, Hd, Hf, Hg, Hh, Hi. reflexivity.
Qed.

Lemma splitChar_isoDate y m d :
  0 <= y <= 9999 -> 0 <= m <= 99 -> 0 <= d <= 99 ->
  JS.splitChar "-" (isoDate y m d) = [pad4 y; pad2 m; pad2 d].
Proof.
  intros Hy Hm Hd. unfold isoDate, pad4, pad2. simpl String.append.
  apply splitChar_iso; apply digitChar_plain; divlia.
Qed.

Lemma blank_String c s : JS.isWhitespace c = false -> blank (String c s) = false.
Proof.
  intros Hc. unfold blank, JS.trim. simpl. rewrite Hc. simpl.
  destruct (JS.trimEnd s); [rewrite Hc|]; reflexivity.
Qed.

Lemma blank_isoDate y m d : 0 <= y <= 9999 -> blank (isoDate y m d) = false.
Proof.
  intros Hy. unfold isoDate, pad4. simpl String.append.
  apply blank_String, digitChar_plain. divlia.
Qed.

Lemma reads_eq s z : reads s z = true -> Number s = ofZ z.
Proof.
  unfold reads, ofZ, inject_Z. destruct (Number s) as [| |[n [| |]]]; try discriminate.
  intros H. apply Z.eqb_eq in H. by subst.
Qed.

Lemma Number_pad4 y : 0 <= y <= 9999 -> Number (pad4 y) = ofZ y.
Proof.
  intros Hy. apply reads_eq.
  apply (allBelow_spec (Z.to_nat 10000) (fun z => reads (pad4 z) z));
    [vm_compute; reflexivity|rewrite Z2Nat.id; lia].
Qed.

Lemma Number_pad2 m : 0 <= m <= 99 -> Number (pad2 m) = ofZ m.
Proof.
  intros Hm. apply reads_eq.
  apply (allBelow_spec (Z.to_nat 100) (fun z => reads (pad2 z) z));
    [vm_compute; reflexivity|rewrite Z2Nat.id; lia].
Qed.

Lemma trunc_ofZ z : trunc (inject_Z z) = z.
Proof. unfold trunc. simpl. apply Z.quot_1_r. Qed.

Lemma daysInMonth_le y m : daysInMonth y m <= 31.
Proof.
  unfold daysInMonth. destruct (leapDay_range y) as [-> | ->].
  all: repeat match goal with |- context [match ?x with _ => _ end] => destruct x end; lia.
Qed.

(** The date object built from the parts of a date of the calendar. *)
Lemma newDate3_valid y m d :
  100 <= y <= 9999 -> validDate y m d ->
  newDate3 (ofZ y) (minus (ofZ m) 1) (ofZ d) = Some (dayNumber y m d * msPerDay).
Proof.
  intros Hy Hv. pose proof (dayNumber_in_year y m d Hv) as Hrange.
  destruct Hv as [Hm Hd].
  rewrite RoundingFacts.minus_whole by (assert (2 ^ 53 = 9007199254740992) by reflexivity; lia).
  unfold newDate3, ofZ, MakeDay, MakeDate. rewrite trunc_ofZ.
  destruct (Z.leb_spec 0 y); [|lia]. destruct (Z.leb_spec y 99); [lia|]. simpl andb. cbv iota.
  rewrite !trunc_ofZ.
  replace ((m - 1) / 12) with 0 by divlia.
  replace ((m - 1) mod 12) with (m - 1) by divlia.
  replace (y + 0) with y by lia. fold (dayNumber y m d).
  unfold TimeClip. 
  pose proof (DayFromYear_mono 100 y). pose proof (DayFromYear_mono (y + 1) 10000).
  assert (H100 : DayFromYear 100 = -683003) by reflexivity.
  assert (H10000 : DayFromYear 10000 = 2932897) by reflexivity.
  destruct (Z.ltb_spec 8640000000000000 (Z.abs (dayNumber y m d * msPerDay + 0))) as [Hbig|_].
  - unfold msPerDay in Hbig. lia.
  - f_equal. lia.
Qed.

Lemma setHoursZero_now t :
  0 <= t -> Day t <= 100000000 -> setHoursZero (Some t) = Some (Day t * msPerDay).
Proof.
  intros Ht Hday. unfold setHoursZero, MakeDate, TimeClip, msPerDay.
  assert (0 <= Day t) by (unfold Day, msPerDay; divlia).
  destruct (Z.ltb_spec 8640000000000000 (Z.abs (Day t * 86400000 + 0))) as [Hbig|_].
  - lia.
  - f_equal. lia.
Qed.

End DateFacts.

Module TransferFacts.

Import Transfer.

Lemma lookup_checkRxNumber_ne (f : TransferFormData) (m : gmap string string) (k : string) :
  "rxNumber" ≠ k -> checkRxNumber f m !! k = m !! k.
Proof. intros Hne. unfold checkRxNumber, flag. cases_ne. Qed.

Lemma lookup_checkState_ne (f : TransferFormData) (m : gmap string string) (k : string) :
  "transferToPharmacyState" ≠ k -> checkState f m !! k = m !! k.
Proof. intros Hne. unfold checkState, flag. cases_ne. Qed.

Lemma lookup_checkZip_ne (f : TransferFormData) (m : gmap string string) (k : string) :
  "transferToPharmacyZip" ≠ k -> checkZip f m !! k = m !! k.
Proof. intros Hne. unfold checkZip, flag. cases_ne. Qed.

Lemma lookup_checkPharmacyPhone_ne (f : TransferFormData) (m : gmap string string) (k : string) :
  "transferToPharmacyPhone" ≠ k -> checkPhone f m !! k = m !! k.
Proof. intros Hne. unfold checkPhone, flag. cases_ne. Qed.

Lemma lookup_checkFillDate_eq (e : env) (f : TransferFormData) (m m' : gmap string string) :
  m !! "rxFillDate" = m' !! "rxFillDate" ->
  checkFillDate e f m !! "rxFillDate" = checkFillDate e f m' !! "rxFillDate".
Proof.
  intros Hm. unfold checkFillDate. cbv zeta.
  destruct (blank (rxFillDate f)); [by rewrite !lookup_insert_eq|].
  rewrite !lookup_flag_eq, Hm. reflexivity.
Qed.

Lemma lookup_rxFillDate (e : env) (f : TransferFormData) :
  validate e f !! "rxFillDate" = checkFillDate e f ∅ !! "rxFillDate".
Proof.
  unfold validate. cbv zeta.
  rewrite !lookup_flag_ne by discriminate.
  rewrite lookup_checkPharmacyPhone_ne, lookup_checkZip_ne, lookup_checkState_ne by discriminate.
  rewrite !lookup_flag_ne by discriminate.
  apply lookup_checkFillDate_eq.
  rewrite lookup_checkRxNumber_ne by discriminate. reflexivity.
Qed.

End TransferFacts.

Module ValidatorFacts.
Import Num Date Notions DateFacts.

(** The parts of a date input value, as the validators read them. *)
Lemma parts_isoDate y m d :
  0 <= y <= 9999 -> validDate y m d ->
  map Number (JS.splitChar "-" (isoDate y m d)) = [ofZ y; ofZ m; ofZ d].
Proof.
  intros Hy [Hm Hd]. pose proof (daysInMonth_le y m).
  rewrite splitChar_isoDate by lia. simpl.
  rewrite Number_pad4, !Number_pad2 by lia. reflexivity.
Qed.

Lemma clock_year t : 0 <= t -> 1970 <= YearFromTime t.
Proof.
  intros Ht. unfold YearFromTime.
  assert (Hday : 0 <= Day t) by (unfold Day, msPerDay; divlia).
  pose proof (YearFromDay_spec (Day t)) as [_ Hlt].
  destruct (Z.le_gt_cases 1970 (YearFromDay (Day t))) as [|Hsmall]; [assumption|].
  pose proof (DayFromYear_mono (YearFromDay (Day t) + 1) 1970).
  assert (DayFromYear 1970 = 0) by reflexivity. lia.
Qed.

Lemma year_of_day_lt n y : n < DayFromYear y -> YearFromDay n < y.
Proof.
  intros Hn. pose proof (YearFromDay_spec n) as [Hlo _].
  destruct (Z.lt_ge_cases (YearFromDay n) y) as [|Hge]; [assumption|].
  pose proof (DayFromYear_mono y (YearFromDay n)). lia.
Qed.

Lemma today_valid (e : env) :
  let '(y, m, d) := today e in validDate y m d /\ dayNumber y m d = Day (localNow e).
Proof.
  unfold today, YearFromTime, MonthFromTime, DateFromTime.
  split; [apply date_of_day_valid|apply dayNumber_of_day].
Qed.

(** How a date of the calendar compares with the clock's midnight. *)
Lemma selected_vs_today (e : env) (y m d : Z) :
  0 <= localNow e -> 0 <= y <= 9999 -> validDate y m d ->
  (before (today e) (y, m, d) \/ (y, m, d) = today e) ->
  newDate3 (ofZ y) (minus (ofZ m) 1) (ofZ d) = Some (dayNumber y m d * msPerDay) /\
  setHoursZero (Some (localNow e)) = Some (Day (localNow e) * msPerDay) /\
  Day (localNow e) <= dayNumber y m d /\
  (Notions.before (Notions.today e) (y, m, d) -> Day (localNow e) < dayNumber y m d) /\
  ((y, m, d) = today e -> Day (localNow e) = dayNumber y m d).
Proof.
  intros Hnow Hy Hv Hcmp.
  pose proof (today_valid e) as Htoday. pose proof (clock_year _ Hnow) as Hyear.
  unfold today in *.
  destruct Htoday as [Hv0 Hday0].
  assert (Hlt : before (YearFromTime (localNow e), MonthFromTime (localNow e) + 1,
                        DateFromTime (localNow e)) (y, m, d) ->
                Day (localNow e) < dayNumber y m d).
  { intros Hb. rewrite <- Hday0. by apply dayNumber_lt. }
  assert (Heq : (y, m, d) = (YearFromTime (localNow e), MonthFromTime (localNow e) + 1,
                             DateFromTime (localNow e)) ->
                Day (localNow e) = dayNumber y m d).
  { intros [= -> -> ->]. by rewrite Hday0. }
  assert (Hle : Day (localNow e) <= dayNumber y m d).
  { destruct Hcmp as [Hb|He]; [pose proof (Hlt Hb)|pose proof (Heq He)]; lia. }
  assert (Hy100 : 100 <= y).
  { destruct Hcmp as [Hb|[= -> _ _]]; [|lia].
    destruct Hb as [?|[? _]]; lia. }
  pose proof (dayNumber_in_year y m d Hv) as Hin.
  pose proof (DayFromYear_mono (y + 1) 10000).
  assert (DayFromYear 10000 = 2932897) by reflexivity.
  repeat split; try assumption.
  - apply newDate3_valid; [lia|assumption].
  - apply setHoursZero_now; [assumption|lia].
Qed.

Lemma month_index_cases m : 0 <= m <= 11 ->
  m = 0 \/ m = 1 \/ m = 2 \/ m = 3 \/ m = 4 \/ m = 5 \/
  m = 6 \/ m = 7 \/ m = 8 \/ m = 9 \/ m = 10 \/ m = 11.
Proof. lia. Qed.

Lemma month_of_day_range n : 0 <= MonthFromDay n <= 11.
Proof. pose proof (date_of_day_valid n) as [Hm _]. lia. Qed.

(** MakeDay on integers, for a month index of the year. *)
Lemma MakeDay_index (y m d : Z) :
  0 <= m <= 11 ->
  MakeDay (ofZ y) (ofZ m) (ofZ d)
  = Some (DayFromYear y + monthStart (leapDay y) m + d - 1).
Proof.
  intros Hm. unfold MakeDay, ofZ. rewrite !trunc_ofZ.
  replace (m / 12) with 0 by divlia. replace (m mod 12) with m by divlia.
  replace (y + 0) with y by lia. reflexivity.
Qed.

Lemma TimeClip_small (v : Z) :
  Z.abs v <= 8640000000000000 -> TimeClip (Some v) = Some v.
Proof.
  intros Hv. unfold TimeClip.
  destruct (Z.ltb_spec 8640000000000000 (Z.abs v)); [lia|reflexivity].
Qed.

Lemma TimeClip_some (x : option Z) (v : Z) : TimeClip x = Some v -> x = Some v.
Proof.
  destruct x as [w|]; simpl; [|discriminate].
  destruct (8640000000000000 <? Z.abs w); [discriminate|]. intros [= ->]. reflexivity.
Qed.

(** The clock set back by two years, before the clip to the range of
    time values. *)
Lemma setFullYear_two_back (t : Z) :
  Z.abs (YearFromTime t - 2) < 2 ^ 53 ->
  setFullYear (Some t) (minus (getFullYear (Some t)) 2)
  = TimeClip (Some ((DayFromYear (YearFromTime t - 2)
                     + monthStart (leapDay (YearFromTime t - 2)) (MonthFromTime t)
                     + DateFromTime t - 1) * msPerDay + TimeWithinDay t)).
Proof.
  intros Hyear. unfold setFullYear, getFullYear.
  rewrite RoundingFacts.minus_whole by assumption.
  rewrite MakeDay_index by apply month_of_day_range. reflexivity.
Qed.

Lemma day_of_clock (n : Z) :
  DayFromYear (YearFromDay n) + monthStart (leapDay (YearFromDay n)) (MonthFromDay n)
  + DateFromDay n - 1 = n.
Proof. unfold DateFromDay, DayWithinYear. lia. Qed.

Lemma monthStart_leap (l l' m : Z) :
  (l = 0 \/ l = 1) -> (l' = 0 \/ l' = 1) -> 0 <= m <= 11 ->
  monthStart l m <= monthStart l' m + 1.
Proof.
  intros Hl Hl' Hm.
  destruct Hl as [-> | ->]; destruct Hl' as [-> | ->];
    destruct (month_index_cases m Hm)
      as [->|[->|[->|[->|[->|[->|[->|[->|[->|[->|[->| ->]]]]]]]]]]]; simpl; lia.
Qed.

(** The bound of the two-year check lies before the clock's midnight. *)
Lemma twoYearsAgo_before_today (t v : Z) :
  0 <= t -> YearFromTime t < 2 ^ 53 ->
  setFullYear (Some t) (minus (getFullYear (Some t)) 2) = Some v ->
  v < Day t * msPerDay.
Proof.
  intros Ht Hyear. pose proof (clock_year t Ht).
  rewrite setFullYear_two_back by lia. intros Hv. apply TimeClip_some in Hv.
  injection Hv as <-.
  unfold YearFromTime, MonthFromTime, DateFromTime.
  pose proof (day_of_clock (Day t)) as Hday.
  pose proof (DayFromYear_mono (YearFromDay (Day t) - 2) (YearFromDay (Day t))) as Hmono.
  pose proof (monthStart_leap (leapDay (YearFromDay (Day t) - 2))
                (leapDay (YearFromDay (Day t))) (MonthFromDay (Day t))
                (leapDay_range _) (leapDay_range _) (month_of_day_range _)) as Hstart.
  assert (Htod : 0 <= TimeWithinDay t < msPerDay)
    by (unfold TimeWithinDay, msPerDay; divlia).
  revert Htod Hstart Hmono Hday. unfold msPerDay.
  generalize (TimeWithinDay t) (Day t) (DateFromDay (Day t))
    (monthStart (leapDay (YearFromDay (Day t) - 2)) (MonthFromDay (Day t)))
    (monthStart (leapDay (YearFromDay (Day t))) (MonthFromDay (Day t)))
    (DayFromYear (YearFromDay (Day t) - 2)) (DayFromYear (YearFromDay (Day t))).
  intros. lia.
Qed.

(** The bound of the two-year check when the day two years back exists:
    that day, at the clock's time of day. *)
Lemma twoYearsAgo_value (t : Z) :
  0 <= t -> YearFromTime t <= 10001 ->
  validDate (YearFromTime t - 2) (MonthFromTime t + 1) (DateFromTime t) ->
  setFullYear (Some t) (minus (getFullYear (Some t)) 2)
  = Some (dayNumber (YearFromTime t - 2) (MonthFromTime t + 1) (DateFromTime t) * msPerDay
          + TimeWithinDay t).
Proof.
  intros Ht Hyear Hv. pose proof (clock_year t Ht) as Hlow.
  rewrite setFullYear_two_back by (assert (2 ^ 53 = 9007199254740992) by reflexivity; lia).
  replace (DayFromYear (YearFromTime t - 2)
           + monthStart (leapDay (YearFromTime t - 2)) (MonthFromTime t)
           + DateFromTime t - 1)
    with (dayNumber (YearFromTime t - 2) (MonthFromTime t + 1) (DateFromTime t))
    by (unfold dayNumber; rewrite Z.add_simpl_r; reflexivity).
  apply TimeClip_small.
  pose proof (clock_year t Ht) as Hy.
  pose proof (dayNumber_in_year _ _ _ Hv) as Hin.
  assert (Htod : 0 <= TimeWithinDay t < msPerDay)
    by (unfold TimeWithinDay, msPerDay; divlia).
  pose proof (DayFromYear_mono 1968 (YearFromTime t - 2)) as H1.
  pose proof (DayFromYear_mono (YearFromTime t - 2 + 1) 10000) as H2.
  assert (H3 : DayFromYear 1968 = -731) by reflexivity.
  assert (H4 : DayFromYear 10000 = 2932897) by reflexivity.
  revert Htod Hin H1 H2 H3 H4 Hy Hyear. unfold msPerDay.
  generalize (TimeWithinDay t)
    (dayNumber (YearFromTime t - 2) (MonthFromTime t + 1) (DateFromTime t))
    (DayFromYear (YearFromTime t - 2)) (DayFromYear (YearFromTime t - 2 + 1))
    (DayFromYear 1968) (DayFromYear 10000) (YearFromTime t).
  intros. lia.
Qed.

(** The fill date exactly two years before today is rejected as too old
    at every time of day after midnight, and accepted at midnight. *)
Lemma two_years_back_depends_on_time_of_day
    (e : env) (tf : Transfer.TransferFormData) (y m d : Z) :
  0 <= localNow e ->
  today e = (y + 2, m, d) ->
  y <= 9999 ->
  validDate y m d ->
  Transfer.rxFillDate tf = isoDate y m d ->
  Transfer.validate e tf !! "rxFillDate"
  = if 0 <? TimeWithinDay (localNow e)
    then Some "Fill date cannot be more than 2 years ago."
    else None.
Proof.
  intros Hnow Htoday Hy Hv Hfill.
  pose proof (clock_year _ Hnow) as Hyear.
  unfold today in Htoday. injection Htoday as Hy0 Hm0 Hd0.
  assert (Hago : setFullYear (Some (localNow e)) (minus (getFullYear (Some (localNow e))) 2)
                 = Some (dayNumber y m d * msPerDay + TimeWithinDay (localNow e))).
  { rewrite twoYearsAgo_value; [|assumption|lia|].
    - rewrite Hy0, Hm0, Hd0. replace (y + 2 - 2) with y by lia. reflexivity.
    - rewrite Hy0, Hm0, Hd0. replace (y + 2 - 2) with y by lia. assumption. }
  pose proof (today_valid e) as Htv. unfold today in Htv. rewrite Hm0, Hd0 in Htv.
  destruct Htv as [Hv0 Hday0].
  assert (Hbefore : dayNumber y m d < Day (localNow e)).
  { rewrite <- Hday0. apply dayNumber_lt; [assumption|assumption|]. left. lia. }
  assert (Htod : 0 <= TimeWithinDay (localNow e) < msPerDay)
    by (unfold TimeWithinDay, msPerDay; divlia).
  rewrite TransferFacts.lookup_rxFillDate. unfold Transfer.checkFillDate. cbv zeta.
  rewrite Hfill, blank_isoDate by lia.
  rewrite parts_isoDate by (try assumption; lia). simpl nth.
  rewrite newDate3_valid by (try assumption; lia).
  rewrite setHoursZero_now; [|assumption|].
  2: { pose proof (dayNumber_in_year _ _ _ Hv0) as Hin.
       pose proof (DayFromYear_mono (YearFromTime (localNow e) + 1) 10002).
       assert (DayFromYear 10002 = 2933628) by reflexivity. lia. }
  rewrite Hago, !lookup_flag_eq, lookup_empty. unfold Date.lt, Date.gt, Date.lt.
  destruct (Z.ltb_spec (Day (localNow e) * msPerDay) (dayNumber y m d * msPerDay)) as [Hf|_].
  { unfold msPerDay in Hf. lia. }
  destruct (Z.ltb_spec 0 (TimeWithinDay (localNow e))) as [Hpos|Hzero];
    destruct (Z.ltb_spec (dayNumber y m d * msPerDay)
                (dayNumber y m d * msPerDay + TimeWithinDay (localNow e))) as [H1|H1];
    try reflexivity; lia.
Qed.
End ValidatorFacts.

(** C8. For a date of the calendar given as YYYY-MM-DD, with the clock not
    before 1970: when the date is strictly after the current local date,
    the refill validator reports the future-date error on dob and the
    transfer validator reports it on rxFillDate; when the date is the
    current local date, neither validator reports an error on that field. *)
Theorem future_dates_rejected_today_accepted
    (e : env) (rf : Refill.RefillFormData) (tf : Transfer.TransferFormData) (y m d : Z) :
  0 <= localNow e ->
  0 <= y <= 9999 ->
  Notions.validDate y m d ->
  Refill.dob rf = Notions.isoDate y m d ->
  Transfer.rxFillDate tf = Notions.isoDate y m d ->
  (Notions.before (Notions.today e) (y, m, d) ->
     Refill.validate e rf !! "dob" = Some "Date of birth cannot be in the future." /\
     Transfer.validate e tf !! "rxFillDate" = Some "Fill date cannot be in the future.") /\
  ((y, m, d) = Notions.today e ->
     Refill.validate e rf !! "dob" = None /\
     Transfer.validate e tf !! "rxFillDate" = None).
Proof.
  intros Hnow Hy Hv Hdob Hfill.
  assert (Hboth : Notions.before (Notions.today e) (y, m, d) \/ (y, m, d) = Notions.today e ->
    let future := Date.Day (localNow e) * Date.msPerDay
                  <? Notions.dayNumber y m d * Date.msPerDay in
    Refill.validate e rf !! "dob"
      = (if future then Some "Date of birth cannot be in the future." else None) /\
    Transfer.validate e tf !! "rxFillDate"
      = (if future then Some "Fill date cannot be in the future." else None)).
  { intros Hcmp.
    destruct (ValidatorFacts.selected_vs_today e y m d Hnow Hy Hv Hcmp)
      as (Hsel & Htoday & Hle & _).
    split.
    - rewrite RefillFacts.lookup_dob. unfold Refill.checkDob. cbv zeta.
      rewrite Hdob, DateFacts.blank_isoDate by assumption.
      rewrite ValidatorFacts.parts_isoDate by assumption. simpl nth.
      rewrite Hsel, Htoday, lookup_flag_eq. reflexivity.
    - rewrite TransferFacts.lookup_rxFillDate. unfold Transfer.checkFillDate. cbv zeta.
      rewrite Hfill, DateFacts.blank_isoDate by assumption.
      rewrite ValidatorFacts.parts_isoDate by assumption. simpl nth.
      rewrite Hsel, Htoday, !lookup_flag_eq.
      destruct (Date.setFullYear _ _) as [v|] eqn:Hago; [|reflexivity].
      assert (Hyear : Date.YearFromTime (localNow e) < 2 ^ 53).
      { pose proof (DateFacts.dayNumber_in_year y m d Hv) as Hin.
        pose proof (DateFacts.DayFromYear_mono (y + 1) 10000).
        pose proof (ValidatorFacts.year_of_day_lt (Date.Day (localNow e)) 10000) as Hlt.
        assert (2 ^ 53 = 9007199254740992) by reflexivity.
        unfold Date.YearFromTime. lia. }
      apply ValidatorFacts.twoYearsAgo_before_today in Hago; [|assumption|assumption].
      unfold Date.lt at 1.
      destruct (Z.ltb_spec (Notions.dayNumber y m d * Date.msPerDay) v) as [Hold|_];
        [|reflexivity].
      unfold Date.msPerDay in *. lia. }
  split; intros Hcmp.
  - destruct (Hboth (or_introl Hcmp)) as [-> ->].
    destruct (ValidatorFacts.selected_vs_today e y m d Hnow Hy Hv (or_introl Hcmp))
      as (_ & _ & _ & Hlt & _).
    specialize (Hlt Hcmp).
    destruct (Z.ltb_spec (Date.Day (localNow e) * Date.msPerDay)
                (Notions.dayNumber y m d * Date.msPerDay)) as [_|Hge]; [split; reflexivity|].
    unfold Date.msPerDay in Hge. lia.
  - destruct (Hboth (or_intror Hcmp)) as [-> ->].
    destruct (ValidatorFacts.selected_vs_today e y m d Hnow Hy Hv (or_intror Hcmp))
      as (_ & _ & _ & _ & Heq).
    rewrite (Heq Hcmp), Z.ltb_irrefl. split; reflexivity.
Qed.

Lemma future_dates_rejected_today_accepted_witness :
  let e := Sample.clockAt Sample.noon in
  (0 <= localNow e /\ Notions.validDate 2026 11 2 /\
   Notions.before (Notions.today e) (2026, 11, 2) /\
   Refill.validate e (Sample.refillForm "2026-11-02" "123" true) !! "dob"
     = Some "Date of birth cannot be in the future." /\
   Transfer.validate e (Sample.transferForm "2026-11-02" true) !! "rxFillDate"
     = Some "Fill date cannot be in the future.") /\
  (Notions.validDate 2026 11 1 /\ (2026, 11, 1) = Notions.today e /\
   Refill.validate e (Sample.refillForm "2026-11-01" "123" true) !! "dob" = None /\
   Transfer.validate e (Sample.transferForm "2026-11-01" true) !! "rxFillDate" = None).
Proof.
  intros e.
  assert (Hnow : 0 <= localNow e) by (vm_compute; discriminate).
  assert (Hlater : Notions.validDate 2026 11 2) by (vm_compute; intuition discriminate).
  assert (Hsame : Notions.validDate 2026 11 1) by (vm_compute; intuition discriminate).
  assert (Hbefore : Notions.before (Notions.today e) (2026, 11, 2))
    by (vm_compute; right; split; [reflexivity|]; right; split; reflexivity).
  assert (Htoday : (2026, 11, 1) = Notions.today e) by (vm_compute; reflexivity).
  split.
  - destruct (future_dates_rejected_today_accepted e
                (Sample.refillForm "2026-11-02" "123" true)
                (Sample.transferForm "2026-11-02" true) 2026 11 2
                Hnow ltac:(lia) Hlater eq_refl eq_refl) as [Hfuture _].
    destruct (Hfuture Hbefore) as [H1 H2].
    exact (conj Hnow (conj Hlater (conj Hbefore (conj H1 H2)))).
  - destruct (future_dates_rejected_today_accepted e
                (Sample.refillForm "2026-11-01" "123" true)
                (Sample.transferForm "2026-11-01" true) 2026 11 1
                Hnow ltac:(lia) Hsame eq_refl eq_refl) as [_ Hcurrent].
    destruct (Hcurrent Htoday) as [H1 H2].
    exact (conj Hsame (conj Htoday (conj H1 H2))).
Defined.

(** ** Waitlist: duplicate addresses *)

Module CaseFacts.

Import Regex Notions.











End CaseFacts.

Module WaitlistRun.

Import Json Waitlist Notions WaitlistFacts.

Lemma find_none_hasEmail (e : env) (a : string) (items : list json) :
  find e a items = Ok None -> Forall hasEmail items.
Proof.
  induction items as [|entry rest IH]; simpl; intros H; [constructor|].
  destruct (sameEmail e a entry) as [b|] eqn:Hsame; [|discriminate]. simpl in H.
  constructor; [by eapply sameEmail_ok_hasEmail|].
  destruct b; [discriminate|]. by apply IH.
Qed.


Lemma flag_empty (c : bool) (k v : string) (m : gmap string string) :
  flag c k v m = ∅ -> c = false /\ m = ∅.
Proof.
  unfold flag. destruct c; intros H; [|by split].
  exfalso. exact (insert_non_empty _ _ _ H).
Qed.

Lemma insert_empty_absurd (k v : string) (m : gmap string string) (P : Prop) :
  <[k := v]> m = ∅ -> P.
Proof. intros H. exfalso. exact (insert_non_empty _ _ _ H). Qed.

(** What a passing validation says about the form and the store. *)
Lemma validate_passes (e : env) (store : storage) (f : WaitlistFormData) :
  validate e store f = Ok ∅ ->
  blank (email f) = false /\
  Regex.search Regex.emailShape (email f) = true /\
  exists items, getWaitlistEntries store = JArr items /\ find e (email f) items = Ok None.
Proof.
  unfold validate, checkEmail.
  destruct (blank (email f)).
  { simpl. intros [= H]. apply flag_empty in H as [_ H].
    exact (insert_empty_absurd _ _ _ _ H). }
  destruct (Regex.search Regex.emailShape (email f)); simpl.
  2: { intros [= H]. apply flag_empty in H as [_ H].
       exact (insert_empty_absurd _ _ _ _ H). }
  unfold isEmailOnWaitlist.
  destruct (getWaitlistEntries store) as [| | | |items|]; simpl; try discriminate.
  destruct (find e (email f) items) as [[found|]|] eqn:Hfind; simpl; try discriminate.
  - intros [= H]. apply flag_empty in H as [_ H].
    exact (insert_empty_absurd _ _ _ _ H).
  - intros _. repeat split. eauto.
Qed.

Lemma save_fresh (e : env) (store : storage) (entry : WaitlistFormData) (items : list json) :
  getWaitlistEntries store = JArr items ->
  find e (email entry) items = Ok None ->
  setItem e (JArr (items ++ [newEntry e entry])) = None ->
  saveWaitlistEntry e store entry
    = Ok (newEntry e entry, Parsed (JArr (items ++ [newEntry e entry]))).
Proof.
  intros Hitems Hfind Hset. unfold saveWaitlistEntry. rewrite Hitems. simpl.
  rewrite Hfind. cbv zeta. by rewrite Hset.
Qed.

(** The exception of [setItem] is that of [saveWaitlistEntry]. *)
Lemma save_refused (e : env) (store : storage) (entry : WaitlistFormData) (items : list json)
    (message : string) :
  getWaitlistEntries store = JArr items ->
  find e (email entry) items = Ok None ->
  setItem e (JArr (items ++ [newEntry e entry])) = Some message ->
  saveWaitlistEntry e store entry = Throw message.
Proof.
  intros Hitems Hfind Hset. unfold saveWaitlistEntry. rewrite Hitems. simpl.
  rewrite Hfind. cbv zeta. by rewrite Hset.
Qed.

Lemma save_duplicate (e : env) (store : storage) (entry : WaitlistFormData)
    (items : list json) (x : json) :
  getWaitlistEntries store = JArr items ->
  find e (email entry) items = Ok (Some x) ->
  saveWaitlistEntry e store entry = Throw "This email address is already on the waitlist.".
Proof. intros Hitems Hfind. unfold saveWaitlistEntry. rewrite Hitems. simpl. by rewrite Hfind. Qed.

(** No second entry for an address already stored: when the trimmed
    address of a submission matches a stored entry, the handler leaves the
    store as it is, whatever the validator made of the field as typed. *)
Lemma store_unchanged_on_duplicate
    (e : env) (store store' : storage) (s s' : state) (items : list json) (x : json)
    (effs : list effect) :
  getWaitlistEntries store = JArr items ->
  find e (JS.trim (email (formData s))) items = Ok (Some x) ->
  handleSubmit e store s = Ok (s', store', effs) ->
  store' = store /\ effs = [].
Proof.
  intros Hitems Hfind. unfold handleSubmit. cbv zeta.
  destruct (validate e store (formData s)) as [errs|]; simpl; [|discriminate].
  destruct (hasKeys errs) eqn:Hkeys.
  - intros [= <- <- <-]. split; reflexivity.
  - erewrite save_duplicate; [|exact Hitems|exact Hfind].
    intros [= <- <- <-]. split; reflexivity.
Qed.

End WaitlistRun.

Section WaitlistClaim.

Import Json Waitlist WaitlistRun.



End WaitlistClaim.


(** ** Patterns and the texts they accept *)

Module RegexFacts.
Import Regex Shapes.

Lemma app_empty (s : string) : EmptyString +:+ s = s.
Proof. reflexivity. Qed.

Lemma app_String (c : ascii) (s t : string) : String c s +:+ t = String c (s +:+ t).
Proof. reflexivity. Qed.

Lemma nullable_lang r : nullable r = true -> lang r EmptyString.
Proof.
  induction r as [| |p|r1 IH1 r2 IH2|r1 IH1 r2 IH2|r1 IH1]; simpl; intros H.
  - discriminate.
  - constructor.
  - discriminate.
  - apply andb_true_iff in H as [H1 H2].
    exact (lang_seq r1 r2 EmptyString EmptyString (IH1 H1) (IH2 H2)).
  - apply orb_true_iff in H as [H|H]; [apply lang_alt_l|apply lang_alt_r]; auto.
  - constructor.
Qed.

Lemma lang_nullable r : lang r EmptyString -> nullable r = true.
Proof.
  remember EmptyString as s eqn:Hs. intros H. 
  induction H as [|p c Hp|r1 r2 s1 s2 H1 IH1 H2 IH2|r1 r2 s H IH|r1 r2 s H IH|r|r s1 s2 H1 IH1 H2 IH2]; simpl.
  - reflexivity.
  - discriminate.
  - destruct s1; [|discriminate]. rewrite app_empty in Hs. rewrite IH1, IH2 by auto. reflexivity.
  - rewrite IH by auto. reflexivity.
  - rewrite IH by auto. apply orb_true_r.
  - reflexivity.
  - reflexivity.
Qed.

Lemma deriv_lang c r s : lang (deriv c r) s -> lang r (String c s).
Proof.
  revert s. induction r as [| |p|r1 IH1 r2 IH2|r1 IH1 r2 IH2|r1 IH1]; simpl; intros s H.
  - inversion H.
  - inversion H.
  - destruct (p c) eqn:Hp; inversion H; subst. by constructor.
  - destruct (nullable r1) eqn:Hn.
    + inversion H as [| | |? ? ? H'|? ? ? H'| |]; subst.
      * inversion H' as [| |? ? s1 s2 Ha Hb| | | |]; subst.
        exact (lang_seq r1 r2 (String c s1) s2 (IH1 _ Ha) Hb).
      * exact (lang_seq r1 r2 EmptyString (String c s) (nullable_lang _ Hn) (IH2 _ H')).
    + inversion H as [| |? ? s1 s2 Ha Hb| | | |]; subst.
      exact (lang_seq r1 r2 (String c s1) s2 (IH1 _ Ha) Hb).
  - inversion H; subst; [apply lang_alt_l|apply lang_alt_r]; auto.
  - inversion H as [| |? ? s1 s2 Ha Hb| | | |]; subst.
    exact (lang_star_cons r1 (String c s1) s2 (IH1 _ Ha) Hb).
Qed.

Lemma lang_deriv c r s : lang r (String c s) -> lang (deriv c r) s.
Proof.
  remember (String c s) as t eqn:Ht. intros H. revert s Ht.
  induction H as [|p c' Hp|r1 r2 s1 s2 H1 IH1 H2 IH2|r1 r2 s' H IH|r1 r2 s' H IH|r|r s1 s2 H1 IH1 H2 IH2];
    intros s Ht; simpl.
  - discriminate.
  - injection Ht as -> <-. rewrite Hp. constructor.
  - destruct s1 as [|a s1].
    + rewrite app_empty in Ht. subst s2. rewrite (lang_nullable _ H1). apply lang_alt_r. by apply IH2.
    + rewrite app_String in Ht. injection Ht as -> <-.
      destruct (nullable r1); [apply lang_alt_l|]; constructor; auto.
  - apply lang_alt_l. by apply IH.
  - apply lang_alt_r. by apply IH.
  - discriminate.
  - destruct s1 as [|a s1].
    + rewrite app_empty in Ht. by apply IH2.
    + rewrite app_String in Ht. injection Ht as -> <-. constructor; auto.
Qed.

Lemma matches_lang r s : matches r s = true <-> lang r s.
Proof.
  revert r. induction s as [|c s IH]; simpl; intros r.
  - split; [apply nullable_lang|apply lang_nullable].
  - rewrite IH. split; [apply deriv_lang|apply lang_deriv].
Qed.

End RegexFacts.

Module PhoneFacts.
Import Regex Shapes RegexFacts.

Lemma digitsOnly_app s t : JS.digitsOnly (s +:+ t) = JS.digitsOnly s +:+ JS.digitsOnly t.
Proof.
  induction s as [|c s IH]; [reflexivity|].
  rewrite app_String. simpl. rewrite IH. destruct (JS.isDigit c); reflexivity.
Qed.

Lemma whitespace_no_digit c : JS.isWhitespace c = true -> JS.isDigit c = false.
Proof. destruct c as [[] [] [] [] [] [] [] []]; vm_compute; congruence. Qed.

Lemma phoneSep_no_digit c :
  JS.isWhitespace c || Ascii.eqb c "." || Ascii.eqb c "-" = true -> JS.isDigit c = false.
Proof. destruct c as [[] [] [] [] [] [] [] []]; vm_compute; congruence. Qed.

Ltac invert_lang :=
  repeat match goal with
  | H : lang (Seq _ _) _ |- _ => inversion H; subst; clear H
  | H : lang (Alt _ _) _ |- _ => inversion H; subst; clear H
  | H : lang Eps _ |- _ => inversion H; subst; clear H
  | H : lang (Class _) _ |- _ => inversion H; subst; clear H
  end.

Ltac plain_chars :=
  repeat match goal with
  | H : Ascii.eqb _ _ = true |- _ => apply Ascii.eqb_eq in H; subst
  | H : JS.isWhitespace _ = true |- _ => apply whitespace_no_digit in H
  | H : JS.isWhitespace _ || _ || _ = true |- _ => apply phoneSep_no_digit in H
  end.

Ltac read_digits :=
  repeat match goal with
  | H : JS.isDigit ?c = _ |- context [JS.isDigit ?c] => rewrite H
  | |- context [JS.isDigit (Ascii ?a ?b ?c ?d ?e ?f ?g ?h)] =>
      let v := eval vm_compute in (JS.isDigit (Ascii a b c d e f g h)) in
      change (JS.isDigit (Ascii a b c d e f g h)) with v
  end.

Lemma usPhone_digits s :
  matches usPhone s = true -> phoneDigits (JS.digitsOnly s) = true.
Proof.
  intros H. apply matches_lang in H.
  cbv [usPhone Opt Rep Chr digit space phoneSep] in H.
  invert_lang; cbv beta in *; plain_chars.
  all: rewrite !digitsOnly_app; cbn [JS.digitsOnly]; read_digits; cbv iota.
  all: cbv [String.append]; unfold phoneDigits; cbn [all String.length]; read_digits; reflexivity.
Qed.
End PhoneFacts.

(** ** What a submitted transfer request carries *)

Module TransferRun.

Import Num Wire Transfer WaitlistRun.

(** What a passing validation says about the fields. *)
Lemma transfer_validate_passes (e : env) (f : TransferFormData) :
  validate e f = ∅ ->
  (blank (rxNumber f) = false /\ isNaN (Number (rxNumber f)) = false /\
   leZero (Number (rxNumber f)) = false) /\
  blank (rxFillDate f) = false /\
  (blank (transferToPharmacyName f) = false /\
   blank (transferToPharmacyAddress1 f) = false /\
   blank (transferToPharmacyCity f) = false) /\
  (blank (transferToPharmacyState f) = false /\
   Regex.matches Regex.stateCode (JS.toUpperCase (JS.trim (transferToPharmacyState f))) = true) /\
  (blank (transferToPharmacyZip f) = false /\
   Regex.matches Regex.zipCode (transferToPharmacyZip f) = true) /\
  (blank (transferToPharmacyPhone f) = false /\
   Regex.matches Regex.usPhone (transferToPharmacyPhone f) = true) /\
  (blank (transferToPharmacyNCPDP f) = true \/
   Regex.matches Regex.ncpdp (JS.trim (transferToPharmacyNCPDP f)) = true) /\
  consent f = true.
Proof.
  unfold validate. cbv zeta. intros H.
  apply flag_empty in H as [Hconsent H].
  apply flag_empty in H as [Hncpdp H].
  unfold checkPhone in H.
  destruct (blank (transferToPharmacyPhone f)); [exact (insert_empty_absurd _ _ _ _ H)|].
  apply flag_empty in H as [Hphone H].
  unfold checkZip in H.
  destruct (blank (transferToPharmacyZip f)); [exact (insert_empty_absurd _ _ _ _ H)|].
  apply flag_empty in H as [Hzip H].
  unfold checkState in H.
  destruct (blank (transferToPharmacyState f)); [exact (insert_empty_absurd _ _ _ _ H)|].
  apply flag_empty in H as [Hstate H].
  apply flag_empty in H as [Hcity H].
  apply flag_empty in H as [Haddress H].
  apply flag_empty in H as [Hname H].
  unfold checkFillDate in H. cbv zeta in H.
  destruct (blank (rxFillDate f)); [exact (insert_empty_absurd _ _ _ _ H)|].
  apply flag_empty in H as [_ H]. apply flag_empty in H as [_ H].
  unfold checkRxNumber in H.
  destruct (blank (rxNumber f)); [exact (insert_empty_absurd _ _ _ _ H)|].
  destruct (isNaN (Number (rxNumber f))); [exact (insert_empty_absurd _ _ _ _ H)|].
  apply flag_empty in H as [Hrx _].
  apply negb_false_iff in Hconsent, Hphone, Hzip, Hstate.
  repeat split; try assumption; try reflexivity.
  destruct (blank (transferToPharmacyNCPDP f)); [by left|right].
  simpl in Hncpdp. by apply negb_false_iff in Hncpdp.
Qed.

(** A request leaves the form only after a passing validation, with the
    three credentials set, and it is the one built from the form. *)
Lemma transfer_sent (e : env) (s : state) (req : request) :
  In (Fetched req) (snd (handleSubmit e s)) ->
  validate e (formData s) = ∅ /\
  req = SubmitRxTransferRequest (text (BESTRX_USERNAME e)) (text (BESTRX_PASSWORD e))
          (buildPayload e (text (BESTRX_PHARMACY_NUMBER e)) (formData s)).
Proof.
  unfold handleSubmit. cbv zeta.
  destruct (hasKeys (validate e (formData s))) eqn:Hkeys; [intros []|].
  destruct (missing (BESTRX_USERNAME e) || missing (BESTRX_PASSWORD e)
            || missing (BESTRX_PHARMACY_NUMBER e)); [intros []|].
  apply hasKeys_false in Hkeys.
  destruct (respond e _) as [[[] m]|m]; simpl; intros [[= <-]|[]]; by split.
Qed.

End TransferRun.

Module ShapeFacts.

Import Regex Shapes RegexFacts PhoneFacts.

Lemma all_app (p : ascii -> bool) (s t : string) :
  all p (s +:+ t) = all p s && all p t.
Proof.
  induction s as [|c s IH]; [reflexivity|].
  rewrite app_String. simpl. rewrite IH. by rewrite andb_assoc.
Qed.

Lemma all_impl (p q : ascii -> bool) (s : string) :
  (forall c, p c = true -> q c = true) -> all p s = true -> all q s = true.
Proof.
  intros Hpq. induction s as [|c s IH]; simpl; [reflexivity|].
  intros H. apply andb_true_iff in H as [Hc Hs]. by rewrite (Hpq c Hc), IH.
Qed.

Lemma length_app (s t : string) :
  String.length (s +:+ t) = (String.length s + String.length t)%nat.
Proof. induction s as [|c s IH]; [reflexivity|]. rewrite app_String. simpl. by rewrite IH. Qed.

(** A bounded repetition of a class accepts the texts of that length over
    the class. *)
Lemma Rep_class (p : ascii -> bool) (n : nat) (s : string) :
  lang (Rep n (Class p)) s -> all p s = true /\ String.length s = n.
Proof.
  revert s. induction n as [|n IH]; simpl; intros s H.
  - inversion H. by split.
  - inversion H as [| |? ? s1 s2 H1 H2| | | |]; subst.
    inversion H1 as [|? c Hc| | | | |]; subst.
    destruct (IH _ H2) as [Hall Hlen].
    rewrite app_String, app_empty. simpl. by rewrite Hc, Hall, Hlen.
Qed.

Lemma Rep_digits (n : nat) (s : string) : lang (Rep n digit) s -> digits n s = true.
Proof.
  intros H. apply Rep_class in H as [Hall Hlen].
  unfold digits. rewrite Hall, Hlen, Nat.eqb_refl. reflexivity.
Qed.

Lemma digit_no_whitespace c : JS.isDigit c = true -> JS.isWhitespace c = false.
Proof. destruct c as [[] [] [] [] [] [] [] []]; vm_compute; congruence. Qed.

Lemma trimEnd_plain (s : string) :
  all (fun c => negb (JS.isWhitespace c)) s = true -> JS.trimEnd s = s.
Proof.
  induction s as [|c s IH]; simpl; [reflexivity|].
  intros H. apply andb_true_iff in H as [Hc Hs]. rewrite (IH Hs).
  apply negb_true_iff in Hc. rewrite Hc. by destruct s.
Qed.

(** [trim] leaves a text without white space as it is. *)
Lemma trim_plain (s : string) :
  all (fun c => negb (JS.isWhitespace c)) s = true -> JS.trim s = s.
Proof.
  intros H. unfold JS.trim.
  replace (JS.trimStart s) with s; [by apply trimEnd_plain|].
  destruct s as [|c s]; [reflexivity|]. simpl in *.
  apply andb_true_iff in H as [Hc _]. apply negb_true_iff in Hc. by rewrite Hc.
Qed.

Lemma digits_plain (n : nat) (s : string) :
  digits n s = true -> all (fun c => negb (JS.isWhitespace c)) s = true.
Proof.
  unfold digits. intros H. apply andb_true_iff in H as [H _].
  apply (all_impl JS.isDigit); [|assumption].
  intros c Hc. by rewrite (digit_no_whitespace c Hc).
Qed.

Lemma stateCode_shape (s : string) :
  matches stateCode s = true -> all JS.isUpperAZ s = true /\ String.length s = 2%nat.
Proof. intros H. apply matches_lang in H. by apply Rep_class in H. Qed.

Lemma ncpdp_shape (s : string) : matches ncpdp s = true -> digits 7 s = true.
Proof. intros H. apply matches_lang in H. by apply Rep_digits. Qed.

Lemma app_empty_r (s : string) : s +:+ EmptyString = s.
Proof. induction s as [|c s IH]; [reflexivity|]. by rewrite app_String, IH. Qed.

Lemma zipCode_shape (s : string) :
  matches zipCode s = true ->
  JS.trim s = s /\
  (digits 5 s = true \/
   exists a b, s = a +:+ "-" +:+ b /\ digits 5 a = true /\ digits 4 b = true).
Proof.
  intros H. apply matches_lang in H. unfold zipCode, Opt in H.
  inversion H as [| |? ? a t Ha Ht| | | |]; subst.
  apply (Rep_digits 5) in Ha.
  inversion Ht as [| | |? ? ? He|? ? ? Hs| |]; subst.
  - inversion He; subst. rewrite app_empty_r.
    split; [by apply trim_plain, (digits_plain 5)|by left].
  - inversion Hs as [| |? ? d b Hd Hb| | | |]; subst.
    inversion Hd as [|? c Hc| | | | |]; subst.
    apply Ascii.eqb_eq in Hc. subst c.
    apply (Rep_digits 4) in Hb. split.
    + apply trim_plain. rewrite !all_app, (digits_plain 5 a Ha), (digits_plain 4 b Hb).
      reflexivity.
    + right. exists a, b. by rewrite app_String, app_empty.
Qed.

End ShapeFacts.

(** ** What a submitted refill request carries *)

Module RefillRun.

Import Num Wire Refill WaitlistRun.

(** What a passing validation says about the fields. *)
Lemma refill_validate_passes (e : env) (f : RefillFormData) :
  validate e f = ∅ ->
  blank (patientName f) = false /\
  blank (dob f) = false /\
  (blank (phone f) = false /\ Regex.matches Regex.usPhone (phone f) = true) /\
  (blank (email f) = true \/ Regex.search Regex.emailShape (email f) = true) /\
  (blank (prescriptionNumbers f) = false /\
   (1000 <? JS.length (JS.trim (prescriptionNumbers f))) = false /\
   Nat.eqb (List.length (List.filter (fun n => negb (blank n))
                           (tokens (prescriptionNumbers f)))) 0 = false /\
   existsb (fun n => isNaN (Number n))
     (List.filter (fun n => negb (blank n)) (tokens (prescriptionNumbers f))) = false) /\
  (500 <? JS.length (JS.trim (medicationNames f))) = false /\
  (500 <? JS.length (JS.trim (notes f))) = false /\
  consent f = true.
Proof.
  unfold validate. cbv zeta. intros H.
  apply flag_empty in H as [Hconsent H].
  apply flag_empty in H as [Hnotes H].
  apply flag_empty in H as [Hmeds H].
  unfold checkPrescriptionNumbers in H. cbv zeta in H.
  destruct (blank (prescriptionNumbers f)); [exact (insert_empty_absurd _ _ _ _ H)|].
  destruct (1000 <? JS.length (JS.trim (prescriptionNumbers f)));
    [exact (insert_empty_absurd _ _ _ _ H)|].
  apply flag_empty in H as [Hrx H]. apply orb_false_iff in Hrx as [Hsome Hnumeric].
  apply flag_empty in H as [Hemail H].
  unfold checkPhone in H.
  destruct (blank (phone f)); [exact (insert_empty_absurd _ _ _ _ H)|].
  apply flag_empty in H as [Hphone H].
  unfold checkDob in H. cbv zeta in H.
  destruct (blank (dob f)); [exact (insert_empty_absurd _ _ _ _ H)|].
  apply flag_empty in H as [_ H].
  apply flag_empty in H as [Hname _].
  apply negb_false_iff in Hconsent, Hphone.
  repeat split; try assumption; try reflexivity.
  destruct (blank (email f)); [by left|right].
  simpl in Hemail. by apply negb_false_iff in Hemail.
Qed.

Lemma refill_sent (e : env) (s : state) (req : request) :
  In (Fetched req) (snd (handleSubmit e s)) ->
  validate e (formData s) = ∅ /\
  req = SendRefillRequest (buildPayload e (formData s)).
Proof.
  unfold handleSubmit. cbv zeta.
  destruct (hasKeys (validate e (formData s))) eqn:Hkeys; [intros []|].
  destruct (missing (BESTRX_USERNAME e) || missing (BESTRX_API_KEY e)
            || missing (BESTRX_PHARMACY_NUMBER e)); [intros []|].
  destruct (Nat.eqb _ 0); [intros []|].
  apply hasKeys_false in Hkeys.
  destruct (respond e _) as [[[] m]|m]; simpl; intros [[= <-]|[]]; by split.
Qed.

Lemma trimEnd_idem (s : string) : JS.trimEnd (JS.trimEnd s) = JS.trimEnd s.
Proof.
  induction s as [|c s IH]; [reflexivity|]. simpl.
  destruct (JS.trimEnd s) as [|a t] eqn:Ht.
  - destruct (JS.isWhitespace c) eqn:Hc; [reflexivity|]. simpl. by rewrite Hc.
  - change (JS.trimEnd (String c (String a t))) with
      (match JS.trimEnd (String a t) with
       | EmptyString => if JS.isWhitespace c then EmptyString else String c EmptyString
       | String x y => String c (String x y)
       end).
    by rewrite IH.
Qed.

Lemma trimStart_trimEnd (s : string) :
  JS.trimStart (JS.trimEnd (JS.trimStart s)) = JS.trimEnd (JS.trimStart s).
Proof.
  induction s as [|c s IH]; [reflexivity|]. simpl.
  destruct (JS.isWhitespace c) eqn:Hc; [assumption|].
  simpl. destruct (JS.trimEnd s); rewrite ?Hc; simpl; by rewrite Hc.
Qed.

(** [trim] is idempotent. *)
Lemma trim_idem (s : string) : JS.trim (JS.trim s) = JS.trim s.
Proof. unfold JS.trim. by rewrite trimStart_trimEnd, trimEnd_idem. Qed.

Lemma Number_trim (s : string) : Number (JS.trim s) = Number s.
Proof. unfold Number. cbv zeta. by rewrite trim_idem. Qed.

Lemma Number_blank (s : string) : blank s = true -> Number s = ofZ 0.
Proof. unfold blank, Number. cbv zeta. by intros ->. Qed.

Lemma filter_numeric (l : list string) :
  existsb (fun n => isNaN (Number n)) (List.filter (fun n => negb (blank n)) l) = false ->
  List.filter (fun num => negb (blank num) && negb (isNaN (Number num))) l
  = List.filter (fun n => negb (blank n)) l.
Proof.
  induction l as [|t l IH]; simpl; [reflexivity|].
  destruct (blank t); simpl; [assumption|].
  intros H. apply orb_false_iff in H as [Ht Hl]. rewrite Ht. simpl. by rewrite IH.
Qed.

(** For a validated form the entries sent are the non-blank tokens, each
    read as a number. *)
Lemma rxEntries_validated (e : env) (f : RefillFormData) :
  validate e f = ∅ ->
  rxEntries f = map (fun t => {| RxNo := stringify (Number t) |})
                  (List.filter (fun t => negb (blank t)) (tokens (prescriptionNumbers f))) /\
  Nat.eqb (List.length (rxEntries f)) 0 = false.
Proof.
  intros H. apply refill_validate_passes in H as (_ & _ & _ & _ & (_ & _ & Hsome & Hnum) & _).
  unfold rxEntries. rewrite (filter_numeric _ Hnum). split.
  - apply map_ext. intros t. by rewrite Number_trim.
  - by rewrite length_map.
Qed.

End RefillRun.

Module NameFacts.

Import Shapes RegexFacts ShapeFacts.

Lemma splitChar_cons (sep : ascii) (s : string) :
  exists t ts, JS.splitChar sep s = t :: ts.
Proof.
  induction s as [|c s (t & ts & IH)]; simpl; [eauto|].
  destruct (Ascii.eqb c sep); [eauto|]. rewrite IH. eauto.
Qed.

(** Joining the pieces with the separator gives the text back. *)
Lemma join_cons (sep t u : string) (ts : list string) :
  JS.join sep (t :: u :: ts) = t +:+ sep +:+ JS.join sep (u :: ts).
Proof. reflexivity. Qed.

Lemma join_splitChar (sep : ascii) (s : string) :
  JS.join (String sep EmptyString) (JS.splitChar sep s) = s.
Proof.
  induction s as [|c s IH]; [reflexivity|].
  destruct (splitChar_cons sep s) as (t & ts & Hs).
  cbn [JS.splitChar]. rewrite Hs in *.
  destruct (Ascii.eqb_spec c sep) as [->|_].
  - by rewrite join_cons, IH.
  - destruct ts as [|u ts].
    + simpl in *. by rewrite IH.
    + rewrite join_cons in *. by rewrite app_String, IH.
Qed.

(** No piece holds the separator. *)
Lemma splitChar_pieces (sep : ascii) (s : string) :
  Forall (fun t => all (fun c => negb (Ascii.eqb c sep)) t = true) (JS.splitChar sep s).
Proof.
  induction s as [|c s IH]; simpl; [by repeat constructor|].
  destruct (Ascii.eqb c sep) eqn:Hc; [by constructor|].
  destruct (JS.splitChar sep s) as [|t ts]; [by repeat constructor; simpl; rewrite Hc|].
  inversion IH; subst. constructor; [simpl; by rewrite Hc|assumption].
Qed.

Lemma app_assoc (s t u : string) : s +:+ (t +:+ u) = (s +:+ t) +:+ u.
Proof. induction s as [|c s IH]; [reflexivity|]. by rewrite !app_String, IH. Qed.

Lemma join_last (sep : string) (t : string) (ts : list string) :
  exists pre, JS.join sep (t :: ts) = pre +:+ List.last (t :: ts) EmptyString /\
              (pre = EmptyString \/ exists pre', pre = pre' +:+ sep).
Proof.
  revert t. induction ts as [|u ts IH]; intros t.
  - exists EmptyString. by split; [|left].
  - destruct (IH u) as (pre & Hjoin & Hpre).
    exists (t +:+ sep +:+ pre). split.
    + change (JS.join sep (t :: u :: ts)) with (t +:+ sep +:+ JS.join sep (u :: ts)).
      change (List.last (t :: u :: ts) EmptyString) with (List.last (u :: ts) EmptyString).
      rewrite Hjoin. by rewrite !app_assoc.
    + right. destruct Hpre as [->|[pre' ->]].
      * exists t. by rewrite app_empty_r.
      * exists (t +:+ sep +:+ pre'). by rewrite !app_assoc.
Qed.

Lemma last_in (t : string) (ts : list string) :
  In (List.last (t :: ts) EmptyString) (t :: ts).
Proof.
  revert t. induction ts as [|u ts IH]; intros t; [by left|].
  right. exact (IH u).
Qed.

Lemma app_is_empty (s t : string) : s +:+ t = EmptyString -> s = EmptyString /\ t = EmptyString.
Proof. destruct s; [by split|discriminate]. Qed.

(** What [trimEnd] returns does not end with white space. *)
Lemma trimEnd_last (s p : string) (c : ascii) :
  JS.trimEnd s = p +:+ String c EmptyString -> JS.isWhitespace c = false.
Proof.
  revert p. induction s as [|a s IH]; intros p; simpl.
  - intros H. symmetry in H. by apply app_is_empty in H as [_ H].
  - destruct (JS.trimEnd s) as [|x t].
    + destruct (JS.isWhitespace a) eqn:Ha.
      * intros H. symmetry in H. by apply app_is_empty in H as [_ H].
      * destruct p as [|b p]; [by intros [= <-]|].
        rewrite app_String. intros [= _ H]. symmetry in H.
        by apply app_is_empty in H as [_ H].
    + destruct p as [|b p]; [discriminate|].
      rewrite app_String. intros [= _ H]. by apply (IH p).
Qed.

(** The last name sent is what follows the last space of the trimmed
    name; it is not empty when the name is not blank. *)
Lemma getLastName_spec (fullName : string) :
  blank fullName = false ->
  Refill.getLastName fullName <> EmptyString /\
  all (fun c => negb (Ascii.eqb c " ")) (Refill.getLastName fullName) = true /\
  exists pre, JS.trim fullName = pre +:+ Refill.getLastName fullName /\
              (pre = EmptyString \/ exists pre', pre = pre' +:+ " ").
Proof.
  intros Hname. unfold Refill.getLastName.
  pose proof (join_splitChar " " (JS.trim fullName)) as Hjoin.
  pose proof (splitChar_pieces " " (JS.trim fullName)) as Hpieces.
  destruct (splitChar_cons " " (JS.trim fullName)) as (t & ts & Hs). rewrite Hs in *.
  destruct (join_last " " t ts) as (pre & Hlast & Hpre). rewrite Hjoin in Hlast.
  assert (Hplain : all (fun c => negb (Ascii.eqb c " ")) (List.last (t :: ts) EmptyString) = true).
  { rewrite List.Forall_forall in Hpieces. apply Hpieces.
    apply last_in. }
  split; [|split; [exact Hplain|by exists pre]].
  intros Hempty. rewrite Hempty, app_empty_r in Hlast.
  destruct Hpre as [->|[pre' ->]].
  - unfold blank in Hname. by rewrite Hlast in Hname.
  - unfold JS.trim in Hlast. by apply trimEnd_last in Hlast.
Qed.

End NameFacts.

Module NumberFacts.

Import Num Shapes.

Lemma positive_iff (n : number) :
  positive n = true <-> isNaN n = false /\ leZero n = false.
Proof.
  destruct n as [|[]|q]; simpl; try (split; [intros [=]|intros [[=] [=]]]; fail).
  - split; [by intros _|reflexivity].
  - unfold Qle_bool. simpl.
    destruct (Z.ltb_spec 0 (Qnum q)), (Z.leb_spec (Qnum q * 1) 0); split;
      try (intros [_ [=]]); try intros [=]; try (by split); try reflexivity; lia.
Qed.

End NumberFacts.

(** X1. The transfer validator reports no error on the prescription number
    exactly when [Number] reads the field as a number above zero. A blank
    field reads as 0 and is covered by this; the test is on the number,
    not on its spelling, so that fractions, exponents, hexadecimal
    literals and [Infinity] pass. *)
Theorem transfer_rx_number_accepted_iff_positive (e : env) (f : Transfer.TransferFormData) :
  Transfer.validate e f !! "rxNumber" = None <->
  Shapes.positive (Num.Number (Transfer.rxNumber f)) = true.
Proof.
  assert (Hlookup : Transfer.validate e f !! "rxNumber"
                    = Transfer.checkRxNumber f ∅ !! "rxNumber").
  { unfold Transfer.validate. cbv zeta.
    rewrite !lookup_flag_ne by discriminate.
    rewrite TransferFacts.lookup_checkPharmacyPhone_ne, TransferFacts.lookup_checkZip_ne,
      TransferFacts.lookup_checkState_ne by discriminate.
    rewrite !lookup_flag_ne by discriminate.
    unfold Transfer.checkFillDate. cbv zeta.
    destruct (blank (Transfer.rxFillDate f));
      [by rewrite lookup_insert_ne by discriminate|].
    by rewrite !lookup_flag_ne by discriminate. }
  rewrite Hlookup, NumberFacts.positive_iff. unfold Transfer.checkRxNumber.
  destruct (blank (Transfer.rxNumber f)) eqn:Hblank.
  - rewrite (RefillRun.Number_blank _ Hblank). simpl. rewrite lookup_insert_eq.
    split; [intros [=]|intros [_ [=]]].
  - simpl. destruct (Num.isNaN (Num.Number (Transfer.rxNumber f))).
    + rewrite lookup_insert_eq. split; [intros [=]|intros [[=] _]].
    + rewrite lookup_flag_eq, lookup_empty.
      destruct (Num.leZero (Num.Number (Transfer.rxNumber f))).
      * split; [intros [=]|intros [_ [=]]].
      * by split.
Qed.

(** X2. Every transfer request that leaves the form is well formed: its
    prescription number is the field read by [Number] and is a number
    above zero, or it is null, and this exactly when the field reads as
    Infinity; the state is two capital letters, the ZIP code is the text
    as typed and is five digits or five digits, a hyphen and four digits,
    the NCPDP number is empty or seven digits, and the pharmacy name, the
    first address line and the city are not empty. *)
Theorem transfer_request_is_well_formed
    (e : env) (s : Transfer.state) (user password : string) (p : Wire.TransferPayload) :
  In (Fetched (Wire.SubmitRxTransferRequest user password p))
     (snd (Transfer.handleSubmit e s)) ->
  let t := Wire.TransferTo p in
  match Wire.tRxNo p with
  | Wire.JsonNumber q =>
      Num.Number (Transfer.rxNumber (Transfer.formData s)) = Num.Fin q /\ (0 < q)%Q
  | Wire.JsonNull =>
      Num.Number (Transfer.rxNumber (Transfer.formData s)) = Num.Inf false
  end /\
  (Shapes.all JS.isUpperAZ (Wire.State t) = true /\ String.length (Wire.State t) = 2%nat) /\
  (Wire.Zip t = Transfer.transferToPharmacyZip (Transfer.formData s) /\
   (Shapes.digits 5 (Wire.Zip t) = true \/
    exists a b, Wire.Zip t = a +:+ "-" +:+ b /\
                Shapes.digits 5 a = true /\ Shapes.digits 4 b = true)) /\
  (Wire.PharmacyNCPDP t = EmptyString \/ Shapes.digits 7 (Wire.PharmacyNCPDP t) = true) /\
  Wire.PharmacyName t <> EmptyString /\
  Wire.Address1 t <> EmptyString /\
  Wire.City t <> EmptyString.
Proof.
  intros Hsent. apply TransferRun.transfer_sent in Hsent as [Hvalid [= _ _ ->]].
  apply TransferRun.transfer_validate_passes in Hvalid
    as ((_ & Hnan & Hpos) & _ & (Hname & Haddress & Hcity) & (_ & Hstate) & (_ & Hzip)
        & _ & Hncpdp & _).
  cbv zeta. simpl.
  split.
  { destruct (Num.Number (Transfer.rxNumber (Transfer.formData s))) as [|[|]|q];
      simpl in *; try discriminate; [reflexivity|].
    split; [reflexivity|]. apply Qnot_le_lt. intros Hle.
    apply Qle_bool_iff in Hle. congruence. }
  split; [by apply ShapeFacts.stateCode_shape|].
  split.
  { destruct (ShapeFacts.zipCode_shape _ Hzip) as [Htrim Hshape].
    rewrite Htrim. split; [reflexivity|exact Hshape]. }
  split.
  { destruct Hncpdp as [Hblank|Hseven]; [left|right; by apply ShapeFacts.ncpdp_shape].
    unfold blank in Hblank.
    destruct (JS.trim (Transfer.transferToPharmacyNCPDP _)); [reflexivity|discriminate]. }
  unfold blank in Hname, Haddress, Hcity.
  repeat split; intros Hempty; by rewrite Hempty in *.
Qed.

Lemma transfer_request_is_well_formed_witness :
  let e := Sample.offline in
  let s := Sample.transferState "2026-10-01" true in
  let p := Transfer.buildPayload e "1234567" (Transfer.formData s) in
  let s' := Sample.transferStateFor "1e400" "2026-10-01" in
  let p' := Transfer.buildPayload e "1234567" (Transfer.formData s') in
  (In (Fetched (Wire.SubmitRxTransferRequest "webuser" "secret" p))
      (snd (Transfer.handleSubmit e s)) /\
   Wire.State (Wire.TransferTo p) = "OH" /\
   Wire.tRxNo p = Wire.JsonNumber (inject_Z 12345) /\
   (Num.Number (Transfer.rxNumber (Transfer.formData s)) = Num.ofZ 12345 /\
    (0 < inject_Z 12345)%Q) /\
   Shapes.digits 5 (Wire.Zip (Wire.TransferTo p)) = true) /\
  (In (Fetched (Wire.SubmitRxTransferRequest "webuser" "secret" p'))
      (snd (Transfer.handleSubmit e s')) /\
   Wire.tRxNo p' = Wire.JsonNull /\
   Num.Number (Transfer.rxNumber (Transfer.formData s')) = Num.Inf false).
Proof.
  intros e s p s' p'.
  assert (Hsent : In (Fetched (Wire.SubmitRxTransferRequest "webuser" "secret" p))
                     (snd (Transfer.handleSubmit e s)))
    by (vm_compute; left; reflexivity).
  assert (Hsent' : In (Fetched (Wire.SubmitRxTransferRequest "webuser" "secret" p'))
                      (snd (Transfer.handleSubmit e s')))
    by (vm_compute; left; reflexivity).
  pose proof (transfer_request_is_well_formed e s "webuser" "secret" p Hsent)
    as (Hrx & _ & _).
  pose proof (transfer_request_is_well_formed e s' "webuser" "secret" p' Hsent')
    as (Hrx' & _).
  split.
  - split; [exact Hsent|]. split; [reflexivity|]. split; [reflexivity|].
    split; [exact Hrx|reflexivity].
  - split; [exact Hsent'|]. split; [reflexivity|exact Hrx'].
Defined.

(** X3. The phone number of every refill request and of every transfer
    request that leaves its form consists of the digits of the field and
    is ten digits long, or eleven digits long with a leading 1. *)
Theorem sent_phone_numbers_are_digits
    (e : env) (rs : Refill.state) (ts : Transfer.state) :
  (forall p, In (Fetched (Wire.SendRefillRequest p)) (snd (Refill.handleSubmit e rs)) ->
     Wire.Phone p = JS.digitsOnly (Refill.phone (Refill.formData rs)) /\
     Shapes.phoneDigits (Wire.Phone p) = true) /\
  (forall user password p,
     In (Fetched (Wire.SubmitRxTransferRequest user password p))
        (snd (Transfer.handleSubmit e ts)) ->
     Wire.PharmacyPhoneNumber (Wire.TransferTo p)
       = JS.digitsOnly (Transfer.transferToPharmacyPhone (Transfer.formData ts)) /\
     Shapes.phoneDigits (Wire.PharmacyPhoneNumber (Wire.TransferTo p)) = true).
Proof.
  split.
  - intros p Hsent. apply RefillRun.refill_sent in Hsent as [Hvalid [= ->]].
    apply RefillRun.refill_validate_passes in Hvalid as (_ & _ & (_ & Hphone) & _).
    split; [reflexivity|]. by apply PhoneFacts.usPhone_digits.
  - intros user password p Hsent.
    apply TransferRun.transfer_sent in Hsent as [Hvalid [= _ _ ->]].
    apply TransferRun.transfer_validate_passes in Hvalid as (_ & _ & _ & _ & _ & (_ & Hphone) & _).
    split; [reflexivity|]. by apply PhoneFacts.usPhone_digits.
Qed.

Lemma sent_phone_numbers_are_digits_witness :
  let e := Sample.offline in
  let rs := Sample.refillState "1980-05-17" "123, 456 789" true in
  let ts := Sample.transferState "2026-10-01" true in
  In (Fetched (Wire.SendRefillRequest (Refill.buildPayload e (Refill.formData rs))))
     (snd (Refill.handleSubmit e rs)) /\
  Wire.Phone (Refill.buildPayload e (Refill.formData rs)) = "6143495140" /\
  Shapes.phoneDigits (Wire.Phone (Refill.buildPayload e (Refill.formData rs))) = true /\
  In (Fetched (Wire.SubmitRxTransferRequest "webuser" "secret"
                 (Transfer.buildPayload e "1234567" (Transfer.formData ts))))
     (snd (Transfer.handleSubmit e ts)) /\
  Shapes.phoneDigits (Wire.PharmacyPhoneNumber (Wire.TransferTo
    (Transfer.buildPayload e "1234567" (Transfer.formData ts)))) = true.
Proof.
  intros e rs ts.
  assert (Hrefill : In (Fetched (Wire.SendRefillRequest
                                   (Refill.buildPayload e (Refill.formData rs))))
                       (snd (Refill.handleSubmit e rs)))
    by (vm_compute; left; reflexivity).
  assert (Htransfer : In (Fetched (Wire.SubmitRxTransferRequest "webuser" "secret"
                            (Transfer.buildPayload e "1234567" (Transfer.formData ts))))
                         (snd (Transfer.handleSubmit e ts)))
    by (vm_compute; left; reflexivity).
  destruct (sent_phone_numbers_are_digits e rs ts) as [Hr Ht].
  destruct (Hr _ Hrefill) as [_ Hdigits].
  destruct (Ht _ _ _ Htransfer) as [_ Hdigits'].
  split; [exact Hrefill|]. split; [reflexivity|]. split; [exact Hdigits|].
  split; [exact Htransfer|exact Hdigits'].
Defined.

(** ** Answers of the pharmacy system *)

Module AnswerFacts.

Import Json Answers WaitlistRun.

(** The message of the [catch] block is the message thrown, when it holds
    one of the phrases of the handler, or one of two fixed texts. *)
Lemma transfer_caught_cases (m : string) :
  (Transfer.caught m = m /\
   existsb (fun p => JS.includes p m) Transfer.ownMessages = true) \/
  Transfer.caught m
    = "Network connection failed. Please check your internet connection and try again." \/
  Transfer.caught m = "An unexpected error occurred. Please try again or contact support.".
Proof.
  unfold Transfer.caught.
  destruct (existsb _ Transfer.ownMessages); [by left|right].
  destruct (_ || _); [by left|by right].
Qed.

Lemma refill_caught_cases (m : string) :
  (Refill.caught m = m /\
   existsb (fun p => JS.includes p m) Refill.ownMessages = true) \/
  Refill.caught m
    = "Network connection failed. Please check your internet connection and try again." \/
  Refill.caught m = "An unexpected error occurred. Please try again or contact support.".
Proof.
  unfold Refill.caught.
  destruct (existsb _ Refill.ownMessages); [by left|right].
  destruct (_ || _); [by left|by right].
Qed.

(** The handler after a passing validation with the credentials set. *)
Lemma transfer_run (e : env) (s : Transfer.state) :
  Transfer.validate e (Transfer.formData s) = ∅ ->
  missing (BESTRX_USERNAME e) || missing (BESTRX_PASSWORD e)
    || missing (BESTRX_PHARMACY_NUMBER e) = false ->
  let req := Wire.SubmitRxTransferRequest (text (BESTRX_USERNAME e)) (text (BESTRX_PASSWORD e))
               (Transfer.buildPayload e (text (BESTRX_PHARMACY_NUMBER e))
                  (Transfer.formData s)) in
  Transfer.handleSubmit e s =
    match Transfer.respond e (fetch e req) with
    | Ok (success, _) =>
        ({| Transfer.formData := Transfer.formData s; Transfer.errors := ∅;
            Transfer.status_ := success; Transfer.apiError := None |}, [Fetched req])
    | Ok (st, message) =>
        ({| Transfer.formData := Transfer.formData s; Transfer.errors := Transfer.errors s;
            Transfer.status_ := st; Transfer.apiError := message |}, [Fetched req])
    | Throw m =>
        ({| Transfer.formData := Transfer.formData s; Transfer.errors := Transfer.errors s;
            Transfer.status_ := error; Transfer.apiError := Some (Transfer.caught m) |},
         [Fetched req])
    end.
Proof.
  intros Hvalid Hset. unfold Transfer.handleSubmit. cbv zeta.
  by rewrite Hvalid, hasKeys_empty, Hset.
Qed.

Lemma refill_run (e : env) (s : Refill.state) :
  Refill.validate e (Refill.formData s) = ∅ ->
  missing (BESTRX_USERNAME e) || missing (BESTRX_API_KEY e)
    || missing (BESTRX_PHARMACY_NUMBER e) = false ->
  let req := Wire.SendRefillRequest (Refill.buildPayload e (Refill.formData s)) in
  Refill.handleSubmit e s =
    match Refill.respond e (fetch e req) with
    | Ok (success, _) =>
        ({| Refill.formData := Refill.formData s; Refill.errors := ∅;
            Refill.status_ := success; Refill.apiError := None |}, [Fetched req])
    | Ok (st, message) =>
        ({| Refill.formData := Refill.formData s; Refill.errors := Refill.errors s;
            Refill.status_ := st; Refill.apiError := message |}, [Fetched req])
    | Throw m =>
        ({| Refill.formData := Refill.formData s; Refill.errors := Refill.errors s;
            Refill.status_ := error; Refill.apiError := Some (Refill.caught m) |},
         [Fetched req])
    end.
Proof.
  intros Hvalid Hset. unfold Refill.handleSubmit. cbv zeta.
  destruct (RefillRun.rxEntries_validated e _ Hvalid) as [_ Hsome].
  by rewrite Hvalid, hasKeys_empty, Hset, Hsome.
Qed.

(** What [respond] returns without throwing. *)
Lemma transfer_respond_ok (e : env) (r : fetchResult) (st : status) (m : option string) :
  Transfer.respond e r = Ok (st, m) ->
  (st = success /\ m = None) \/
  (st = error /\
   m = Some "Unexpected response from pharmacy system. Please contact support.").
Proof.
  destruct r as [x|http [x|result]]; simpl; try discriminate.
  - destruct (ok http); simpl; [discriminate|].
    destruct (Transfer.failureMessage e http (JObj [])); discriminate.
  - destruct (ok http); simpl.
    + destruct result; try discriminate;
        repeat match goal with
        | |- context [if ?c then _ else _] => destruct c
        end; try (by destruct (shown e _)); intros [= <- <-]; auto; discriminate.
    + destruct (Transfer.failureMessage e http result); discriminate.
Qed.

Lemma refill_respond_ok (e : env) (r : fetchResult) (st : status) (m : option string) :
  Refill.respond e r = Ok (st, m) ->
  (st = success /\ m = None) \/
  (st = error /\
   (m = Some "Unexpected response from pharmacy system. Please contact support." \/
    exists rest, m = Some ("Some refill requests failed: " +:+ rest))).
Proof.
  destruct r as [x|http [x|result]]; simpl; try discriminate.
  - destruct (ok http); simpl; [discriminate|].
    destruct (Refill.failureMessage e http (JObj [])); discriminate.
  - destruct (ok http); simpl.
    + destruct result; try discriminate;
        try (intros [= <- <-]; right; split; [reflexivity|by left]).
      destruct (prop "RxInRefillResponse" (JObj fields)) as [[| | | |responses|]|];
        try (intros [= <- <-]; right; split; [reflexivity|by left]).
      destruct (Refill.failedRequests e responses) as [[|x failed]|]; simpl;
        try discriminate; [intros [= <- <-]; by left|].
      match goal with
      | |- (?a ≫= _) = _ -> _ => destruct a as [errorMessages|]
      end; simpl; try discriminate; intros [= <- <-].
      right. split; [reflexivity|right]. eauto.
    + destruct (Refill.failureMessage e http result); discriminate.
Qed.

End AnswerFacts.

Module ShownFacts.

Import Json Answers AnswerFacts.

(** Where the message under the transfer form comes from. *)
Lemma transfer_shown (e : env) (s : Transfer.state) :
  let a := Transfer.apiError (fst (Transfer.handleSubmit e s)) in
  a = None \/
  a = Some "Service configuration error. Please contact support." \/
  a = Some "Unexpected response from pharmacy system. Please contact support." \/
  exists m, a = Some (Transfer.caught m).
Proof.
  unfold Transfer.handleSubmit. cbv zeta.
  destruct (hasKeys _); [by left|].
  destruct (_ || _); [right; by left|].
  destruct (Transfer.respond e _) as [[st m]|m] eqn:Hr.
  - apply transfer_respond_ok in Hr as [[-> ->]|[-> ->]]; [by left|right; right; by left].
  - right. right. right. by exists m.
Qed.

(** Where the message under the refill form comes from. *)
Lemma refill_shown (e : env) (s : Refill.state) :
  let a := Refill.apiError (fst (Refill.handleSubmit e s)) in
  a = None \/
  a = Some "Service configuration error. Please contact support." \/
  a = Some "Unexpected response from pharmacy system. Please contact support." \/
  (exists rest, a = Some ("Some refill requests failed: " +:+ rest)) \/
  exists m, a = Some (Refill.caught m).
Proof.
  unfold Refill.handleSubmit. cbv zeta.
  destruct (hasKeys _) eqn:Hkeys; [by left|].
  destruct (_ || _); [right; by left|].
  apply hasKeys_false in Hkeys.
  destruct (RefillRun.rxEntries_validated e _ Hkeys) as [_ ->].
  destruct (Refill.respond e _) as [[st m]|m] eqn:Hr.
  - apply refill_respond_ok in Hr as [[-> ->]|[-> [->|[rest ->]]]].
    + by left.
    + right; right; by left.
    + right; right; right; left. by exists rest.
  - right. right. right. right. by exists m.
Qed.

End ShownFacts.

(** X4. Three texts of the transfer handler are never displayed, whatever
    the form, the configuration and the answer: the default message of a
    failed request, the fallback of an unknown code under status 400, and
    the initial message of the catch block. The catch block passes on only
    messages that hold one of its nine phrases, and these texts hold
    none. *)
Theorem transfer_texts_never_shown (e : env) (s : Transfer.state) :
  Forall (fun t => Transfer.apiError (fst (Transfer.handleSubmit e s)) <> Some t)
    Answers.transferTextsNeverShown.
Proof.
  pose proof (ShownFacts.transfer_shown e s) as Hshown. cbv zeta in Hshown.
  repeat constructor; intros Ha; rewrite Ha in Hshown;
    destruct Hshown as [H|[H|[H|[m [= H]]]]]; try discriminate;
    destruct (AnswerFacts.transfer_caught_cases m) as [[Hm Hown]|[Hm|Hm]];
    rewrite Hm in H; try discriminate;
    subst m; vm_compute in Hown; discriminate.
Qed.

(** X5. Four texts of the refill handler are never displayed: the default
    message of a failed request, the fallback of an unknown code under
    status 400, the initial message of the catch block, and the message of
    the guard on an empty list of prescription numbers, which a validated
    form never reaches. *)
Theorem refill_texts_never_shown (e : env) (s : Refill.state) :
  Forall (fun t => Refill.apiError (fst (Refill.handleSubmit e s)) <> Some t)
    Answers.refillTextsNeverShown.
Proof.
  pose proof (ShownFacts.refill_shown e s) as Hshown. cbv zeta in Hshown.
  repeat constructor; intros Ha; rewrite Ha in Hshown;
    destruct Hshown as [H|[H|[H|[[rest H]|[m [= H]]]]]]; try discriminate;
    try (rewrite RegexFacts.app_String in H; discriminate);
    destruct (AnswerFacts.refill_caught_cases m) as [[Hm Hown]|[Hm|Hm]];
    rewrite Hm in H; try discriminate;
    subst m; vm_compute in Hown; discriminate.
Qed.

Module FailureFacts.

Import Json Answers AnswerFacts.

Lemma isStr_eq (a : string) (c : value) : isStr a c = true -> c = Some (JStr a).
Proof.
  destruct c as [[| | |t| |]|]; simpl; try discriminate.
  intros H. apply String.eqb_eq in H. by subst.
Qed.

(** The handler on an answer whose status is outside 200..299. *)
Lemma transfer_failure (e : env) (s : Transfer.state) (http : Z) (b : body) :
  Transfer.validate e (Transfer.formData s) = ∅ ->
  missing (BESTRX_USERNAME e) || missing (BESTRX_PASSWORD e)
    || missing (BESTRX_PHARMACY_NUMBER e) = false ->
  fetch e (transferRequest e (Transfer.formData s)) = Response http b ->
  ok http = false ->
  forall m,
    (Transfer.failureMessage e http (errorDataOf b) = Ok m \/
     Transfer.failureMessage e http (errorDataOf b) = Throw m) ->
    Transfer.handleSubmit e s =
      ({| Transfer.formData := Transfer.formData s; Transfer.errors := Transfer.errors s;
          Transfer.status_ := error; Transfer.apiError := Some (Transfer.caught m) |},
       [Fetched (transferRequest e (Transfer.formData s))]).
Proof.
  intros Hvalid Hset Hfetch Hok m Hm.
  rewrite (transfer_run e s Hvalid Hset). cbv zeta.
  unfold transferRequest in Hfetch. rewrite Hfetch. unfold Transfer.respond.
  rewrite Hok. simpl negb. cbv iota.
  unfold errorDataOf in Hm. by destruct Hm as [-> | ->].
Qed.

Lemma refill_failure (e : env) (s : Refill.state) (http : Z) (b : body) :
  Refill.validate e (Refill.formData s) = ∅ ->
  missing (BESTRX_USERNAME e) || missing (BESTRX_API_KEY e)
    || missing (BESTRX_PHARMACY_NUMBER e) = false ->
  fetch e (refillRequest e (Refill.formData s)) = Response http b ->
  ok http = false ->
  forall m,
    (Refill.failureMessage e http (errorDataOf b) = Ok m \/
     Refill.failureMessage e http (errorDataOf b) = Throw m) ->
    Refill.handleSubmit e s =
      ({| Refill.formData := Refill.formData s; Refill.errors := Refill.errors s;
          Refill.status_ := error; Refill.apiError := Some (Refill.caught m) |},
       [Fetched (refillRequest e (Refill.formData s))]).
Proof.
  intros Hvalid Hset Hfetch Hok m Hm.
  rewrite (refill_run e s Hvalid Hset). cbv zeta.
  unfold refillRequest in Hfetch. rewrite Hfetch. unfold Refill.respond.
  rewrite Hok. simpl negb. cbv iota.
  unfold errorDataOf in Hm. by destruct Hm as [-> | ->].
Qed.

Lemma transfer_codeOf (e : env) (j : json) :
  j <> JNull -> Transfer.codeOf e j = Ok (errorCode j).
Proof. by destruct j. Qed.

Lemma refill_codeOf (e : env) (j : json) :
  j <> JNull -> Refill.codeOf e j = Ok (errorCode j).
Proof. by destruct j. Qed.

(** The message thrown for a code of the table. *)
Lemma transfer_failureMessage_code (e : env) (http : Z) (code m : string) (j : json) :
  In (http, code, m) transferCodes -> j <> JNull ->
  isStr code (errorCode j) = true ->
  Transfer.failureMessage e http j = Ok m /\ Transfer.caught m = m.
Proof.
  intros Hin Hj Hcode. apply isStr_eq in Hcode.
  unfold Transfer.failureMessage.
  simpl in Hin.
  destruct Hin as [[= <- <- <-]|[[= <- <- <-]|[[= <- <- <-]|[[= <- <- <-]|[[= <- <- <-]|[]]]]]];
    simpl Z.eqb; cbv iota; rewrite (transfer_codeOf e j Hj), Hcode; split; reflexivity.
Qed.

Lemma switch_table (c : value) (code m : string) :
  In (code, m) Refill.badRequestMessages -> isStr code c = true ->
  Refill.switch c Refill.badRequestMessages = Some m /\ Refill.caught m = m.
Proof.
  intros Hin Hcode. apply isStr_eq in Hcode. subst c. simpl in Hin.
  repeat (destruct Hin as [[= <- <-]|Hin]; [split; reflexivity|]).
  destruct Hin.
Qed.

Lemma refill_failureMessage_code (e : env) (http : Z) (code m : string) (j : json) :
  In (http, code, m) refillCodes -> j <> JNull ->
  isStr code (errorCode j) = true ->
  Refill.failureMessage e http j = Ok m /\ Refill.caught m = m.
Proof.
  intros Hin Hj Hcode. unfold refillCodes in Hin.
  apply in_app_or in Hin as [Hin|Hin].
  - apply in_map_iff in Hin as [[code' m'] [[= <- <- <-] Hin]].
    destruct (switch_table _ _ _ Hin Hcode) as [Hswitch Hcaught].
    unfold Refill.failureMessage. simpl Z.eqb. cbv iota.
    rewrite (refill_codeOf e j Hj). unfold mbind, outcome_bind. by rewrite Hswitch.
  - apply isStr_eq in Hcode. unfold Refill.failureMessage.
    destruct Hin as [[= <- <- <-]|[[= <- <- <-]|[]]];
      simpl Z.eqb; cbv iota; rewrite (refill_codeOf e j Hj), Hcode; split; reflexivity.
Qed.

End FailureFacts.

(** X6. A validated, configured transfer form whose request is answered
    with a status outside 200..299 ends in the error state after that one
    request. For a code of the handler's table under its status the
    table's message is displayed; under 401 any other code gives the
    access-denied message; under every status but 400 and 401 the generic
    message of the catch block is displayed, the handler's own default
    message being replaced by it. *)
Theorem transfer_failure_messages
    (e : env) (s : Transfer.state) (http : Z) (b : body) :
  Transfer.validate e (Transfer.formData s) = ∅ ->
  missing (BESTRX_USERNAME e) || missing (BESTRX_PASSWORD e)
    || missing (BESTRX_PHARMACY_NUMBER e) = false ->
  fetch e (Answers.transferRequest e (Transfer.formData s)) = Response http b ->
  ok http = false ->
  let shown := Transfer.apiError (fst (Transfer.handleSubmit e s)) in
  let errorData := Answers.errorDataOf b in
  Transfer.status_ (fst (Transfer.handleSubmit e s)) = error /\
  snd (Transfer.handleSubmit e s) = [Fetched (Answers.transferRequest e (Transfer.formData s))] /\
  (forall code m,
     In (http, code, m) Answers.transferCodes -> errorData <> Json.JNull ->
     Json.isStr code (Answers.errorCode errorData) = true -> shown = Some m) /\
  (http = 401 -> errorData <> Json.JNull ->
   Json.isStr "ERROR0003" (Answers.errorCode errorData) = false ->
   shown = Some "Access denied. Please contact support.") /\
  (http <> 400 -> http <> 401 ->
   shown = Some "An unexpected error occurred. Please try again or contact support.").
Proof.
  intros Hvalid Hset Hfetch Hok shown errorData.
  pose proof (FailureFacts.transfer_failure e s http b Hvalid Hset Hfetch Hok) as Hrun.
  fold errorData in Hrun. subst shown.
  split; [|split; [|split; [|split]]].
  - destruct (Transfer.failureMessage e http errorData) as [m|m] eqn:Hm;
      rewrite (Hrun m) by auto; reflexivity.
  - destruct (Transfer.failureMessage e http errorData) as [m|m] eqn:Hm;
      rewrite (Hrun m) by auto; reflexivity.
  - intros code m Hin Hdata Hcode.
    destruct (FailureFacts.transfer_failureMessage_code e http code m errorData Hin Hdata Hcode)
      as [Hm Hcaught].
    rewrite (Hrun m) by auto. simpl. by rewrite Hcaught.
  - intros -> Hdata Hcode.
    rewrite (Hrun "Access denied. Please contact support."); [reflexivity|left].
    unfold Transfer.failureMessage. simpl Z.eqb. cbv iota.
    rewrite (FailureFacts.transfer_codeOf e errorData Hdata).
    unfold mbind, outcome_bind. by rewrite Hcode.
  - intros H400 H401.
    rewrite (Hrun "An error occurred while processing your transfer request.");
      [reflexivity|left].
    unfold Transfer.failureMessage.
    destruct (Z.eqb_spec http 400) as [?|_]; [contradiction|].
    destruct (Z.eqb_spec http 401) as [?|_]; [contradiction|].
    destruct (Z.eqb_spec http 200) as [->|_]; [discriminate|reflexivity].
Qed.

Lemma transfer_failure_messages_witness :
  let e := Sample.network (Response 503 (BadJson "Unexpected token < in JSON")) in
  let e' := Sample.network (Response 400 (JsonBody (Json.JObj [("Code", Json.JStr "ERROR0069")]))) in
  let s := Sample.transferState "2026-10-01" true in
  Transfer.validate e (Transfer.formData s) = ∅ /\
  Transfer.apiError (fst (Transfer.handleSubmit e s))
    = Some "An unexpected error occurred. Please try again or contact support." /\
  Transfer.apiError (fst (Transfer.handleSubmit e' s))
    = Some "Please provide valid fill date.".
Proof.
  intros e e' s.
  assert (Hvalid : Transfer.validate e (Transfer.formData s) = ∅) by (vm_compute; reflexivity).
  assert (Hvalid' : Transfer.validate e' (Transfer.formData s) = ∅) by (vm_compute; reflexivity).
  destruct (transfer_failure_messages e s 503 (BadJson "Unexpected token < in JSON")
              Hvalid eq_refl eq_refl eq_refl) as (_ & _ & _ & _ & Hother).
  destruct (transfer_failure_messages e' s 400
              (JsonBody (Json.JObj [("Code", Json.JStr "ERROR0069")]))
              Hvalid' eq_refl eq_refl eq_refl) as (_ & _ & Hcode & _).
  split; [exact Hvalid|]. split; [apply Hother; discriminate|].
  apply (Hcode "ERROR0069"); [right; left; reflexivity|discriminate|reflexivity].
Defined.

(** X7. A validated, configured refill form whose request is answered with
    a status outside 200..299 ends in the error state after that one
    request. For a code of the handler's tables under its status (400 or
    403) the table's message is displayed; under 403 any other code gives
    the access-denied message; status 500 gives the message that the
    pharmacy system is temporarily unavailable; every status but 400, 403
    and 500 gives the generic message of the catch block. *)
Theorem refill_failure_messages
    (e : env) (s : Refill.state) (http : Z) (b : body) :
  Refill.validate e (Refill.formData s) = ∅ ->
  missing (BESTRX_USERNAME e) || missing (BESTRX_API_KEY e)
    || missing (BESTRX_PHARMACY_NUMBER e) = false ->
  fetch e (Answers.refillRequest e (Refill.formData s)) = Response http b ->
  ok http = false ->
  let shown := Refill.apiError (fst (Refill.handleSubmit e s)) in
  let errorData := Answers.errorDataOf b in
  Refill.status_ (fst (Refill.handleSubmit e s)) = error /\
  snd (Refill.handleSubmit e s) = [Fetched (Answers.refillRequest e (Refill.formData s))] /\
  (forall code m,
     In (http, code, m) Answers.refillCodes -> errorData <> Json.JNull ->
     Json.isStr code (Answers.errorCode errorData) = true -> shown = Some m) /\
  (http = 403 -> errorData <> Json.JNull ->
   Json.isStr "1004" (Answers.errorCode errorData) = false ->
   Json.isStr "1018" (Answers.errorCode errorData) = false ->
   shown = Some "Access denied. Please contact support.") /\
  (http = 500 ->
   shown = Some "The pharmacy system is temporarily unavailable. Please try again later.") /\
  (http <> 400 -> http <> 403 -> http <> 500 ->
   shown = Some "An unexpected error occurred. Please try again or contact support.").
Proof.
  intros Hvalid Hset Hfetch Hok shown errorData.
  pose proof (FailureFacts.refill_failure e s http b Hvalid Hset Hfetch Hok) as Hrun.
  fold errorData in Hrun. subst shown.
  split; [|split; [|split; [|split; [|split]]]].
  - destruct (Refill.failureMessage e http errorData) as [m|m] eqn:Hm;
      rewrite (Hrun m) by auto; reflexivity.
  - destruct (Refill.failureMessage e http errorData) as [m|m] eqn:Hm;
      rewrite (Hrun m) by auto; reflexivity.
  - intros code m Hin Hdata Hcode.
    destruct (FailureFacts.refill_failureMessage_code e http code m errorData Hin Hdata Hcode)
      as [Hm Hcaught].
    rewrite (Hrun m) by auto. simpl. by rewrite Hcaught.
  - intros -> Hdata H1004 H1018.
    rewrite (Hrun "Access denied. Please contact support."); [reflexivity|left].
    unfold Refill.failureMessage. simpl Z.eqb. cbv iota.
    rewrite (FailureFacts.refill_codeOf e errorData Hdata).
    unfold mbind, outcome_bind. by rewrite H1004, H1018.
  - intros ->.
    rewrite (Hrun "The pharmacy system is temporarily unavailable. Please try again later.");
      [reflexivity|by left].
  - intros H400 H403 H500.
    rewrite (Hrun "An error occurred while processing your refill request.");
      [reflexivity|left].
    unfold Refill.failureMessage.
    destruct (Z.eqb_spec http 400) as [?|_]; [contradiction|].
    destruct (Z.eqb_spec http 403) as [?|_]; [contradiction|].
    destruct (Z.eqb_spec http 500) as [?|_]; [contradiction|reflexivity].
Qed.

Lemma refill_failure_messages_witness :
  let e := Sample.network (Response 500 (BadJson "Unexpected end of JSON input")) in
  let e' := Sample.network (Response 400 (JsonBody (Json.JObj [("ErrorCode", Json.JStr "1012")]))) in
  let s := Sample.refillState "1980-05-17" "123, 456 789" true in
  Refill.validate e (Refill.formData s) = ∅ /\
  Refill.apiError (fst (Refill.handleSubmit e s))
    = Some "The pharmacy system is temporarily unavailable. Please try again later." /\
  Refill.apiError (fst (Refill.handleSubmit e' s))
    = Some "Please enter a valid date of birth.".
Proof.
  intros e e' s.
  assert (Hvalid : Refill.validate e (Refill.formData s) = ∅) by (vm_compute; reflexivity).
  assert (Hvalid' : Refill.validate e' (Refill.formData s) = ∅) by (vm_compute; reflexivity).
  destruct (refill_failure_messages e s 500 (BadJson "Unexpected end of JSON input")
              Hvalid eq_refl eq_refl eq_refl) as (_ & _ & _ & _ & Hdown & _).
  destruct (refill_failure_messages e' s 400
              (JsonBody (Json.JObj [("ErrorCode", Json.JStr "1012")]))
              Hvalid' eq_refl eq_refl eq_refl) as (_ & _ & Hcode & _).
  split; [exact Hvalid|]. split; [by apply Hdown|].
  apply (Hcode "1012"); [vm_compute; tauto|discriminate|reflexivity].
Defined.

Module SuccessFacts.

Import Json Answers AnswerFacts.



Lemma failedRequests_none (e : env) (responses : list json) :
  Refill.failedRequests e responses = Ok [] <-> forallb filled responses = true.
Proof.
  induction responses as [|item rest IH]; simpl; [by split|].
  destruct (Refill.failedRequests e rest) as [failed|m].
  - destruct item; simpl; try (split; discriminate);
      try (match goal with |- context [isStr "OK" ?v] => destruct (isStr "OK" v) end;
           simpl; [rewrite <- IH; split; [by intros [= ->]|by intros [= ->]]
                  |split; discriminate]).
  - destruct item; simpl; try (split; discriminate);
      try (match goal with |- context [isStr "OK" ?v] => destruct (isStr "OK" v) end;
           simpl; [rewrite <- IH|]; split; discriminate).
Qed.

(** [respond] reports success exactly on an answer of status 200..299
    whose [RxInRefillResponse] is an array of items that all have the
    status OK. *)
Lemma refill_respond_success (e : env) (r : fetchResult) :
  (exists m, Refill.respond e r = Ok (success, m)) <->
  exists http result responses,
    r = Response http (JsonBody result) /\ ok http = true /\
    prop "RxInRefillResponse" result = Some (JArr responses) /\
    forallb filled responses = true.
Proof.
  split.
  - intros [m H]. destruct r as [x|http [x|result]]; simpl in H; try discriminate.
    + destruct (ok http); simpl in H; [discriminate|].
      destruct (Refill.failureMessage e http (JObj [])); discriminate.
    + destruct (ok http) eqn:Hok; simpl in H.
      2: { destruct (Refill.failureMessage e http result); discriminate. }
      destruct result; try discriminate.
      destruct (prop "RxInRefillResponse" (JObj fields)) as [[| | | |responses|]|] eqn:Hp;
        try discriminate.
      destruct (Refill.failedRequests e responses) as [[|x failed]|] eqn:Hf;
        try discriminate.
      2: { revert H. simpl.
           match goal with |- (?a ≫= _) = _ -> _ => destruct a end; discriminate. }
      exists http, (JObj fields), responses. repeat split; try assumption.
      by apply (failedRequests_none e).
  - intros (http & result & responses & -> & Hok & Hp & Hall). exists None.
    apply (failedRequests_none e) in Hall.
    simpl. rewrite Hok. simpl negb. cbv iota.
    destruct result; try discriminate. rewrite Hp, Hall. reflexivity.
Qed.

End SuccessFacts.



(** X9. The refill form, submitted in a state other than success, ends in
    the success state exactly when the form passes validation, the three
    credentials are set, and the request is answered with a status in
    200..299 and a JSON value whose RxInRefillResponse is an array of
    items that all have the status OK. An empty array counts. *)
Theorem refill_success_iff (e : env) (s : Refill.state) :
  Refill.status_ s <> success ->
  (Refill.status_ (fst (Refill.handleSubmit e s)) = success <->
   Refill.validate e (Refill.formData s) = ∅ /\
   missing (BESTRX_USERNAME e) || missing (BESTRX_API_KEY e)
     || missing (BESTRX_PHARMACY_NUMBER e) = false /\
   exists http result responses,
     fetch e (Answers.refillRequest e (Refill.formData s))
       = Response http (JsonBody result) /\
     ok http = true /\
     Json.prop "RxInRefillResponse" result = Some (Json.JArr responses) /\
     forallb Answers.filled responses = true).
Proof.
  intros Hstatus. split.
  - unfold Refill.handleSubmit. cbv zeta.
    destruct (hasKeys _) eqn:Hkeys; [intros H; by destruct Hstatus|].
    destruct (_ || _) eqn:Hset; [discriminate|].
    destruct (Nat.eqb _ 0); [discriminate|].
    apply hasKeys_false in Hkeys. intros H.
    split; [assumption|]. split; [reflexivity|].
    apply (SuccessFacts.refill_respond_success e).
    fold (Answers.refillRequest e (Refill.formData s)) in H.
    destruct (Refill.respond e _) as [[st m]|m]; [|discriminate].
    destruct st; try discriminate. by exists m.
  - intros (Hvalid & Hset & Hanswer).
    apply (SuccessFacts.refill_respond_success e) in Hanswer as [m Hm].
    rewrite (AnswerFacts.refill_run e s Hvalid Hset). cbv zeta.
    unfold Answers.refillRequest in Hm. by rewrite Hm.
Qed.

Lemma refill_success_iff_witness :
  let e := Sample.network (Response 200 (JsonBody (Json.JObj
             [("RxInRefillResponse", Json.JArr [])]))) in
  let s := Sample.refillState "1980-05-17" "123, 456 789" true in
  Refill.status_ s <> success /\
  Refill.status_ (fst (Refill.handleSubmit e s)) = success.
Proof.
  intros e s.
  assert (Hidle : Refill.status_ s <> success) by discriminate.
  split; [exact Hidle|].
  apply (refill_success_iff e s Hidle).
  split; [vm_compute; reflexivity|]. split; [reflexivity|].
  eexists _, _, _. split; [reflexivity|]. split; [reflexivity|]. split; reflexivity.
Defined.

(** X10. The last name of every refill request that leaves the form is
    what follows the last space of the trimmed patient name (the whole
    trimmed name when it holds no space): it is not empty and holds no
    space. *)
Theorem refill_request_last_name
    (e : env) (s : Refill.state) (p : Wire.RefillPayload) :
  In (Fetched (Wire.SendRefillRequest p)) (snd (Refill.handleSubmit e s)) ->
  Wire.LastName p <> EmptyString /\
  Shapes.all (fun c => negb (Ascii.eqb c " ")) (Wire.LastName p) = true /\
  exists pre, JS.trim (Refill.patientName (Refill.formData s)) = pre +:+ Wire.LastName p /\
              (pre = EmptyString \/ exists pre', pre = pre' +:+ " ").
Proof.
  intros Hsent. apply RefillRun.refill_sent in Hsent as [Hvalid [= ->]].
  apply RefillRun.refill_validate_passes in Hvalid as (Hname & _).
  exact (NameFacts.getLastName_spec _ Hname).
Qed.

Lemma refill_request_last_name_witness :
  let e := Sample.offline in
  let s := Sample.refillState "1980-05-17" "123, 456 789" true in
  let p := Refill.buildPayload e (Refill.formData s) in
  In (Fetched (Wire.SendRefillRequest p)) (snd (Refill.handleSubmit e s)) /\
  Wire.LastName p = "Lee" /\
  Wire.LastName p <> EmptyString.
Proof.
  intros e s p.
  assert (Hsent : In (Fetched (Wire.SendRefillRequest p)) (snd (Refill.handleSubmit e s)))
    by (vm_compute; left; reflexivity).
  destruct (refill_request_last_name e s p Hsent) as [Hsome _].
  split; [exact Hsent|]. split; [reflexivity|exact Hsome].
Defined.

(** X11. The prescription numbers of every refill request that leaves the
    form are the non-blank tokens of the field, in order, each read by
    [Number] and written as JSON; there is at least one, and none was read
    as NaN. No token of a validated field is dropped on the way to the
    request. *)
Theorem refill_request_numbers
    (e : env) (s : Refill.state) (p : Wire.RefillPayload) :
  In (Fetched (Wire.SendRefillRequest p)) (snd (Refill.handleSubmit e s)) ->
  Wire.RxInRefillRequest p
    = map (fun t => {| Wire.RxNo := Wire.stringify (Num.Number t) |})
        (List.filter (fun t => negb (blank t))
           (Refill.tokens (Refill.prescriptionNumbers (Refill.formData s)))) /\
  Wire.RxInRefillRequest p <> [] /\
  Forall (fun t => Num.isNaN (Num.Number t) = false)
    (List.filter (fun t => negb (blank t))
       (Refill.tokens (Refill.prescriptionNumbers (Refill.formData s)))).
Proof.
  intros Hsent. apply RefillRun.refill_sent in Hsent as [Hvalid [= ->]].
  destruct (RefillRun.rxEntries_validated e _ Hvalid) as [Hentries Hsome].
  apply RefillRun.refill_validate_passes in Hvalid as (_ & _ & _ & _ & (_ & _ & _ & Hnum) & _).
  simpl. split; [exact Hentries|]. split.
  - intros Hnil. by rewrite Hnil in Hsome.
  - apply List.Forall_forall. intros t Ht.
    destruct (Num.isNaN (Num.Number t)) eqn:Hnan; [|reflexivity].
    assert (Hex : existsb (fun n => Num.isNaN (Num.Number n))
                    (List.filter (fun n => negb (blank n))
                       (Refill.tokens (Refill.prescriptionNumbers (Refill.formData s))))
                  = true) by (apply existsb_exists; eauto).
    by rewrite Hex in Hnum.
Qed.

Lemma refill_request_numbers_witness :
  let e := Sample.offline in
  let s := Sample.refillState "1980-05-17" " 12,, 0x1F 1e3 " true in
  let p := Refill.buildPayload e (Refill.formData s) in
  In (Fetched (Wire.SendRefillRequest p)) (snd (Refill.handleSubmit e s)) /\
  Wire.RxInRefillRequest p
    = [ {| Wire.RxNo := Wire.stringify (Num.ofZ 12) |};
        {| Wire.RxNo := Wire.stringify (Num.ofZ 31) |};
        {| Wire.RxNo := Wire.stringify (Num.ofZ 1000) |} ] /\
  Wire.RxInRefillRequest p <> [].
Proof.
  intros e s p.
  assert (Hsent : In (Fetched (Wire.SendRefillRequest p)) (snd (Refill.handleSubmit e s)))
    by (vm_compute; left; reflexivity).
  destruct (refill_request_numbers e s p Hsent) as (_ & Hsome & _).
  split; [exact Hsent|]. split; [vm_compute; reflexivity|exact Hsome].
Defined.

(** ** The window of the fill date *)

Module WindowFacts.

Import Num Date Notions Shapes DateFacts ValidatorFacts.

(** The day two years back exists, and it is the day [MakeDay] computes
    from the year set back and the month and day of the clock. *)
Lemma twoYearsBack_day (y m d : Z) :
  validDate y m d ->
  let '(yc, mc, dc) := twoYearsBack (y, m, d) in
  validDate yc mc dc /\
  dayNumber yc mc dc = DayFromYear (y - 2) + monthStart (leapDay (y - 2)) (m - 1) + d - 1.
Proof.
  intros [Hm Hd]. unfold twoYearsBack.
  destruct (Z.eqb_spec m 2) as [->|Hm2]; simpl andb.
  - destruct (Z.eqb_spec d 29) as [->|Hd29].
    + simpl in Hd.
      destruct (leapDay_cases y) as [(Hl & H4 & _)|(Hl & _)]; [|lia].
      destruct (leapDay_cases (y - 2)) as [(_ & H4' & _)|(Hl' & _)].
      { exfalso. revert H4 H4'. clear. intros. divlia. }
      unfold validDate, dayNumber. simpl. rewrite Hl'. simpl. lia.
    + unfold validDate, dayNumber. simpl in *.
      pose proof (leapDay_range y). pose proof (leapDay_range (y - 2)). lia.
  - split; [|reflexivity]. split; [assumption|].
    destruct (month_cases m Hm) as [->|[->|[->|[->|[->|[->|[->|[->|[->|[->|[->| ->]]]]]]]]]]];
      simpl in *; lia.
Qed.

(** The bound of the two-year check: the day two years back at the clock's
    time of day. *)
Lemma twoYearsAgo_cut (t : Z) (yc mc dc : Z) :
  0 <= t -> YearFromTime t <= 9999 ->
  twoYearsBack (YearFromTime t, MonthFromTime t + 1, DateFromTime t) = (yc, mc, dc) ->
  validDate yc mc dc /\
  dayNumber yc mc dc < Day t /\
  setFullYear (Some t) (minus (getFullYear (Some t)) 2)
    = Some (dayNumber yc mc dc * msPerDay + TimeWithinDay t).
Proof.
  intros Ht Hyear Hcut.
  pose proof (date_of_day_valid (Day t)) as Hvalid.
  fold (YearFromTime t) (MonthFromTime t) (DateFromTime t) in Hvalid.
  pose proof (twoYearsBack_day _ _ _ Hvalid) as Hday. rewrite Hcut in Hday.
  destruct Hday as [Hv Hday]. rewrite Z.add_simpl_r in Hday.
  assert (Hyc : yc = YearFromTime t - 2).
  { unfold twoYearsBack in Hcut. by destruct (_ && _); injection Hcut as <- _ _. }
  assert (Hago : setFullYear (Some t) (minus (getFullYear (Some t)) 2)
                 = Some (dayNumber yc mc dc * msPerDay + TimeWithinDay t)).
  { pose proof (clock_year t Ht) as Hy.
    rewrite setFullYear_two_back, <- Hday
      by (assert (2 ^ 53 = 9007199254740992) by reflexivity; lia).
    apply TimeClip_small.
    pose proof (dayNumber_in_year _ _ _ Hv) as Hin.
    assert (Htod : 0 <= TimeWithinDay t < msPerDay)
      by (unfold TimeWithinDay, msPerDay; divlia).
    pose proof (DayFromYear_mono 1968 yc) as H1.
    pose proof (DayFromYear_mono (yc + 1) 10000) as H2.
    assert (H3 : DayFromYear 1968 = -731) by reflexivity.
    assert (H4 : DayFromYear 10000 = 2932897) by reflexivity.
    revert Htod Hin H1 H2 H3 H4 Hy Hyear Hyc. unfold msPerDay.
    generalize (TimeWithinDay t) (dayNumber yc mc dc) (DayFromYear yc)
      (DayFromYear (yc + 1)) (DayFromYear 1968) (DayFromYear 10000) (YearFromTime t).
    intros. lia. }
  split; [exact Hv|]. split; [|exact Hago].
  assert (Hbound : YearFromTime t < 2 ^ 53)
    by (assert (2 ^ 53 = 9007199254740992) by reflexivity; lia).
  pose proof (twoYearsAgo_before_today t _ Ht Hbound Hago) as Hlt.
  assert (Htod : 0 <= TimeWithinDay t) by (unfold TimeWithinDay, msPerDay; divlia).
  revert Hlt Htod. unfold msPerDay.
  generalize (TimeWithinDay t) (dayNumber yc mc dc) (Day t). intros. lia.
Qed.

(** The verdict on the fill date, for a date of the calendar, in day
    numbers. *)
Lemma fill_date_verdict (e : env) (tf : Transfer.TransferFormData) (y m d yc mc dc : Z) :
  0 <= localNow e -> YearFromTime (localNow e) <= 9999 ->
  100 <= y <= 9999 -> validDate y m d ->
  Transfer.rxFillDate tf = isoDate y m d ->
  twoYearsBack (today e) = (yc, mc, dc) ->
  Transfer.validate e tf !! "rxFillDate"
  = if dayNumber y m d * msPerDay <? dayNumber yc mc dc * msPerDay + TimeWithinDay (localNow e)
    then Some "Fill date cannot be more than 2 years ago."
    else if Day (localNow e) * msPerDay <? dayNumber y m d * msPerDay
    then Some "Fill date cannot be in the future."
    else None.
Proof.
  intros Hnow Hyear Hy Hv Hfill Hcut. unfold today in Hcut.
  destruct (twoYearsAgo_cut _ _ _ _ Hnow Hyear Hcut) as (_ & _ & Hago).
  rewrite TransferFacts.lookup_rxFillDate. unfold Transfer.checkFillDate. cbv zeta.
  rewrite Hfill, blank_isoDate by lia.
  rewrite parts_isoDate by (try assumption; lia). simpl nth.
  rewrite newDate3_valid by assumption.
  rewrite setHoursZero_now; [|assumption|].
  2: { pose proof (date_of_day_valid (Day (localNow e))) as Hv0.
       pose proof (dayNumber_in_year _ _ _ Hv0) as Hin.
       rewrite dayNumber_of_day in Hin.
       fold (YearFromTime (localNow e)) in Hin.
       pose proof (DayFromYear_mono (YearFromTime (localNow e) + 1) 10000).
       assert (DayFromYear 10000 = 2932897) by reflexivity. lia. }
  rewrite Hago, !lookup_flag_eq, lookup_empty. reflexivity.
Qed.

End WindowFacts.

(** X12. The fill-date rule of the transfer validator, for a date of the
    calendar given as YYYY-MM-DD (years 100 to 9999, clock between 1970
    and 9999). With the cut at the day two years before today (1 March
    when today is 29 February): a date before the cut is rejected as more
    than two years old; the cut itself is rejected at every time of day
    but midnight; a date after the cut and not after today is accepted; a
    date after today is rejected as being in the future. *)
Theorem transfer_fill_date_window
    (e : env) (tf : Transfer.TransferFormData) (y m d : Z) :
  0 <= localNow e ->
  Date.YearFromTime (localNow e) <= 9999 ->
  100 <= y <= 9999 ->
  Notions.validDate y m d ->
  Transfer.rxFillDate tf = Notions.isoDate y m d ->
  let cut := Shapes.twoYearsBack (Notions.today e) in
  let verdict := Transfer.validate e tf !! "rxFillDate" in
  (Notions.before (y, m, d) cut ->
   verdict = Some "Fill date cannot be more than 2 years ago.") /\
  ((y, m, d) = cut ->
   verdict = if 0 <? Date.TimeWithinDay (localNow e)
             then Some "Fill date cannot be more than 2 years ago."
             else None) /\
  (Notions.before cut (y, m, d) -> ~ Notions.before (Notions.today e) (y, m, d) ->
   verdict = None) /\
  (Notions.before (Notions.today e) (y, m, d) ->
   verdict = Some "Fill date cannot be in the future.").
Proof.
  intros Hnow Hyear Hy Hv Hfill cut verdict. subst cut verdict.
  destruct (Shapes.twoYearsBack (Notions.today e)) as [[yc mc] dc] eqn:Hcut.
  rewrite (WindowFacts.fill_date_verdict e tf y m d yc mc dc Hnow Hyear Hy Hv Hfill Hcut).
  unfold Notions.today in Hcut.
  destruct (WindowFacts.twoYearsAgo_cut _ _ _ _ Hnow Hyear Hcut) as (Hvc & Hbelow & _).
  pose proof (ValidatorFacts.today_valid e) as Htoday. unfold Notions.today in *.
  destruct Htoday as [Hv0 Hday0].
  assert (Htod : 0 <= Date.TimeWithinDay (localNow e) < 86400000)
    by (unfold Date.TimeWithinDay, Date.msPerDay; Z.div_mod_to_equations; lia).
  unfold Date.msPerDay.
  split; [|split; [|split]].
  - intros Hb. pose proof (DateFacts.dayNumber_lt _ _ _ _ _ _ Hv Hvc Hb) as Hlt.
    destruct (Z.ltb_spec (Notions.dayNumber y m d * 86400000)
                (Notions.dayNumber yc mc dc * 86400000 + Date.TimeWithinDay (localNow e)));
      [reflexivity|lia].
  - intros [= -> -> ->].
    destruct (Z.ltb_spec 0 (Date.TimeWithinDay (localNow e)));
      destruct (Z.ltb_spec (Notions.dayNumber yc mc dc * 86400000)
                  (Notions.dayNumber yc mc dc * 86400000 + Date.TimeWithinDay (localNow e)));
      try lia; [reflexivity|].
    destruct (Z.ltb_spec (Date.Day (localNow e) * 86400000)
                (Notions.dayNumber yc mc dc * 86400000)); [lia|reflexivity].
  - intros Hafter Hnot.
    pose proof (DateFacts.dayNumber_lt _ _ _ _ _ _ Hvc Hv Hafter) as Hlt.
    assert (Hle : Notions.dayNumber y m d <= Date.Day (localNow e)).
    { assert (Hcases : Notions.before (y, m, d)
                         (Date.YearFromTime (localNow e), Date.MonthFromTime (localNow e) + 1,
                          Date.DateFromTime (localNow e)) \/
                       (y = Date.YearFromTime (localNow e) /\
                        m = Date.MonthFromTime (localNow e) + 1 /\
                        d = Date.DateFromTime (localNow e)))
        by (unfold Notions.before in *; lia).
      destruct Hcases as [Hb|(-> & -> & ->)]; [|lia].
      pose proof (DateFacts.dayNumber_lt _ _ _ _ _ _ Hv Hv0 Hb). lia. }
    destruct (Z.ltb_spec (Notions.dayNumber y m d * 86400000)
                (Notions.dayNumber yc mc dc * 86400000 + Date.TimeWithinDay (localNow e)));
      [lia|].
    destruct (Z.ltb_spec (Date.Day (localNow e) * 86400000)
                (Notions.dayNumber y m d * 86400000)); [lia|reflexivity].
  - intros Hb. pose proof (DateFacts.dayNumber_lt _ _ _ _ _ _ Hv0 Hv Hb) as Hlt.
    destruct (Z.ltb_spec (Notions.dayNumber y m d * 86400000)
                (Notions.dayNumber yc mc dc * 86400000 + Date.TimeWithinDay (localNow e)));
      [lia|].
    destruct (Z.ltb_spec (Date.Day (localNow e) * 86400000)
                (Notions.dayNumber y m d * 86400000)); [reflexivity|lia].
Qed.

Lemma transfer_fill_date_window_witness :
  let e := Sample.clockAt (Notions.dayNumber 2028 2 29 * 86400000 + 43200000) in
  Notions.today e = (2028, 2, 29) /\
  Shapes.twoYearsBack (Notions.today e) = (2026, 3, 1) /\
  Transfer.validate e (Sample.transferForm "2026-02-28" true) !! "rxFillDate"
    = Some "Fill date cannot be more than 2 years ago." /\
  Transfer.validate e (Sample.transferForm "2026-03-01" true) !! "rxFillDate"
    = Some "Fill date cannot be more than 2 years ago." /\
  Transfer.validate e (Sample.transferForm "2026-03-02" true) !! "rxFillDate" = None /\
  Transfer.validate e (Sample.transferForm "2028-03-01" true) !! "rxFillDate"
    = Some "Fill date cannot be in the future.".
Proof.
  intros e.
  assert (Hnow : 0 <= localNow e) by (vm_compute; discriminate).
  assert (Hyear : Date.YearFromTime (localNow e) <= 9999) by (vm_compute; discriminate).
  assert (H1 : Notions.validDate 2026 2 28) by (vm_compute; intuition discriminate).
  assert (H2 : Notions.validDate 2026 3 1) by (vm_compute; intuition discriminate).
  assert (H3 : Notions.validDate 2026 3 2) by (vm_compute; intuition discriminate).
  assert (H4 : Notions.validDate 2028 3 1) by (vm_compute; intuition discriminate).
  destruct (transfer_fill_date_window e (Sample.transferForm "2026-02-28" true) 2026 2 28
              Hnow Hyear ltac:(lia) H1 eq_refl) as (Hold & _).
  destruct (transfer_fill_date_window e (Sample.transferForm "2026-03-01" true) 2026 3 1
              Hnow Hyear ltac:(lia) H2 eq_refl) as (_ & Hcut & _).
  destruct (transfer_fill_date_window e (Sample.transferForm "2026-03-02" true) 2026 3 2
              Hnow Hyear ltac:(lia) H3 eq_refl) as (_ & _ & Hin & _).
  destruct (transfer_fill_date_window e (Sample.transferForm "2028-03-01" true) 2028 3 1
              Hnow Hyear ltac:(lia) H4 eq_refl) as (_ & _ & _ & Hfuture).
  split; [vm_compute; reflexivity|]. split; [vm_compute; reflexivity|].
  split; [apply Hold; vm_compute; right; split; [reflexivity|left; reflexivity]|].
  split; [exact (Hcut eq_refl)|].
  split.
  - apply Hin; [vm_compute; right; split; [reflexivity|right; split; reflexivity]|].
    vm_compute. intros [H|[H _]]; discriminate.
  - apply Hfuture. vm_compute. right. split; [reflexivity|left; reflexivity].
Defined.

Module DobFacts.

Import Num Date Notions Shapes DateFacts ValidatorFacts.

(** A date object built from a part that is no finite number is invalid. *)
Lemma newDate3_invalid (y m d : number) :
  finite y && finite m && finite d = false -> newDate3 y (minus m 1) d = None.
Proof.
  unfold newDate3, MakeDay.
  destruct y as [| |qy]; [reflexivity|reflexivity|].
  destruct m as [| |qm];
    [by destruct ((0 <=? trunc qy) && (trunc qy <=? 99))
    |by destruct ((0 <=? trunc qy) && (trunc qy <=? 99))|].
  destruct d as [| |qd]; [| |discriminate];
    by destruct (minus (Fin qm) 1), ((0 <=? trunc qy) && (trunc qy <=? 99)).
Qed.

Lemma gt_invalid (d : date) : gt None d = false.
Proof. by destruct d. Qed.

Lemma lt_invalid (d : date) : lt None d = false.
Proof. reflexivity. Qed.

End DobFacts.

(** X13. A date field that is not blank but cannot be read as a date is
    not rejected: when one of the first three parts between the hyphens is
    missing or is no finite number, the refill validator reports no error
    on dob and the transfer validator reports none on rxFillDate. The date
    object is invalid then, and both comparisons with it are false. *)
Theorem unreadable_dates_are_not_rejected
    (e : env) (rf : Refill.RefillFormData) (tf : Transfer.TransferFormData) :
  (blank (Refill.dob rf) = false -> Shapes.noDate (Refill.dob rf) = true ->
   Refill.validate e rf !! "dob" = None) /\
  (blank (Transfer.rxFillDate tf) = false -> Shapes.noDate (Transfer.rxFillDate tf) = true ->
   Transfer.validate e tf !! "rxFillDate" = None).
Proof.
  unfold Shapes.noDate. cbv zeta. split; intros Hblank Hparts; apply negb_true_iff in Hparts.
  - rewrite RefillFacts.lookup_dob. unfold Refill.checkDob. cbv zeta.
    rewrite Hblank, (DobFacts.newDate3_invalid _ _ _ Hparts), lookup_flag_eq.
    unfold Date.gt, Date.lt. by destruct (Date.setHoursZero _).
  - rewrite TransferFacts.lookup_rxFillDate. unfold Transfer.checkFillDate. cbv zeta.
    rewrite Hblank, (DobFacts.newDate3_invalid _ _ _ Hparts), !lookup_flag_eq.
    unfold Date.gt, Date.lt. by destruct (Date.setHoursZero _).
Qed.

Lemma unreadable_dates_are_not_rejected_witness :
  let rf := Sample.refillForm "tomorrow" "123" true in
  let tf := Sample.transferForm "2031-02" true in
  Refill.validate Sample.offline rf !! "dob" = None /\
  Transfer.validate Sample.offline tf !! "rxFillDate" = None /\
  Refill.validate Sample.offline rf = ∅.
Proof.
  intros rf tf.
  destruct (unreadable_dates_are_not_rejected Sample.offline rf tf) as [Hdob Hfill].
  split; [apply Hdob; reflexivity|]. split; [apply Hfill; reflexivity|].
  vm_compute. reflexivity.
Defined.

(** X14. The date-of-birth rule of the refill validator, for a date of the
    calendar given as YYYY-MM-DD (years 100 to 9999, clock not before
    1970): the date is rejected exactly when it is after the current local
    date; every date up to and including today is accepted. *)
Theorem refill_dob_rejected_iff_future
    (e : env) (rf : Refill.RefillFormData) (y m d : Z) :
  0 <= localNow e ->
  100 <= y <= 9999 ->
  Notions.validDate y m d ->
  Refill.dob rf = Notions.isoDate y m d ->
  (Notions.before (Notions.today e) (y, m, d) ->
   Refill.validate e rf !! "dob" = Some "Date of birth cannot be in the future.") /\
  (~ Notions.before (Notions.today e) (y, m, d) ->
   Refill.validate e rf !! "dob" = None).
Proof.
  intros Hnow Hy Hv Hdob.
  assert (Hlookup : Refill.validate e rf !! "dob"
            = if Date.gt (Some (Notions.dayNumber y m d * Date.msPerDay))
                   (Date.setHoursZero (Some (localNow e)))
              then Some "Date of birth cannot be in the future." else None).
  { rewrite RefillFacts.lookup_dob. unfold Refill.checkDob. cbv zeta.
    rewrite Hdob, DateFacts.blank_isoDate by lia.
    rewrite ValidatorFacts.parts_isoDate by (try assumption; lia). simpl nth.
    rewrite DateFacts.newDate3_valid by assumption.
    by rewrite lookup_flag_eq. }
  rewrite Hlookup. split.
  - intros Hb.
    destruct (ValidatorFacts.selected_vs_today e y m d Hnow ltac:(lia) Hv (or_introl Hb))
      as (_ & -> & _ & Hlt & _).
    specialize (Hlt Hb). unfold Date.gt, Date.lt, Date.msPerDay.
    destruct (Z.ltb_spec (Date.Day (localNow e) * 86400000)
                (Notions.dayNumber y m d * 86400000)); [reflexivity|lia].
  - intros Hnot.
    pose proof (ValidatorFacts.today_valid e) as Htoday. unfold Notions.today in *.
    destruct Htoday as [Hv0 Hday0].
    assert (Hle : Notions.dayNumber y m d <= Date.Day (localNow e)).
    { assert (Hcases : Notions.before (y, m, d)
                         (Date.YearFromTime (localNow e), Date.MonthFromTime (localNow e) + 1,
                          Date.DateFromTime (localNow e)) \/
                       (y = Date.YearFromTime (localNow e) /\
                        m = Date.MonthFromTime (localNow e) + 1 /\
                        d = Date.DateFromTime (localNow e)))
        by (unfold Notions.before in *; lia).
      destruct Hcases as [Hb|(-> & -> & ->)]; [|lia].
      pose proof (DateFacts.dayNumber_lt _ _ _ _ _ _ Hv Hv0 Hb). lia. }
    unfold Date.setHoursZero, Date.MakeDate, Date.TimeClip, Date.gt, Date.lt, Date.msPerDay.
    destruct (8640000000000000 <? _); [reflexivity|].
    destruct (Z.ltb_spec (Date.Day (localNow e) * 86400000 + 0)
                (Notions.dayNumber y m d * 86400000)); [lia|reflexivity].
Qed.

Lemma refill_dob_rejected_iff_future_witness :
  let e := Sample.clockAt Sample.noon in
  Notions.today e = (2026, 11, 1) /\
  Refill.validate e (Sample.refillForm "2026-11-02" "123" true) !! "dob"
    = Some "Date of birth cannot be in the future." /\
  Refill.validate e (Sample.refillForm "1931-02-28" "123" true) !! "dob" = None.
Proof.
  intros e.
  assert (Hnow : 0 <= localNow e) by (vm_compute; discriminate).
  assert (H1 : Notions.validDate 2026 11 2) by (vm_compute; intuition discriminate).
  assert (H2 : Notions.validDate 1931 2 28) by (vm_compute; intuition discriminate).
  destruct (refill_dob_rejected_iff_future e (Sample.refillForm "2026-11-02" "123" true)
              2026 11 2 Hnow ltac:(lia) H1 eq_refl) as [Hfuture _].
  destruct (refill_dob_rejected_iff_future e (Sample.refillForm "1931-02-28" "123" true)
              1931 2 28 Hnow ltac:(lia) H2 eq_refl) as [_ Hpast].
  split; [vm_compute; reflexivity|]. split.
  - apply Hfuture. vm_compute. right. split; [reflexivity|right; split; reflexivity].
  - apply Hpast. vm_compute. intros [H|[H _]]; discriminate.
Defined.

(** ** The waitlist store under the handlers *)

Module StoreFacts.

Import Json Waitlist Notions WaitlistStore WaitlistFacts WaitlistRun.

Lemma sameEmail_emailOf (e : env) (a : string) (entry : json) (b : bool) :
  sameEmail e a entry = Ok b ->
  b = String.eqb (JS.toLowerCase (emailOf entry)) (JS.toLowerCase a).
Proof.
  unfold sameEmail, emailOf.
  destruct entry; try discriminate;
    destruct (prop "email" _) as [[| | |t| |]|]; try discriminate; by intros [= <-].
Qed.

(** A search that finds nothing has met no entry with that address. *)
Lemma find_none_fresh (e : env) (a : string) (items : list json) :
  find e a items = Ok None -> ~ In (JS.toLowerCase a) (addresses items).
Proof.
  induction items as [|entry rest IH]; simpl; [tauto|].
  destruct (sameEmail e a entry) as [b|] eqn:Hsame; [|discriminate]. simpl.
  apply sameEmail_emailOf in Hsame. destruct b; [discriminate|].
  intros Hrest [Heq|Hin]; [|by apply IH].
  rewrite Heq, String.eqb_refl in Hsame. discriminate.
Qed.

(** On entries that have an email, the search depends on the address up
    to letter case only, and finds an entry exactly when the address is
    among those of the entries. *)
Lemma find_some_iff (e : env) (a : string) (items : list json) :
  Forall hasEmail items ->
  (exists x, find e a items = Ok (Some x)) <-> In (JS.toLowerCase a) (addresses items).
Proof.
  induction 1 as [|entry rest Hentry _ IH]; simpl.
  - split; [intros [x [=]]|tauto].
  - destruct (sameEmail_hasEmail e a entry Hentry) as [b Hb]. rewrite Hb. simpl.
    pose proof (sameEmail_emailOf _ _ _ _ Hb) as Heq.
    destruct b.
    + symmetry in Heq. apply String.eqb_eq in Heq. split; [by left|eauto].
    + rewrite IH. split; [by right|]. intros [H|H]; [|assumption].
      rewrite H, String.eqb_refl in Heq. discriminate.
Qed.

Lemma find_total (e : env) (a : string) (items : list json) :
  Forall hasEmail items ->
  (exists x, find e a items = Ok (Some x)) \/ find e a items = Ok None.
Proof.
  intros H. destruct (find_hasEmail e a items H) as [[x|] Hr]; eauto.
Qed.

Lemma isEmailOnWaitlist_iff (e : env) (a : string) (items : list json) :
  Forall hasEmail items ->
  (isEmailOnWaitlist e (Parsed (JArr items)) a = Ok true <->
   In (JS.toLowerCase a) (addresses items)) /\
  (isEmailOnWaitlist e (Parsed (JArr items)) a = Ok false <->
   ~ In (JS.toLowerCase a) (addresses items)).
Proof.
  intros H. unfold isEmailOnWaitlist. simpl.
  pose proof (find_some_iff e a items H) as Hiff.
  destruct (find_total e a items H) as [[x Hx]|Hnone]; [rewrite Hx|rewrite Hnone]; simpl.
  - assert (Hin : In (JS.toLowerCase a) (addresses items)) by (apply Hiff; eauto).
    split; split; try tauto; discriminate.
  - pose proof (find_none_fresh _ _ _ Hnone) as Hfresh.
    split; split; try tauto; try discriminate.
Qed.

Lemma hasEmail_newEntry (e : env) (entry : WaitlistFormData) :
  hasEmail (newEntry e entry) /\ emailOf (newEntry e entry) = email entry.
Proof. split; [by exists (email entry)|reflexivity]. Qed.

Lemma addresses_app (items : list json) (entry : json) :
  addresses (items ++ [entry]) = (addresses items ++ [JS.toLowerCase (emailOf entry)])%list.
Proof. unfold addresses. by rewrite map_app. Qed.

End StoreFacts.

(** X15. The waitlist store stays sound under submissions. On a store
    that reads as an array of entries with an email, no two with the same
    address up to letter case (an unreadable or empty store is one), the
    handler never rejects, whatever the form; it leaves the store as it
    was or appends one entry, the one built from the trimmed fields, and
    then ends in the success state; the store is sound again afterwards,
    so that no sequence of submissions puts the same address in twice. *)
Theorem waitlist_store_stays_sound (e : env) (store : storage) (s : Waitlist.state) :
  WaitlistStore.sound store ->
  exists s' store' effs,
    Waitlist.handleSubmit e store s = Ok (s', store', effs) /\
    WaitlistStore.sound store' /\
    ((store' = store /\ effs = []) \/
     exists items,
       Waitlist.getWaitlistEntries store = Json.JArr items /\
       store' = Parsed (Json.JArr
                  (items ++ [Waitlist.newEntry e (WaitlistStore.trimmed (Waitlist.formData s))])) /\
       effs = [Stored (Waitlist.getWaitlistEntries store')] /\
       Waitlist.status_ s' = success).
Proof.
  intros Hsound. unfold WaitlistStore.sound in Hsound.
  destruct (Waitlist.getWaitlistEntries store) as [| | | |items|] eqn:Hitems;
    try contradiction.
  destruct Hsound as [Hall Hnodup].
  assert (Hsound : WaitlistStore.sound store)
    by (unfold WaitlistStore.sound; rewrite Hitems; by split).
  assert (Hvalidate : exists errs, Waitlist.validate e store (Waitlist.formData s) = Ok errs).
  { unfold Waitlist.validate, Waitlist.checkEmail.
    destruct (blank (Waitlist.email _)); [simpl; eauto|].
    destruct (negb (Regex.search _ _)); [simpl; eauto|].
    unfold Waitlist.isEmailOnWaitlist. rewrite Hitems. simpl.
    destruct (WaitlistFacts.find_hasEmail e (Waitlist.email (Waitlist.formData s)) items Hall)
      as [r ->]. simpl. eauto. }
  destruct Hvalidate as [errs Hvalidate].
  unfold Waitlist.handleSubmit. cbv zeta. rewrite Hvalidate. simpl.
  destruct (hasKeys errs).
  { do 3 eexists. split; [reflexivity|]. split; [exact Hsound|]. left. by split. }
  fold (WaitlistStore.trimmed (Waitlist.formData s)).
  destruct (StoreFacts.find_total e
              (Waitlist.email (WaitlistStore.trimmed (Waitlist.formData s))) items Hall)
    as [[x Hfound]|Hnone].
  - rewrite (WaitlistRun.save_duplicate e store _ items x Hitems Hfound).
    do 3 eexists. split; [reflexivity|]. split; [exact Hsound|]. left. by split.
  - destruct (setItem e (Json.JArr
                 (items ++ [Waitlist.newEntry e (WaitlistStore.trimmed (Waitlist.formData s))])))
      as [message|] eqn:Hset.
    { rewrite (WaitlistRun.save_refused e store _ items message Hitems Hnone Hset).
      do 3 eexists. split; [reflexivity|]. split; [exact Hsound|]. left. by split. }
    rewrite (WaitlistRun.save_fresh e store _ items Hitems Hnone Hset).
    do 3 eexists. split; [reflexivity|]. split.
    + unfold WaitlistStore.sound. simpl. split.
      * apply Forall_app. split; [assumption|]. constructor; [|constructor].
        apply StoreFacts.hasEmail_newEntry.
      * rewrite StoreFacts.addresses_app. apply NoDup_app. split; [assumption|].
        split; [|apply NoDup_singleton].
        intros a Ha Hlast. apply list_elem_of_singleton in Hlast. subst a.
        apply (StoreFacts.find_none_fresh _ _ _ Hnone). by apply list_elem_of_In.
    + right. exists items. by repeat split.
Qed.

Lemma waitlist_store_stays_sound_witness :
  let s := Sample.waitlistState "Ann@X.com" in
  WaitlistStore.sound Malformed /\
  exists s' items,
    Waitlist.handleSubmit Sample.offline Malformed s
      = Ok (s', Parsed (Json.JArr items), [Stored (Json.JArr items)]) /\
    WaitlistStore.addresses items = ["ann@x.com"] /\
    WaitlistStore.sound (Parsed (Json.JArr items)).
Proof.
  intros s.
  assert (Hsound : WaitlistStore.sound Malformed) by (split; constructor).
  destruct (waitlist_store_stays_sound Sample.offline Malformed s Hsound)
    as (s' & store' & effs & Hrun & Hsound' & _).
  split; [exact Hsound|].
  assert (Hstore : store' = Parsed (Json.JArr
            [Waitlist.newEntry Sample.offline (WaitlistStore.trimmed (Waitlist.formData s))]) /\
          effs = [Stored (Json.JArr
            [Waitlist.newEntry Sample.offline (WaitlistStore.trimmed (Waitlist.formData s))])]).
  { vm_compute in Hrun. injection Hrun as _ <- <-. split; reflexivity. }
  destruct Hstore as [-> ->].
  exists s', [Waitlist.newEntry Sample.offline (WaitlistStore.trimmed (Waitlist.formData s))].
  split; [exact Hrun|]. split; [reflexivity|exact Hsound'].
Defined.

(** X16. Saving and looking up on the waitlist store. When
    [saveWaitlistEntry] returns, the store holds the earlier entries
    followed by the saved one; from then on every spelling of the saved
    address that differs in letter case only is reported as listed, and a
    second save of it throws the duplicate error; the answer for every
    other address is what it was before. *)
Theorem waitlist_save_then_lookup
    (e : env) (store store' : storage) (entry : Waitlist.WaitlistFormData) (saved : Json.json) :
  Waitlist.saveWaitlistEntry e store entry = Ok (saved, store') ->
  (exists items, Waitlist.getWaitlistEntries store = Json.JArr items /\
                 Waitlist.getWaitlistEntries store' = Json.JArr (items ++ [saved])) /\
  (forall e' entry',
     JS.toLowerCase (Waitlist.email entry') = JS.toLowerCase (Waitlist.email entry) ->
     Waitlist.isEmailOnWaitlist e' store' (Waitlist.email entry') = Ok true /\
     Waitlist.saveWaitlistEntry e' store' entry'
       = Throw "This email address is already on the waitlist.") /\
  (forall e' a,
     JS.toLowerCase a <> JS.toLowerCase (Waitlist.email entry) ->
     Waitlist.isEmailOnWaitlist e' store' a = Waitlist.isEmailOnWaitlist e' store a).
Proof.
  unfold Waitlist.saveWaitlistEntry.
  destruct (Waitlist.getWaitlistEntries store) as [| | | |items|] eqn:Hitems;
    simpl; try discriminate.
  destruct (Waitlist.find e (Waitlist.email entry) items) as [[x|]|] eqn:Hfind;
    simpl; try discriminate.
  destruct (setItem e _); [discriminate|].
  intros [= <- <-].
  pose proof (WaitlistRun.find_none_hasEmail _ _ _ Hfind) as Hall.
  destruct (StoreFacts.hasEmail_newEntry e entry) as [Hnew Hemail].
  assert (Hall' : Forall Notions.hasEmail (items ++ [Waitlist.newEntry e entry])).
  { apply Forall_app. split; [assumption|]. by repeat constructor. }
  split; [by exists items|]. split.
  - intros e' entry' Hsame.
    assert (Hin : In (JS.toLowerCase (Waitlist.email entry'))
                    (WaitlistStore.addresses (items ++ [Waitlist.newEntry e entry]))).
    { rewrite StoreFacts.addresses_app, Hemail, Hsame. apply in_or_app. right. by left. }
    split; [exact (proj2 (proj1 (StoreFacts.isEmailOnWaitlist_iff e' _ _ Hall')) Hin)|].
    apply (StoreFacts.find_some_iff e' _ _ Hall') in Hin as [x Hx].
    exact (WaitlistRun.save_duplicate e'
             (Parsed (Json.JArr (items ++ [Waitlist.newEntry e entry]))) entry' _ x
             eq_refl Hx).
  - intros e' a Hother.
    assert (Hsame : In (JS.toLowerCase a)
                      (WaitlistStore.addresses (items ++ [Waitlist.newEntry e entry]))
                    <-> In (JS.toLowerCase a) (WaitlistStore.addresses items)).
    { rewrite StoreFacts.addresses_app, Hemail. split.
      - intros H. apply in_app_or in H as [H|[H|[]]]; [assumption|by destruct Hother].
      - intros H. apply in_or_app. by left. }
    assert (Hstore : Waitlist.isEmailOnWaitlist e' store a
                     = Waitlist.isEmailOnWaitlist e' (Parsed (Json.JArr items)) a).
    { unfold Waitlist.isEmailOnWaitlist. by rewrite Hitems. }
    rewrite Hstore.
    destruct (StoreFacts.isEmailOnWaitlist_iff e' a items Hall) as [Hyes Hno].
    destruct (StoreFacts.isEmailOnWaitlist_iff e' a _ Hall') as [Hyes' Hno'].
    destruct (StoreFacts.find_total e' a items Hall) as [[x Hx]|Hnone].
    + assert (Hin : In (JS.toLowerCase a) (WaitlistStore.addresses items))
        by (apply (StoreFacts.find_some_iff e' _ _ Hall); eauto).
      by rewrite (proj2 Hyes Hin), (proj2 Hyes' (proj2 Hsame Hin)).
    + pose proof (StoreFacts.find_none_fresh _ _ _ Hnone) as Hout.
      by rewrite (proj2 Hno Hout), (proj2 Hno' (fun H => Hout (proj1 Hsame H))).
Qed.

Lemma waitlist_save_then_lookup_witness :
  let entry := Sample.waitlistForm "Ann@X.com" in
  exists saved store',
    Waitlist.saveWaitlistEntry Sample.offline EmptyText entry = Ok (saved, store') /\
    Waitlist.isEmailOnWaitlist Sample.offline store' "ANN@x.COM" = Ok true /\
    Waitlist.isEmailOnWaitlist Sample.offline store' "bob@x.com" = Ok false.
Proof.
  intros entry.
  assert (Hsave : Waitlist.saveWaitlistEntry Sample.offline EmptyText entry
                  = Ok (Waitlist.newEntry Sample.offline entry,
                        Parsed (Json.JArr [Waitlist.newEntry Sample.offline entry])))
    by reflexivity.
  destruct (waitlist_save_then_lookup _ _ _ _ _ Hsave) as (_ & Hsame & Hother).
  exists (Waitlist.newEntry Sample.offline entry),
         (Parsed (Json.JArr [Waitlist.newEntry Sample.offline entry])).
  split; [exact Hsave|]. split.
  - exact (proj1 (Hsame Sample.offline (Sample.waitlistForm "ANN@x.COM") eq_refl)).
  - rewrite (Hother Sample.offline "bob@x.com"); [reflexivity|discriminate].
Defined.

(** X17. Clearing the waitlist data, when [removeItem] does not throw,
    makes every address available again, also on a store the handlers
    could not read: after [clearWaitlistData] no address is listed, and a
    form that passes the checks of its fields is saved when the store
    takes the write; the store then holds exactly one entry, built from
    the trimmed fields, the clock and the status active. When the write
    throws, the handler ends in the error state and the store stays
    empty. When [removeItem] throws, the store is left as it was. *)
Theorem waitlist_clear_then_submit (e : env) (store : storage) (s : Waitlist.state) :
  let f := Waitlist.formData s in
  let cleared := WaitlistStore.clearWaitlistData e store in
  let entry := Waitlist.newEntry e (WaitlistStore.trimmed f) in
  (removeItem e <> None -> cleared = store) /\
  (removeItem e = None ->
   cleared = Absent /\
   WaitlistStore.sound cleared /\
   (forall a, Waitlist.isEmailOnWaitlist e cleared a = Ok false) /\
   (blank (Waitlist.name f) = false ->
    JS.length (JS.trim (Waitlist.name f)) <= 100 ->
    blank (Waitlist.email f) = false ->
    Regex.search Regex.emailShape (Waitlist.email f) = true ->
    blank (Waitlist.phone f) = true \/
      Regex.matches Regex.waitlistPhone (Waitlist.phone f) = true ->
    Waitlist.handleSubmit e cleared s
    = match setItem e (Json.JArr [entry]) with
      | None =>
          Ok ({| Waitlist.formData := f; Waitlist.errors := ∅; Waitlist.status_ := success |},
              Parsed (Json.JArr [entry]), [Stored (Json.JArr [entry])])
      | Some _ =>
          Ok ({| Waitlist.formData := f; Waitlist.errors := Waitlist.errors s;
                 Waitlist.status_ := error |}, Absent, [])
      end /\
    Json.prop "status" entry = Some (Json.JStr "active") /\
    Json.prop "email" entry = Some (Json.JStr (JS.trim (Waitlist.email f))))).
Proof.
  cbv zeta. unfold WaitlistStore.clearWaitlistData. split.
  { destruct (removeItem e); [reflexivity|]. intros H. by destruct H. }
  intros ->. split; [reflexivity|]. split; [split; constructor|]. split; [reflexivity|].
  intros Hname Hlength Hemail Hshape Hphone.
  split; [|split; reflexivity].
  unfold Waitlist.handleSubmit, Waitlist.validate, Waitlist.checkEmail, Waitlist.checkName.
  cbv zeta. rewrite Hname, Hemail, Hshape.
  destruct (Z.ltb_spec 100 (JS.length (JS.trim (Waitlist.name (Waitlist.formData s)))));
    [lia|].
  simpl.
  replace (negb (blank (Waitlist.phone (Waitlist.formData s))) &&
           negb (Regex.matches Regex.waitlistPhone (Waitlist.phone (Waitlist.formData s))))
    with false by (destruct Hphone as [-> | ->]; [reflexivity|by rewrite andb_false_r]).
  simpl. unfold Waitlist.saveWaitlistEntry. simpl.
  fold (WaitlistStore.trimmed (Waitlist.formData s)).
  by destruct (setItem e _).
Qed.

Lemma waitlist_clear_then_submit_witness :
  let s := Sample.waitlistState "ann@x.com" in
  let store := Parsed (Json.JObj []) in
  Waitlist.handleSubmit Sample.offline store s = Throw (typeErrorMessage Sample.offline) /\
  (exists s' store',
     Waitlist.handleSubmit Sample.offline
       (WaitlistStore.clearWaitlistData Sample.offline store) s
       = Ok (s', store', [Stored (Waitlist.getWaitlistEntries store')]) /\
     Waitlist.status_ s' = success) /\
  (exists s',
     Waitlist.handleSubmit Sample.fullStore
       (WaitlistStore.clearWaitlistData Sample.fullStore store) s
       = Ok (s', Absent, []) /\
     Waitlist.status_ s' = error).
Proof.
  intros s store.
  destruct (waitlist_clear_then_submit Sample.offline store s) as (_ & Hcleared).
  destruct (Hcleared eq_refl) as (Hstore & _ & _ & Hsubmit).
  destruct Hsubmit as (Hrun & _); try reflexivity.
  { vm_compute. discriminate. }
  { by left. }
  destruct (waitlist_clear_then_submit Sample.fullStore store s) as (_ & Hcleared').
  destruct (Hcleared' eq_refl) as (_ & _ & _ & Hsubmit').
  destruct Hsubmit' as (Hrun' & _); try reflexivity.
  { vm_compute. discriminate. }
  { by left. }
  split; [reflexivity|]. split.
  - do 2 eexists. split; [exact Hrun|reflexivity].
  - eexists. split; [exact Hrun'|reflexivity].
Defined.

(** ** The e-mail check *)

Module EmailFacts.

Import Regex Shapes RegexFacts ShapeFacts NameFacts.

Lemma lang_star_any (s : string) : lang (Star Any) s.
Proof.
  induction s as [|c s IH]; [constructor|].
  exact (lang_star_cons Any (String c EmptyString) s (lang_class _ c eq_refl) IH).
Qed.

(** An unanchored pattern accepts the texts that hold a text of its
    language. *)
Lemma search_iff (r : regex) (s : string) :
  search r s = true <-> exists a y b, s = a +:+ y +:+ b /\ lang r y.
Proof.
  unfold search. rewrite matches_lang. split.
  - intros H. inversion H as [| |? ? a t _ Ht| | | |]; subst.
    inversion Ht as [| |? ? y b Hy _| | | |]; subst. by exists a, y, b.
  - intros (a & y & b & -> & Hy).
    apply lang_seq; [apply lang_star_any|]. apply lang_seq; [assumption|apply lang_star_any].
Qed.

Lemma lang_star_class (p : ascii -> bool) (s : string) :
  lang (Star (Class p)) s <-> all p s = true.
Proof.
  split.
  - remember (Star (Class p)) as r eqn:Hr. intros H.
    induction H as [| | | | | |r' s1 s2 H1 _ H2 IH2]; try discriminate; [reflexivity|].
    injection Hr as ->. inversion H1 as [|? c Hc| | | | |]; subst.
    rewrite app_String, app_empty. simpl. by rewrite Hc, IH2.
  - induction s as [|c s IH]; simpl; [constructor|].
    intros H. apply andb_true_iff in H as [Hc Hs].
    exact (lang_star_cons (Class p) (String c EmptyString) s (lang_class p c Hc) (IH Hs)).
Qed.

Lemma lang_plus_nonSpace (s : string) : lang (Plus nonSpace) s <-> plain s = true.
Proof.
  unfold Plus, nonSpace, plain. split.
  - intros H. inversion H as [| |? ? s1 s2 H1 H2| | | |]; subst.
    inversion H1 as [|? c Hc| | | | |]; subst.
    apply lang_star_class in H2. rewrite app_String, app_empty. simpl. by rewrite Hc, H2.
  - destruct s as [|c s]; [discriminate|]. simpl.
    intros H. apply andb_true_iff in H as [Hc Hs].
    apply (lang_seq _ _ (String c EmptyString) s); [by constructor|].
    by apply lang_star_class.
Qed.

Lemma lang_chr (c : ascii) (s : string) : lang (Chr c) s <-> s = String c EmptyString.
Proof.
  unfold Chr. split.
  - intros H. inversion H as [|? c' Hc| | | | |]; subst.
    apply Ascii.eqb_eq in Hc. by subst.
  - intros ->. constructor. apply Ascii.eqb_refl.
Qed.

(** What the e-mail pattern accepts. *)
Lemma search_emailShape (s : string) :
  search emailShape s = true <-> holdsAddress s.
Proof.
  rewrite search_iff. unfold holdsAddress, emailShape. split.
  - intros (a & y & b & -> & Hy).
    inversion Hy as [| |? ? u t1 Hu H1| | | |]; subst.
    inversion H1 as [| |? ? at_ t2 Hat H2| | | |]; subst.
    inversion H2 as [| |? ? v t3 Hv H3| | | |]; subst.
    inversion H3 as [| |? ? dot w Hdot Hw| | | |]; subst.
    apply lang_chr in Hat, Hdot. subst.
    apply lang_plus_nonSpace in Hu, Hv, Hw.
    exists a, u, v, w, b. rewrite <- !app_assoc. by repeat split.
  - intros (a & u & v & w & b & -> & Hu & Hv & Hw).
    exists a, (u +:+ "@" +:+ v +:+ "." +:+ w), b. rewrite <- !app_assoc. split; [reflexivity|].
    apply lang_plus_nonSpace in Hu, Hv, Hw.
    apply lang_seq; [assumption|]. apply (lang_seq _ _ "@"); [by apply lang_chr|].
    apply lang_seq; [assumption|]. apply (lang_seq _ _ "."); [by apply lang_chr|assumption].
Qed.

Lemma trimEnd_empty (s : string) :
  JS.trimEnd s = EmptyString -> all JS.isWhitespace s = true.
Proof.
  induction s as [|c s IH]; simpl; [reflexivity|].
  destruct (JS.trimEnd s); [|discriminate].
  destruct (JS.isWhitespace c); [intros _; by rewrite IH|discriminate].
Qed.

Lemma trimStart_all (s : string) :
  all JS.isWhitespace (JS.trimStart s) = true -> all JS.isWhitespace s = true.
Proof.
  induction s as [|c s IH]; simpl; [reflexivity|].
  destruct (JS.isWhitespace c) eqn:Hc; [assumption|]. simpl. by rewrite Hc.
Qed.

(** A blank text is white space throughout. *)
Lemma blank_all (s : string) : blank s = true -> all JS.isWhitespace s = true.
Proof.
  unfold blank, JS.trim. intros H. apply trimStart_all, trimEnd_empty.
  by destruct (JS.trimEnd (JS.trimStart s)).
Qed.

Lemma holdsAddress_not_blank (s : string) : holdsAddress s -> blank s = false.
Proof.
  intros (a & u & v & w & b & -> & _).
  destruct (blank _) eqn:Hblank; [|reflexivity].
  apply blank_all in Hblank. rewrite !all_app in Hblank.
  simpl in Hblank. rewrite !andb_false_r, ?andb_false_l in Hblank. discriminate.
Qed.

End EmailFacts.

(** X18. The e-mail check of the forms accepts a text exactly when the
    text holds, anywhere, a run without white space, an at sign, another
    such run, a dot and a third such run; what stands before and after
    does not matter. The promotional sign-up passes validation exactly on
    such texts, the contact form reports no error on email exactly on
    them, and the refill form exactly on them and on a blank field. *)
Theorem email_check_accepts_iff
    (sf : Splash.SplashModalFormData) (cf : Contact.ContactFormData)
    (e : env) (rf : Refill.RefillFormData) :
  (Splash.validate sf = ∅ <-> Shapes.holdsAddress (Splash.email sf)) /\
  (Contact.validate cf !! "email" = None <-> Shapes.holdsAddress (Contact.email cf)) /\
  (Refill.validate e rf !! "email" = None <->
   blank (Refill.email rf) = true \/ Shapes.holdsAddress (Refill.email rf)).
Proof.
  split; [|split].
  - unfold Splash.validate. split.
    + destruct (blank (Splash.email sf));
        [intros H; exact (WaitlistRun.insert_empty_absurd _ _ _ _ H)|].
      intros H. apply WaitlistRun.flag_empty in H as [H _].
      apply negb_false_iff in H. by apply EmailFacts.search_emailShape.
    + intros H. rewrite (EmailFacts.holdsAddress_not_blank _ H).
      apply EmailFacts.search_emailShape in H. by rewrite H.
  - assert (Hlookup : Contact.validate cf !! "email" = Contact.checkEmail cf ∅ !! "email").
    { unfold Contact.validate. cbv zeta. rewrite lookup_flag_ne by discriminate.
      unfold Contact.checkMessage, Contact.checkPhone.
      destruct (_ && blank _); [rewrite lookup_insert_ne by discriminate
                               |rewrite lookup_flag_ne by discriminate];
        (destruct (blank (Contact.phone cf)); [rewrite lookup_insert_ne by discriminate
                                              |rewrite lookup_flag_ne by discriminate]);
        unfold Contact.checkEmail;
        (destruct (blank (Contact.email cf)); [by rewrite !lookup_insert_eq|]);
        by rewrite !lookup_flag_eq, lookup_flag_ne by discriminate. }
    rewrite Hlookup. unfold Contact.checkEmail. split.
    + destruct (blank (Contact.email cf)); [by rewrite lookup_insert_eq|].
      rewrite lookup_flag_eq, lookup_empty.
      destruct (Regex.search Regex.emailShape (Contact.email cf)) eqn:Hs; [|discriminate].
      intros _. by apply EmailFacts.search_emailShape.
    + intros H. rewrite (EmailFacts.holdsAddress_not_blank _ H).
      apply EmailFacts.search_emailShape in H. by rewrite lookup_flag_eq, H.
  - assert (Hlookup : Refill.validate e rf !! "email"
              = if negb (blank (Refill.email rf)) &&
                   negb (Regex.search Regex.emailShape (Refill.email rf))
                then Some "Please enter a valid email address." else None).
    { unfold Refill.validate. cbv zeta. rewrite !lookup_flag_ne by discriminate.
      rewrite RefillFacts.lookup_checkPrescriptionNumbers_ne by discriminate.
      rewrite lookup_flag_eq.
      destruct (_ && _); [reflexivity|].
      rewrite RefillFacts.lookup_checkPhone_ne, RefillFacts.lookup_checkDob_ne by discriminate.
      by rewrite lookup_flag_ne by discriminate. }
    rewrite Hlookup. split.
    + destruct (blank (Refill.email rf)); [by left|]. simpl.
      destruct (Regex.search Regex.emailShape (Refill.email rf)) eqn:Hs; [|discriminate].
      intros _. right. by apply EmailFacts.search_emailShape.
    + intros [->|H]; [reflexivity|].
      apply EmailFacts.search_emailShape in H. by rewrite H, andb_false_r.
Qed.

(** ** What the waitlist stores *)

Module EntryFacts.

Import Regex Shapes RegexFacts ShapeFacts NameFacts PhoneFacts EmailFacts.

(** In front of a text that starts with a character that is no white
    space, [trimStart] removes part of what stands before it only. *)
Lemma trimStart_app (a : string) (c : ascii) (t : string) :
  JS.isWhitespace c = false ->
  exists a', JS.trimStart (a +:+ String c t) = a' +:+ String c t.
Proof.
  intros Hc. induction a as [|x a IH].
  - exists EmptyString. rewrite !app_empty. simpl. by rewrite Hc.
  - rewrite app_String. simpl. destruct (JS.isWhitespace x); [exact IH|].
    exists (String x a). by rewrite app_String.
Qed.

(** [trimEnd] leaves a text that ends with a character that is no white
    space as it is. *)
Lemma trimEnd_endsPlain (s : string) : endsPlain s = true -> JS.trimEnd s = s.
Proof.
  induction s as [|c s IH]; [discriminate|].
  destruct s as [|d s].
  - simpl. intros H. apply negb_true_iff in H. by rewrite H.
  - intros H. change (endsPlain (String c (String d s))) with (endsPlain (String d s)) in H.
    change (JS.trimEnd (String c (String d s))) with
      (match JS.trimEnd (String d s) with
       | EmptyString => if JS.isWhitespace c then EmptyString else String c EmptyString
       | String x y => String c (String x y)
       end).
    by rewrite (IH H).
Qed.

Lemma endsPlain_app (t : string) (c : ascii) :
  JS.isWhitespace c = false -> endsPlain (t +:+ String c EmptyString) = true.
Proof.
  intros Hc. induction t as [|x t IH]; [simpl; by rewrite Hc|].
  rewrite app_String.
  destruct (t +:+ String c EmptyString) eqn:Ht; [|exact IH].
  by apply app_is_empty in Ht as [_ Ht].
Qed.

(** Behind a text that ends with a character that is no white space,
    [trimEnd] works on what stands behind it only. *)
Lemma trimEnd_app (t : string) (c : ascii) (b : string) :
  JS.isWhitespace c = false ->
  JS.trimEnd ((t +:+ String c EmptyString) +:+ b)
  = (t +:+ String c EmptyString) +:+ JS.trimEnd b.
Proof.
  intros Hc. induction t as [|x t IH].
  - rewrite app_empty, !app_String, !app_empty. simpl. rewrite Hc.
    by destruct (JS.trimEnd b).
  - rewrite !app_String. simpl. rewrite IH.
    destruct t; rewrite ?app_empty, !app_String; reflexivity.
Qed.

(** [trim] leaves a text as it is when neither its first nor its last
    character is white space. *)
Lemma trim_ends (c : ascii) (t : string) :
  JS.isWhitespace c = false -> endsPlain (String c t) = true ->
  JS.trim (String c t) = String c t.
Proof.
  intros Hc Hend. unfold JS.trim. simpl JS.trimStart. rewrite Hc.
  by apply trimEnd_endsPlain.
Qed.

Lemma plain_first (u : string) :
  plain u = true ->
  exists c t, u = String c t /\ JS.isWhitespace c = false.
Proof.
  unfold plain. destruct u as [|c t]; [discriminate|]. simpl.
  intros H. apply andb_true_iff in H as [Hc _]. apply negb_true_iff in Hc. eauto.
Qed.

Lemma plain_last (w : string) :
  plain w = true ->
  exists t c, w = t +:+ String c EmptyString /\ JS.isWhitespace c = false.
Proof.
  unfold plain. induction w as [|x w IH]; [discriminate|]. simpl.
  intros H. apply andb_true_iff in H as [Hx Hw]. apply negb_true_iff in Hx.
  destruct w as [|y w].
  - exists EmptyString, x. by split.
  - destruct (IH Hw) as (t & c & Heq & Hc). exists (String x t), c.
    rewrite app_String, <- Heq. by split.
Qed.

(** Trimming keeps the address a text holds. *)
Lemma holdsAddress_trim (s : string) : holdsAddress s -> holdsAddress (JS.trim s).
Proof.
  intros (a & u & v & w & b & -> & Hu & Hv & Hw).
  destruct (plain_first u Hu) as (c & u' & -> & Hc).
  destruct (plain_last w Hw) as (w' & d & -> & Hd).
  unfold JS.trim.
  destruct (trimStart_app a c (u' +:+ "@" +:+ v +:+ "." +:+ (w' +:+ String d EmptyString) +:+ b) Hc)
    as [a' Ha].
  rewrite app_String. rewrite Ha.
  pose proof (trimEnd_app (a' +:+ String c u' +:+ "@" +:+ v +:+ "." +:+ w') d b Hd) as Hb.
  replace (a' +:+ String c (u' +:+ "@" +:+ v +:+ "." +:+ (w' +:+ String d EmptyString) +:+ b))
    with (((a' +:+ String c u' +:+ "@" +:+ v +:+ "." +:+ w') +:+ String d EmptyString) +:+ b)
    by (rewrite <- !app_assoc, ?app_String, <- ?app_assoc; reflexivity).
  rewrite Hb.
  exists a', (String c u'), v, (w' +:+ String d EmptyString), (JS.trimEnd b).
  split; [|by repeat split].
  rewrite <- !app_assoc, ?app_String, <- ?app_assoc. reflexivity.
Qed.

Lemma waitlistPhone_digits (s : string) :
  matches waitlistPhone s = true ->
  digits 10 (JS.digitsOnly s) = true /\ JS.trim s = s.
Proof.
  intros H. apply matches_lang in H.
  cbv [waitlistPhone Opt Rep Chr digit phoneSep] in H.
  invert_lang; cbv beta in *;
    repeat match goal with
    | H : Ascii.eqb _ _ = true |- _ => apply Ascii.eqb_eq in H; subst
    end;
    (split;
     [ plain_chars; rewrite !digitsOnly_app; cbn [JS.digitsOnly]; read_digits; cbv iota;
       cbv [String.append]; unfold digits; cbn [all String.length]; read_digits; reflexivity
     | cbv [String.append]; apply trim_ends;
       [ first [reflexivity | by apply digit_no_whitespace]
       | cbn [endsPlain]; apply negb_true_iff; by apply digit_no_whitespace ] ]).
Qed.

End EntryFacts.

Module WaitlistChecks.

Import Json Waitlist WaitlistRun.

(** What a passing validation says about the name and the phone. *)
Lemma waitlist_field_checks (e : env) (store : storage) (f : WaitlistFormData) :
  validate e store f = Ok ∅ ->
  blank (name f) = false /\
  (100 <? JS.length (JS.trim (name f))) = false /\
  (blank (phone f) = true \/ Regex.matches Regex.waitlistPhone (phone f) = true).
Proof.
  unfold validate.
  destruct (checkEmail e store f (checkName f ∅)) as [errs|] eqn:Hemail; simpl;
    [|discriminate].
  intros [= H]. apply flag_empty in H as [Hphone ->].
  assert (Hname : checkName f ∅ = ∅).
  { unfold checkEmail in Hemail.
    destruct (blank (email f));
      [injection Hemail as H; exact (insert_empty_absurd _ _ _ _ H)|].
    destruct (negb _);
      [injection Hemail as H; exact (insert_empty_absurd _ _ _ _ H)|].
    destruct (isEmailOnWaitlist e store (email f)) as [listed|]; [|discriminate].
    simpl in Hemail. injection Hemail as H. by apply flag_empty in H as [_ H]. }
  unfold checkName in Hname.
  destruct (blank (name f)); [exact (insert_empty_absurd _ _ _ _ Hname)|].
  apply flag_empty in Hname as [Hlength _].
  split; [reflexivity|]. split; [assumption|].
  destruct (blank (phone f)); [by left|right].
  simpl in Hphone. by apply negb_false_iff in Hphone.
Qed.

End WaitlistChecks.

(** X19. Every entry the waitlist handler stores is well formed. What is
    written is the earlier entries followed by one new entry with the
    trimmed fields, the clock as id and timestamp, and the status active;
    in it the name is not empty and at most 100 characters long, the email
    holds an address and has no white space around it, and the phone is
    empty or the text as typed, holding exactly ten digits. *)
Theorem waitlist_stored_entry_is_well_formed
    (e : env) (store store' : storage) (s s' : Waitlist.state)
    (effs : list effect) (j : Json.json) :
  Waitlist.handleSubmit e store s = Ok (s', store', effs) ->
  In (Stored j) effs ->
  let f := Waitlist.formData s in
  exists items,
    Waitlist.getWaitlistEntries store = Json.JArr items /\
    store' = Parsed j /\
    j = Json.JArr (items ++
          [Json.JObj [ ("name", Json.JStr (JS.trim (Waitlist.name f)));
                       ("email", Json.JStr (JS.trim (Waitlist.email f)));
                       ("phone", Json.JStr (JS.trim (Waitlist.phone f)));
                       ("id", Json.JStr (Json.showZ (epochNow e)));
                       ("timestamp", Json.JStr (isoNow e));
                       ("status", Json.JStr "active") ]]) /\
    (JS.trim (Waitlist.name f) <> EmptyString /\
     JS.length (JS.trim (Waitlist.name f)) <= 100) /\
    (Shapes.holdsAddress (JS.trim (Waitlist.email f)) /\
     JS.trim (JS.trim (Waitlist.email f)) = JS.trim (Waitlist.email f)) /\
    (JS.trim (Waitlist.phone f) = EmptyString \/
     JS.trim (Waitlist.phone f) = Waitlist.phone f /\
     Shapes.digits 10 (JS.digitsOnly (Waitlist.phone f)) = true).
Proof.
  unfold Waitlist.handleSubmit. cbv zeta.
  destruct (Waitlist.validate e store (Waitlist.formData s)) as [errs|] eqn:Hvalid;
    simpl; [|discriminate].
  destruct (hasKeys errs) eqn:Hkeys; [by intros [= _ _ <-] []|].
  apply hasKeys_false in Hkeys. subst errs.
  destruct (WaitlistRun.validate_passes _ _ _ Hvalid) as (_ & Hshape & items & Hitems & _).
  destruct (WaitlistChecks.waitlist_field_checks _ _ _ Hvalid) as (Hname & Hlength & Hphone).
  unfold Waitlist.saveWaitlistEntry. rewrite Hitems. simpl.
  destruct (Waitlist.find e _ items) as [[x|]|]; simpl; try (by intros [= _ _ <-] []).
  destruct (setItem e _); [by intros [= _ _ <-] []|].
  intros [= _ <- <-] [[= <-]|[]].
  exists items. split; [reflexivity|]. split; [reflexivity|]. split; [reflexivity|].
  split; [|split].
  - split; [|by apply Z.ltb_ge].
    unfold blank in Hname. intros Hempty. by rewrite Hempty in Hname.
  - split; [|apply RefillRun.trim_idem].
    by apply EntryFacts.holdsAddress_trim, EmailFacts.search_emailShape.
  - destruct Hphone as [Hblank|Hmatch].
    + left. unfold blank in Hblank. by destruct (JS.trim (Waitlist.phone _)).
    + right. destruct (EntryFacts.waitlistPhone_digits _ Hmatch) as [Hdigits Htrim].
      by split.
Qed.

Lemma waitlist_stored_entry_is_well_formed_witness :
  let s := {| Waitlist.formData := {| Waitlist.name := " Ann Lee ";
                                      Waitlist.email := "ann@x.com";
                                      Waitlist.phone := "(614) 349-5140" |};
              Waitlist.errors := ∅; Waitlist.status_ := idle |} in
  exists s' j,
    Waitlist.handleSubmit Sample.offline Absent s = Ok (s', Parsed j, [Stored j]) /\
    JS.trim (Waitlist.email (Waitlist.formData s)) = "ann@x.com" /\
    Shapes.holdsAddress (JS.trim (Waitlist.email (Waitlist.formData s))) /\
    Shapes.digits 10 (JS.digitsOnly (Waitlist.phone (Waitlist.formData s))) = true.
Proof.
  intros s.
  destruct (Waitlist.handleSubmit Sample.offline Absent s) as [[[s' store'] effs]|m] eqn:Hrun;
    [|vm_compute in Hrun; discriminate].
  assert (Heffs : exists j, effs = [Stored j] /\ store' = Parsed j).
  { vm_compute in Hrun. injection Hrun as _ <- <-. eexists. split; reflexivity. }
  destruct Heffs as (j & -> & ->).
  destruct (waitlist_stored_entry_is_well_formed Sample.offline Absent (Parsed j) s s'
              [Stored j] j Hrun (or_introl eq_refl))
    as (items & _ & _ & _ & _ & (Haddress & _) & _).
  exists s', j. split; [reflexivity|]. split; [reflexivity|]. split; [exact Haddress|].
  reflexivity.
Defined.

Module OutcomeFacts.

Import Json Waitlist Notions WaitlistStore WaitlistRun StoreFacts.

(** On a sound store the validator returns, and it passes exactly when
    the fields pass and the address as typed is not listed. *)
Lemma validate_sound (e : env) (store : storage) (f : WaitlistFormData) :
  sound store ->
  (exists errs, validate e store f = Ok errs) /\
  (validate e store f = Ok ∅ <-> fieldsPass f /\ ~ listed store (email f)).
Proof.
  unfold sound, listed.
  destruct (getWaitlistEntries store) as [| | | |items|] eqn:Hitems; try contradiction.
  intros [Hall _]. split.
  - unfold validate, checkEmail.
    destruct (blank (email f)); [simpl; eauto|].
    destruct (negb (Regex.search _ _)); [simpl; eauto|].
    unfold isEmailOnWaitlist. rewrite Hitems. simpl.
    destruct (WaitlistFacts.find_hasEmail e (email f) items Hall) as [r ->]. simpl. eauto.
  - split.
    + intros Hvalid.
      destruct (validate_passes _ _ _ Hvalid) as (_ & Hshape & items' & Hitems' & Hfind).
      rewrite Hitems in Hitems'. injection Hitems' as <-.
      destruct (WaitlistChecks.waitlist_field_checks _ _ _ Hvalid) as (Hname & Hlength & Hphone).
      split; [|by apply (find_none_fresh e)].
      split; [assumption|]. split; [by apply Z.ltb_ge|].
      split; [by apply EmailFacts.search_emailShape|assumption].
    + intros [(Hname & Hlength & Haddress & Hphone) Hfresh].
      assert (Hfind : find e (email f) items = Ok None).
      { destruct (find_total e (email f) items Hall) as [Hfound|Hnone]; [|assumption].
        destruct Hfresh. by apply (find_some_iff e _ _ Hall). }
      unfold validate, checkEmail, checkName, isEmailOnWaitlist.
      rewrite Hname, (EmailFacts.holdsAddress_not_blank _ Haddress).
      apply EmailFacts.search_emailShape in Haddress. rewrite Haddress, Hitems.
      destruct (Z.ltb_spec 100 (JS.length (JS.trim (name f)))); [lia|].
      simpl. rewrite Hfind. simpl.
      replace (negb (blank (phone f)) && negb (Regex.matches Regex.waitlistPhone (phone f)))
        with false by (destruct Hphone as [-> | ->]; [reflexivity|by rewrite andb_false_r]).
      reflexivity.
Qed.

End OutcomeFacts.

(** X20. The three outcomes of a waitlist submission from the idle state
    on a sound store. It ends in the success state exactly when the fields
    pass their checks, neither the address as typed nor the trimmed
    address is listed, and the store takes the write. It ends in the error
    state, the messages on the fields, the store and the effects left as
    they were, exactly when the fields pass and the address as typed is
    not listed, but the trimmed address is listed or the write throws; for
    an address without white space at its ends, as the input of type email
    delivers it, that is exactly when the write throws. In every other
    case the status stays idle and the errors of the validator are
    shown. *)
Theorem waitlist_outcomes (e : env) (store : storage) (s : Waitlist.state) :
  WaitlistStore.sound store ->
  Waitlist.status_ s = idle ->
  let f := Waitlist.formData s in
  let accepted :=
    WaitlistStore.fieldsPass f /\ ~ WaitlistStore.listed store (Waitlist.email f) in
  let taken := setItem e (WaitlistStore.appended e store f) = None in
  exists s' store' effs,
    Waitlist.handleSubmit e store s = Ok (s', store', effs) /\
    (Waitlist.status_ s' = success <->
     accepted /\ ~ WaitlistStore.listed store (JS.trim (Waitlist.email f)) /\ taken) /\
    (Waitlist.status_ s' = error <->
     accepted /\ (WaitlistStore.listed store (JS.trim (Waitlist.email f)) \/ ~ taken)) /\
    (JS.trim (Waitlist.email f) = Waitlist.email f ->
     (Waitlist.status_ s' = error <-> accepted /\ ~ taken)) /\
    (Waitlist.status_ s' = error ->
     Waitlist.errors s' = Waitlist.errors s /\ store' = store /\ effs = []) /\
    (Waitlist.status_ s' = idle <-> ~ accepted) /\
    (Waitlist.status_ s' = idle ->
     Waitlist.validate e store f = Ok (Waitlist.errors s') /\ Waitlist.errors s' <> ∅).
Proof.
  intros Hsound Hidle f accepted taken.
  destruct (OutcomeFacts.validate_sound e store f Hsound) as [[errs Hvalid] Hpass].
  fold accepted in Hpass.
  unfold WaitlistStore.sound in Hsound.
  subst taken. unfold WaitlistStore.listed in *. unfold WaitlistStore.appended.
  destruct (Waitlist.getWaitlistEntries store) as [| | | |items|] eqn:Hitems;
    try contradiction.
  destruct Hsound as [Hall _].
  unfold Waitlist.handleSubmit. cbv zeta. fold f. rewrite Hvalid. simpl.
  destruct (hasKeys errs) eqn:Hkeys.
  - assert (Hnot : ~ accepted).
    { intros Hacc. apply Hpass in Hacc. rewrite Hvalid in Hacc. injection Hacc as ->.
      by rewrite hasKeys_empty in Hkeys. }
    do 3 eexists. split; [reflexivity|]. simpl. rewrite Hidle.
    split; [split; [discriminate|tauto]|].
    split; [split; [discriminate|tauto]|].
    split; [intros _; split; [discriminate|tauto]|].
    split; [discriminate|].
    split; [tauto|]. intros _. split; [reflexivity|].
    intros ->. by rewrite hasKeys_empty in Hkeys.
  - apply hasKeys_false in Hkeys. subst errs.
    assert (Hacc : accepted) by by apply Hpass.
    destruct (StoreFacts.find_total e (JS.trim (Waitlist.email f)) items Hall)
      as [[x Hfound]|Hnone].
    + assert (Hin : In (JS.toLowerCase (JS.trim (Waitlist.email f)))
                      (WaitlistStore.addresses items))
        by (apply (StoreFacts.find_some_iff e _ _ Hall); eauto).
      erewrite WaitlistRun.save_duplicate; [|exact Hitems|exact Hfound].
      do 3 eexists. split; [reflexivity|]. simpl.
      split; [split; [discriminate|tauto]|].
      split; [tauto|].
      split.
      { intros Hplain. rewrite Hplain in Hin. destruct Hacc as [_ Hfresh]. tauto. }
      split; [by repeat split|].
      split; [split; [discriminate|tauto]|discriminate].
    + pose proof (StoreFacts.find_none_fresh _ _ _ Hnone) as Hfresh.
      destruct (setItem e (Json.JArr (items ++ [Waitlist.newEntry e
                  {| Waitlist.name := JS.trim (Waitlist.name f);
                     Waitlist.email := JS.trim (Waitlist.email f);
                     Waitlist.phone := JS.trim (Waitlist.phone f) |}])))
        as [message|] eqn:Hset.
      * assert (Hrefused : Some message <> None :> option string) by discriminate.
        erewrite WaitlistRun.save_refused; [|exact Hitems|exact Hnone|exact Hset].
        do 3 eexists. split; [reflexivity|]. simpl.
        split; [split; [discriminate|tauto]|].
        split; [tauto|].
        split; [tauto|].
        split; [by repeat split|].
        split; [split; [discriminate|tauto]|discriminate].
      * assert (Htaken : None = None :> option string) by reflexivity.
        erewrite WaitlistRun.save_fresh; [|exact Hitems|exact Hnone|exact Hset].
        do 3 eexists. split; [reflexivity|]. simpl.
        split; [tauto|].
        split; [split; [discriminate|tauto]|].
        split; [intros _; split; [discriminate|tauto]|].
        split; [discriminate|].
        split; [split; [discriminate|tauto]|discriminate].
Qed.

Lemma waitlist_outcomes_witness :
  let entry := Json.JObj [("email", Json.JStr "ann@x.com")] in
  let store := Parsed (Json.JArr [entry]) in
  WaitlistStore.sound store /\
  (exists s' store' effs,
     Waitlist.handleSubmit Sample.offline store (Sample.waitlistState "bob@x.com")
       = Ok (s', store', effs) /\
     Waitlist.status_ s' = success /\ effs = [Stored (Waitlist.getWaitlistEntries store')]) /\
  (exists s' effs,
     Waitlist.handleSubmit Sample.fullStore store (Sample.waitlistState "bob@x.com")
       = Ok (s', store, effs) /\
     Waitlist.status_ s' = error /\ Waitlist.errors s' = ∅ /\ effs = []) /\
  (exists s' effs,
     Waitlist.handleSubmit Sample.offline store (Sample.waitlistState "Ann@x.com")
       = Ok (s', store, effs) /\
     Waitlist.status_ s' = idle /\
     Waitlist.errors s' !! "email" = Some "This email address is already on the waitlist.").
Proof.
  intros entry store.
  assert (Hsound : WaitlistStore.sound store).
  { split; [repeat constructor; by exists "ann@x.com"|].
    apply NoDup_singleton. }
  destruct (waitlist_outcomes Sample.offline store (Sample.waitlistState "bob@x.com")
              Hsound eq_refl) as (s0 & store0 & effs0 & Hrun0 & _).
  destruct (waitlist_outcomes Sample.fullStore store (Sample.waitlistState "bob@x.com")
              Hsound eq_refl) as (s1 & store1 & effs1 & Hrun1 & _).
  destruct (waitlist_outcomes Sample.offline store (Sample.waitlistState "Ann@x.com")
              Hsound eq_refl) as (s2 & store2 & effs2 & Hrun2 & _).
  split; [exact Hsound|]. split; [|split].
  - exists s0, store0, effs0. vm_compute in Hrun0. injection Hrun0 as <- <- <-.
    split; [reflexivity|]. split; reflexivity.
  - exists s1, effs1. vm_compute in Hrun1. injection Hrun1 as <- <- <-.
    split; [reflexivity|]. split; [reflexivity|]. split; reflexivity.
  - exists s2, effs2. vm_compute in Hrun2. injection Hrun2 as <- <- <-.
    split; [vm_compute; reflexivity|]. split; reflexivity.
Defined.

(** ** Navigation *)

(** X21. A click on a navigation link of the header, with the effect that
    follows it, from a state with no anchor pending: the mobile menu is
    closed afterwards, no anchor is left pending, the page is the home
    page for a link that starts with a hash and the about page for any
    other link, and at most one scroll is made. For a link to a section
    whose element exists the scroll is smooth and goes to 80 pixels above
    the element; for a link to a section without element nothing is
    scrolled. *)
Theorem nav_link_click_settles
    (d : Nav.document) (isMobileMenuOpen : bool) (a : Nav.app) (href : string) :
  Nav.scrollToAnchor a = None ->
  let '(menu, a', scrolls) := Nav.click d isMobileMenuOpen a href in
  menu = false /\
  Nav.scrollToAnchor a' = None /\
  Nav.page_ a' = (match JS.stripPrefix "#" href with
                  | Some _ => Nav.home
                  | None => Nav.about
                  end) /\
  (List.length scrolls <= 1)%nat /\
  (forall anchor, JS.stripPrefix "#" href = Some anchor -> anchor <> EmptyString ->
     scrolls = match Nav.elementTop d anchor with
               | Some elementPosition =>
                   [{| Nav.top := elementPosition + Nav.pageYOffset d - 80;
                       Nav.behavior_ := Nav.smooth |}]
               | None => []
               end).
Proof.
  intros Hsettled. unfold Nav.click, Nav.handleNavClick.
  destruct a as [p anchor0]. simpl in Hsettled. subst anchor0.
  destruct (JS.stripPrefix "#" href) as [anchor|].
  - destruct anchor as [|c anchor].
    + destruct p, isMobileMenuOpen; simpl; repeat split; try lia; by intros ? [= <-].
    + destruct p, isMobileMenuOpen; simpl;
        (destruct (Nav.elementTop d (String c anchor)) eqn:Htop; simpl;
         repeat split; try lia; intros ? [= <-] _; by rewrite Htop).
  - destruct p, isMobileMenuOpen; simpl; repeat split; try lia; discriminate.
Qed.

Lemma nav_link_click_settles_witness :
  let d := {| Nav.elementTop := fun id => if String.eqb id "services" then Some 640 else None;
              Nav.pageYOffset := 1200 |} in
  let a := {| Nav.page_ := Nav.about; Nav.scrollToAnchor := None |} in
  Nav.click d true a "#services"
    = (false, {| Nav.page_ := Nav.home; Nav.scrollToAnchor := None |},
       [{| Nav.top := 1760; Nav.behavior_ := Nav.smooth |}]) /\
  Nav.click d true a "#pricing"
    = (false, {| Nav.page_ := Nav.home; Nav.scrollToAnchor := None |}, []) /\
  (let '(menu, a', scrolls) := Nav.click d true a "about" in menu = false).
Proof.
  intros d a.
  pose proof (nav_link_click_settles d true a "about" eq_refl) as Habout.
  split; [reflexivity|]. split; [reflexivity|].
  destruct (Nav.click d true a "about") as [[menu a'] scrolls].
  exact (proj1 Habout).
Defined.
